(** * A shallow embedding of the task-orchestration core

    The development follows the JavaScript sources of the assistant:
    the TTL cache ([utils/cacheManager]), the date/time parser and the
    slot finder ([calendar/eventAnalyzer]), the scheduling flow
    ([calendar/schedulingFlow]), the mail composition flow
    ([emailService]) and the turn handler of [services/chat]; then the
    batch operations of the cache, the cached calendar reads
    ([calendar/calendarClient]), the creation of events
    ([calendar/eventOperations]), the choice among suggested slots
    ([services/calendar]) and the drafting of a mail with retries.

    Conventions.
    - JavaScript strings are modelled as [string]: a character is a code
      unit below 256, read as in Latin-1.  The case mapping and the white
      space test are those of JavaScript on these code units (U+00A0 is a
      blank; the letters of U+00C0..U+00DE have lower-case forms); text with
      other code units is outside the model.
    - Time stamps ([Date.now()], the time value of a [Date]) are integers
      of [Z], in milliseconds; an invalid [Date] is [None].
    - Local time is a fixed offset from UTC.
    - One clock reading is used per turn.
    - External collaborators (completion gateway, calendar and mail
      back ends, message store, regular-expression matches on free text)
      are fields of a record of oracles that the handlers receive. *)

From Stdlib Require Import ZArith List String Ascii Bool Lia Sorted DecimalString
  Permutation.
From Equations Require Import Equations.
Import ListNotations.
Open Scope string_scope.
Open Scope Z_scope.

(** ** JavaScript string primitives *)

Module JsString.

Definition isUpper (n : nat) : bool :=
  ((Nat.leb 65 n && Nat.leb n 90)
   || (Nat.leb 192 n && Nat.leb n 222 && negb (Nat.eqb n 215)))%bool.

Definition lowerChar (c : ascii) : ascii :=
  let n := nat_of_ascii c in
  if isUpper n then ascii_of_nat (n + 32) else c.

(** [String.prototype.toLowerCase] *)
Fixpoint toLowerCase (s : string) : string :=
  match s with
  | EmptyString => EmptyString
  | String c s' => String (lowerChar c) (toLowerCase s')
  end.

(** [String.prototype.startsWith] *)
Definition startsWith (s sub : string) : bool := String.prefix sub s.

(** [String.prototype.includes] *)
Fixpoint includes (s sub : string) : bool :=
  if startsWith s sub then true
  else match s with
       | EmptyString => false
       | String _ s' => includes s' sub
       end.

(** White space and line terminators, the characters that [trim] strips
    and that [\s] matches: TAB, LF, VT, FF, CR, SP and NBSP. *)
Definition isSpace (c : ascii) : bool :=
  let n := nat_of_ascii c in
  (Nat.eqb n 32 || (Nat.leb 9 n && Nat.leb n 13) || Nat.eqb n 160)%bool.

(** A no-break space, U+00A0. *)
Definition nbsp : string := String (ascii_of_nat 160) EmptyString.

Fixpoint trimStart (s : string) : string :=
  match s with
  | String c s' => if isSpace c then trimStart s' else s
  | EmptyString => EmptyString
  end.

Fixpoint trimEnd (s : string) : string :=
  match s with
  | EmptyString => EmptyString
  | String c s' =>
      match trimEnd s' with
      | EmptyString => if isSpace c then EmptyString else String c EmptyString
      | t => String c t
      end
  end.

(** [String.prototype.trim] *)
Definition trim (s : string) : string := trimEnd (trimStart s).

(** The double quote character, as a string. *)
Definition dq : string := String (ascii_of_nat 34) EmptyString.

(** Truthiness of a string value: only the empty string is falsy. *)
Definition truthy (s : string) : bool :=
  match s with EmptyString => false | _ => true end.

(** [String.prototype.split] on a one-character separator. *)
Fixpoint splitOn (sep : ascii) (s : string) : list string :=
  match s with
  | EmptyString => [EmptyString]
  | String c s' =>
      if Ascii.eqb c sep then EmptyString :: splitOn sep s'
      else match splitOn sep s' with
           | [] => [String c EmptyString]
           | h :: t => String c h :: t
           end
  end.

Definition isDigit (c : ascii) : bool :=
  let n := nat_of_ascii c in (Nat.leb 48 n && Nat.leb n 57)%bool.

Definition digitVal (c : ascii) : Z := Z.of_nat (nat_of_ascii c) - 48.

Fixpoint digitsValue (acc : Z) (s : string) : option Z :=
  match s with
  | EmptyString => Some acc
  | String c s' =>
      if isDigit c then digitsValue (10 * acc + digitVal c) s' else None
  end.

(** The value of a non-empty run of decimal digits. *)
Definition unsignedValue (s : string) : option Z :=
  match s with
  | EmptyString => None
  | _ => digitsValue 0 s
  end.

(** [Number(s)]: surrounding white space is dropped; what is left is 0 when
    empty and the value of a run of decimal digits with an optional sign;
    [None] is [NaN].  Numbers are integers here, so a text with a fraction,
    an exponent, a radix prefix or [Infinity] also reads as [None], and a
    run of digits is not rounded where a double would be (from 2^53 on). *)
Definition Number (s : string) : option Z :=
  match trim s with
  | EmptyString => Some 0
  | String "+"%char rest => unsignedValue rest
  | String "-"%char rest => option_map Z.opp (unsignedValue rest)
  | digits => digitsValue 0 digits
  end.

End JsString.

(** ** The TTL cache ([cacheManager]) *)

Module Cache.

Record options := mkOptions {
  maxSize : Z;
  defaultTTL : Z;
  cleanupInterval : Z
}.

Definition DEFAULT_OPTIONS : options :=
  {| maxSize := 100; defaultTTL := 60 * 1000; cleanupInterval := 5 * 60 * 1000 |}.

Section WithValue.

Variable V : Type.

Record item := mkItem {
  value : V;
  expires : Z;
  timestamp : Z
}.

(** The [Map] of the module, in insertion order. *)
Definition store := list (string * item).

Definition map_size (c : store) : Z := Z.of_nat (List.length c).

Fixpoint map_get (c : store) (key : string) : option item :=
  match c with
  | [] => None
  | (k, it) :: c' => if String.eqb k key then Some it else map_get c' key
  end.

Definition map_has (c : store) (key : string) : bool :=
  match map_get c key with Some _ => true | None => false end.

(** [Map.prototype.set]: an existing key keeps its place. *)
Fixpoint map_set (c : store) (key : string) (it : item) : store :=
  match c with
  | [] => [(key, it)]
  | (k, old) :: c' =>
      if String.eqb k key then (k, it) :: c' else (k, old) :: map_set c' key it
  end.

Fixpoint map_delete (c : store) (key : string) : store :=
  match c with
  | [] => []
  | (k, it) :: c' =>
      if String.eqb k key then c' else (k, it) :: map_delete c' key
  end.

(** One iteration of the [forEach] of [getOldestKey]; the running minimum
    starts at [Infinity], here [None]. *)
Definition oldest_step (acc : option string * option Z) (e : string * item)
  : option string * option Z :=
  let '(key, it) := e in
  let below := match snd acc with
               | None => true
               | Some t => timestamp it <? t
               end in
  if below then (Some key, Some (timestamp it)) else acc.

Definition getOldestKey (c : store) : option string :=
  if map_size c =? 0 then None
  else fst (fold_left oldest_step c (None, None)).

(** [set(key, value, ttl)] at clock reading [now]; [ttl = None] is the
    omitted argument. *)
Definition set (opts : options) (now : Z) (c : store)
    (key : string) (v : V) (ttl : option Z) : bool * store :=
  let ttl := match ttl with Some t => t | None => defaultTTL opts end in
  if negb (JsString.truthy key) then (false, c)
  else
    let c1 :=
      if (maxSize opts <=? map_size c) && negb (map_has c key) then
        match getOldestKey c with
        | Some oldestKey =>
            if JsString.truthy oldestKey then map_delete c oldestKey else c
        | None => c
        end
      else c in
    (true, map_set c1 key {| value := v; expires := now + ttl; timestamp := now |}).

Definition get (now : Z) (c : store) (key : string) : option V * store :=
  if negb (JsString.truthy key) || negb (map_has c key) then (None, c)
  else match map_get c key with
       | Some it =>
           if expires it <? now then (None, map_delete c key)
           else (Some (value it), c)
       | None => (None, c)
       end.

Definition has (now : Z) (c : store) (key : string) : bool * store :=
  if negb (JsString.truthy key) || negb (map_has c key) then (false, c)
  else match map_get c key with
       | Some it =>
           if expires it <? now then (false, map_delete c key)
           else (true, c)
       | None => (false, c)
       end.

Definition remove (c : store) (key : string) : bool * store :=
  (map_has c key, map_delete c key).

Definition clear (c : store) : bool * store := (true, []).

Definition cleanup (now : Z) (c : store) : Z * store :=
  let kept := filter (fun e => negb (expires (snd e) <? now)) c in
  (map_size c - map_size kept, kept).

(** Keys of a store built by [set] are pairwise distinct and non-empty. *)
Definition keys (c : store) : list string := map fst c.

Definition wf (c : store) : Prop :=
  NoDup (keys c) /\ Forall (fun k => JsString.truthy k = true) (keys c).

End WithValue.

Arguments mkItem {V}.
Arguments value {V}.
Arguments expires {V}.
Arguments timestamp {V}.
Arguments map_get {V}.
Arguments map_has {V}.
Arguments map_set {V}.
Arguments map_delete {V}.
Arguments map_size {V}.
Arguments getOldestKey {V}.
Arguments oldest_step {V}.
Arguments set {V}.
Arguments get {V}.
Arguments has {V}.
Arguments remove {V}.
Arguments cleanup {V}.
Arguments keys {V}.
Arguments wf {V}.

End Cache.

(** ** Results of code that may throw *)

Module Js.

Inductive result (A : Type) : Type :=
| Ok (a : A)
| Throw (error : string).

Arguments Ok {A}.
Arguments Throw {A}.

(** A string value that is truthy, if any. *)
Definition truthyOpt (o : option string) : option string :=
  match o with
  | Some s => if JsString.truthy s then Some s else None
  | None => None
  end.

Definition isEmpty {A} (l : list A) : bool :=
  match l with [] => true | _ => false end.

End Js.

(** ** JavaScript numbers and dates *)

Module JsNum.

(** A number is an integer or [NaN]. *)
Inductive num := Fin (n : Z) | NaN.

Definition ofOption (o : option Z) : num :=
  match o with Some n => Fin n | None => NaN end.

Definition add (a b : num) : num :=
  match a, b with Fin x, Fin y => Fin (x + y) | _, _ => NaN end.

Definition sub (a b : num) : num :=
  match a, b with Fin x, Fin y => Fin (x - y) | _, _ => NaN end.

Definition mul (a b : num) : num :=
  match a, b with Fin x, Fin y => Fin (x * y) | _, _ => NaN end.

(** [a <= b]; comparisons with [NaN] are false. *)
Definition leb (a b : num) : bool :=
  match a, b with Fin x, Fin y => x <=? y | _, _ => false end.

(** Truthiness: [0] and [NaN] are falsy. *)
Definition truthy (a : num) : bool :=
  match a with Fin 0 => false | Fin _ => true | NaN => false end.

(** Reading position [i] of an array of numbers in arithmetic: a missing
    element is [undefined], which arithmetic turns into [NaN]. *)
Definition at_ (l : list num) (i : nat) : num := nth i l NaN.

(** A value that is a number or [null]. *)
Inductive nullable := Num (n : num) | Null.

Coercion Num : num >-> nullable.

(** [ToNumber]: [null] is 0 in arithmetic and in comparisons. *)
Definition toNumber (v : nullable) : num :=
  match v with Num n => n | Null => Fin 0 end.

End JsNum.

Module JsDate.

Definition msPerSecond : Z := 1000.
Definition msPerMinute : Z := 60 * 1000.
Definition msPerHour : Z := 60 * 60 * 1000.
Definition msPerDay : Z := 24 * 60 * 60 * 1000.
Definition maxTime : Z := 8640000000000000.

(** [TimeClip] *)
Definition timeClip (t : Z) : option Z :=
  if Z.abs t <=? maxTime then Some t else None.

Section Local.

(** Offset of local time from UTC, in milliseconds. *)
Variable tz : Z.

Definition localTime (t : Z) : Z := t + tz.
Definition localDay (t : Z) : Z := localTime t / msPerDay.
Definition timeWithinDay (t : Z) : Z := localTime t mod msPerDay.

Definition getHours (t : Z) : Z := timeWithinDay t / msPerHour.
Definition getMinutes (t : Z) : Z := (timeWithinDay t / msPerMinute) mod 60.
Definition getSeconds (t : Z) : Z := (timeWithinDay t / msPerSecond) mod 60.
Definition getMilliseconds (t : Z) : Z := timeWithinDay t mod msPerSecond.

(** [MakeDate(Day(t), MakeTime(h, m, s, ms))], back in UTC. *)
Definition makeLocal (t h m s ms : Z) : Z :=
  localDay t * msPerDay + h * msPerHour + m * msPerMinute + s * msPerSecond + ms - tz.

(** [d.setHours(h, m, s, ms)] on a valid date whose result stays in
    range. *)
Definition setHours (t h m s ms : Z) : Z := makeLocal t h m s ms.

(** [d.setMinutes(m, s, ms)] *)
Definition setMinutes (t m s ms : Z) : Z := makeLocal t (getHours t) m s ms.

(** The same two setters on a date that may be invalid and with arguments
    that may be [NaN]; the result is clipped as [TimeClip] does. *)
Definition setHoursOpt (d : option Z) (h m : JsNum.num) (s ms : Z) : option Z :=
  match d, h, m with
  | Some t, JsNum.Fin h, JsNum.Fin m => timeClip (makeLocal t h m s ms)
  | _, _, _ => None
  end.

(** [d.setMinutes(m)]: seconds and milliseconds are kept. *)
Definition setMinutesOpt (d : option Z) (m : JsNum.num) : option Z :=
  match d, m with
  | Some t, JsNum.Fin m =>
      timeClip (makeLocal t (getHours t) m (getSeconds t) (getMilliseconds t))
  | _, _ => None
  end.

Definition getMinutesOpt (d : option Z) : JsNum.num :=
  match d with Some t => JsNum.Fin (getMinutes t) | None => JsNum.NaN end.

(** [a.toDateString() === b.toDateString()] *)
Definition sameLocalDay (a b : Z) : bool := localDay a =? localDay b.

End Local.

End JsDate.

(** ** The event analyzer ([calendar/eventAnalyzer]) *)

Module EventAnalyzer.

Import JsNum.

(** The object returned by [parseDateAndTime]: [title] a string,
    [attendees] an array of strings, the other texts strings or [null],
    [duration] a number or [null].  A text field that is [null] or missing is
    [None]; [duration] is [None] when the object carries none. *)
Record Parsed := mkParsed {
  date : option string;
  time : option string;
  endTime : option string;
  duration : option nullable;
  title : string;
  description : option string;
  attendees : list string;
  location : option string
}.

Definition defaultParsed : Parsed :=
  {| date := None; time := None; endTime := None; duration := Some (Num (Fin 60));
     title := "New Event"; description := None; attendees := [];
     location := None |}.

Definition setDuration (p : Parsed) (d : num) : Parsed :=
  {| date := date p; time := time p; endTime := endTime p;
     duration := Some (Num d); title := title p; description := description p;
     attendees := attendees p; location := location p |}.

(** [s.split(':').map(Number)] *)
Definition clockParts (s : string) : list num :=
  map (fun x => ofOption (JsString.Number x)) (JsString.splitOn ":"%char s).

(** [!parsed.duration] *)
Definition falsyDuration (d : option nullable) : bool :=
  match d with None => true | Some v => negb (truthy (toNumber v)) end.

(** The block "Calculate duration if needed" of [parseDateAndTime]. *)
Definition inferDuration (p : Parsed) : Parsed :=
  match Js.truthyOpt (time p), Js.truthyOpt (endTime p) with
  | Some t, Some e =>
      if falsyDuration (duration p) then
        let startParts := clockParts t in
        let endParts := clockParts e in
        let startHours := at_ startParts 0 in
        let startMinutes := at_ startParts 1 in
        let endHours := at_ endParts 0 in
        let endMinutes := at_ endParts 1 in
        let durationMinutes :=
          sub (add (mul endHours (Fin 60)) endMinutes)
              (add (mul startHours (Fin 60)) startMinutes) in
        let durationMinutes :=
          if leb durationMinutes (Fin 0)
          then add durationMinutes (Fin (24 * 60))
          else durationMinutes in
        setDuration p durationMinutes
      else p
  | _, _ => p
  end.

(** The longest prefix of decimal digits. *)
Fixpoint leadingDigits (s : string) : string :=
  match s with
  | String c s' => if JsString.isDigit c then String c (leadingDigits s') else EmptyString
  | EmptyString => EmptyString
  end.

(** [parseInt(s, 10)]: leading white space is skipped, a sign is read, and
    the value is that of the longest prefix of digits that follows; without
    a digit there the result is [NaN]. *)
Definition parseInt (s : string) : num :=
  let t := JsString.trimStart s in
  let negative := match t with String "-"%char _ => true | _ => false end in
  let rest :=
    match t with
    | String "-"%char r => r
    | String "+"%char r => r
    | _ => t
    end in
  match leadingDigits rest with
  | EmptyString => NaN
  | ds =>
      match JsString.digitsValue 0 ds with
      | Some n => Fin (if negative then - n else n)
      | None => NaN
      end
  end.

(** [s.match(/\d+/)]: the first run of digits. *)
Fixpoint firstDigits (s : string) : option string :=
  match s with
  | EmptyString => None
  | String c s' =>
      if JsString.isDigit c then Some (leadingDigits s) else firstDigits s'
  end.

(** [s.split(/\s/)[0]] *)
Fixpoint untilSpace (s : string) : string :=
  match s with
  | String c s' => if JsString.isSpace c then EmptyString else String c (untilSpace s')
  | EmptyString => EmptyString
  end.

Definition natToString (n : Z) : string :=
  NilZero.string_of_uint (N.to_uint (Z.to_N n)).

(** [hour.toString().padStart(2, '0')] for a hour of the clock. *)
Definition pad2 (n : num) : string :=
  match n with
  | NaN => "NaN"
  | Fin h => let s := natToString h in
             if Nat.ltb (String.length s) 2 then "0" ++ s else s
  end.

Definition to24 (isPM : bool) (hour : num) : num :=
  let hour := match hour with
              | Fin h => if isPM && (h <? 12) then Fin (h + 12) else hour
              | NaN => NaN
              end in
  match hour with
  | Fin h => if negb isPM && (h =? 12) then Fin 0 else hour
  | NaN => NaN
  end.

(** The block "Extract time" of the regular-expression fallback, from the
    lower-cased text [timeText] that [timeRegex] matched. *)
Definition convertTimeText (timeText : string) : option string :=
  let hasAmPm := JsString.includes timeText "am" || JsString.includes timeText "pm" in
  if JsString.includes timeText ":" then
    if hasAmPm then
      match JsString.splitOn ":"%char timeText with
      | hours :: minutesPart :: _ =>
          if JsString.truthy minutesPart then
            let minutes := untilSpace minutesPart in
            let isPM := JsString.includes timeText "pm" in
            let hour := to24 isPM (parseInt hours) in
            Some (pad2 hour ++ ":" ++ minutes)
          else None
      | _ => None
      end
    else Some timeText
  else if hasAmPm then
    match firstDigits timeText with
    | Some hourMatch =>
        let isPM := JsString.includes timeText "pm" in
        let hour := to24 isPM (parseInt hourMatch) in
        Some (pad2 hour ++ ":00")
    | None => None
    end
  else None.

(** What the parser takes from outside: the completion gateway's answer
    followed by the search for a JSON object and [JSON.parse] ([None] when
    the call fails, nothing matches, decoding fails, or a clock field of the
    decoded object is not a string, on which the duration block throws),
    and the matches of the regular expressions of the fallback on the
    user's text. *)
Record Oracle := mkOracle {
  gatewayJson : string -> option Parsed;
  regexDate : string -> option string;
  timeRegexMatch : string -> option string;
  regexTitle : string -> string;
  regexAttendees : string -> list string
}.

Definition regexFallback (o : Oracle) (userInput : string) : Parsed :=
  let time :=
    match timeRegexMatch o userInput with
    | Some m => convertTimeText (JsString.toLowerCase m)
    | None => None
    end in
  {| date := regexDate o userInput; time := time; endTime := None;
     duration := Some (Num (Fin 60)); title := regexTitle o userInput;
     description := None; attendees := regexAttendees o userInput;
     location := None |}.

Definition parseDateAndTime (o : Oracle) (userInput : string) : Parsed :=
  if negb (JsString.truthy userInput) then defaultParsed
  else match gatewayJson o userInput with
       | Some parsed => inferDuration parsed
       | None => regexFallback o userInput
       end.

(** A calendar event as the slot finder reads it: the instant of
    [start.dateTime] when there is one (a timed event), the instant of
    [start.date] otherwise, and the instant of [end.dateTime]. *)
Record Event := mkEvent {
  startDateTime : option Z;
  startDate : Z;
  endDateTime : Z
}.

Record Slot := mkSlot { start : Z; end_ : Z }.

Definition sortKey (e : Event) : Z :=
  match startDateTime e with Some t => t | None => startDate e end.

(** [events.sort((a, b) => aStart - bStart)]: a stable sort. *)
Fixpoint insertEvent (e : Event) (l : list Event) : list Event :=
  match l with
  | [] => [e]
  | x :: r => if sortKey e <=? sortKey x then e :: l else x :: insertEvent e r
  end.

Definition sortEvents (l : list Event) : list Event := fold_right insertEvent [] l.

Definition halfHour : Z := 30 * 60 * 1000.

(** The inner [while] loop: slots every 30 minutes from [slotStart] while
    [slotStart + durationMs <= limit]. *)
Equations? slotsFrom (durationMs limit slotStart : Z) : list Slot
  by wf (Z.to_nat (limit - durationMs - slotStart + 1)) lt :=
  slotsFrom durationMs limit slotStart with Z_le_dec (slotStart + durationMs) limit => {
    | left _ := {| start := slotStart; end_ := slotStart + durationMs |}
                :: slotsFrom durationMs limit (slotStart + halfHour);
    | right _ := [] }.
Proof. unfold halfHour. lia. Qed.

(** One iteration of the loop over the sorted events. *)
Definition gapStep (durationMs : Z) (acc : list Slot * Z) (event : Event)
  : list Slot * Z :=
  let '(availableSlots, currentStart) := acc in
  match startDateTime event with
  | None => acc
  | Some eventStart =>
      let eventEnd := endDateTime event in
      let availableSlots :=
        if currentStart <? eventStart then
          if durationMs <=? eventStart - currentStart
          then (availableSlots ++ slotsFrom durationMs eventStart currentStart)%list
          else availableSlots
        else availableSlots in
      let currentStart := if currentStart <? eventEnd then eventEnd else currentStart in
      (availableSlots, currentStart)
  end.

Section Finder.

Variable tz : Z.
(** The clock reading of the call. *)
Variable now : Z.
(** [getCalendarEvents(startDate, endDate)]; it returns the empty list on
    every failure. *)
Variable getCalendarEvents : Z -> Z -> list Event.

(** "Skip past times if date is today". *)
Definition windowStart (target : Z) : Z :=
  let dayStart := JsDate.setHours tz target 9 0 0 0 in
  if JsDate.sameLocalDay tz target now then
    if dayStart <? now then
      (* Math.ceil(now.getMinutes() / 30) * 30, on minutes 0..59 *)
      let roundedMinutes := ((JsDate.getMinutes tz now + 29) / 30) * 30 in
      JsDate.setMinutes tz now roundedMinutes 0 0
    else dayStart
  else dayStart.

(** [findAvailableTimeSlots(targetDate, duration)]; [targetDate = None] is
    a missing or invalid date, and a duration that is not a number gives
    no slot since every comparison with it is false. *)
Definition findAvailableTimeSlots (targetDate : option Z) (duration : num)
  : list Slot :=
  match targetDate, duration with
  | None, _ => []
  | Some _, NaN => []
  | Some target, Fin duration =>
      let startDate := JsDate.setHours tz target 0 0 0 0 in
      let endDate := JsDate.setHours tz target 23 59 59 999 in
      let events := getCalendarEvents startDate endDate in
      let dayStart := windowStart target in
      let dayEnd := JsDate.setHours tz target 17 0 0 0 in
      let sortedEvents := sortEvents events in
      let durationMs := duration * 60 * 1000 in
      let '(availableSlots, currentStart) :=
        fold_left (gapStep durationMs) sortedEvents ([], dayStart) in
      let availableSlots :=
        if currentStart <? dayEnd
        then (availableSlots ++ slotsFrom durationMs dayEnd currentStart)%list
        else availableSlots in
      firstn 5 availableSlots
  end.

End Finder.

End EventAnalyzer.

(** ** The scheduling flow ([calendar/schedulingFlow]) *)

Module SchedulingFlow.

Import JsNum Js.
Import EventAnalyzer.

Inductive Stage :=
| init | parsing_request | collecting_date | suggesting_time | confirming.

(** A suggested slot; [start] and [end] are the instants their ISO strings
    denote. *)
Record Suggestion := mkSuggestion {
  sStart : Z;
  sEnd : Z;
  displayText : string
}.

(** [data.startTime] and [data.endTime] hold an instant (an ISO string),
    or the clock text that the merge of the parsed object left there. *)
Inductive TimeVal := Instant (t : Z) | ClockText (s : string).

Record Data := mkData {
  d_title : string;
  d_description : option string;
  d_date : option string;
  d_time : option string;
  (** a number, or the [null] that a parsed object carried *)
  d_duration : nullable;
  d_attendees : list string;
  d_suggestedTimes : list (option Suggestion);
  (** [null], or a [Date] that may be invalid *)
  d_dateObj : option (option Z);
  d_startTime : option TimeVal;
  d_endTime : option TimeVal;
  d_startTimestamp : Z;
  d_location : option string
}.

Record State := mkState {
  active : bool;
  stage : Stage;
  data : Data
}.

Definition freshData (now : Z) : Data :=
  {| d_title := EmptyString; d_description := Some EmptyString;
     d_date := Some EmptyString; d_time := Some EmptyString;
     d_duration := Num (Fin 60); d_attendees := []; d_suggestedTimes := [];
     d_dateObj := None; d_startTime := None; d_endTime := None;
     d_startTimestamp := now; d_location := None |}.

(** [{ ...scheduleState.data, ...parsed }]: a [duration] that the parsed
    object carries replaces the default, also when it is [null]. *)
Definition merge (d : Data) (p : Parsed) : Data :=
  {| d_title := title p; d_description := description p; d_date := date p;
     d_time := time p;
     d_duration := match duration p with Some v => v | None => d_duration d end;
     d_attendees := attendees p; d_suggestedTimes := d_suggestedTimes d;
     d_dateObj := d_dateObj d; d_startTime := d_startTime d;
     d_endTime := option_map ClockText (endTime p);
     d_startTimestamp := d_startTimestamp d; d_location := location p |}.

Definition setSuggestedTimes (d : Data) (l : list (option Suggestion)) : Data :=
  {| d_title := d_title d; d_description := d_description d; d_date := d_date d;
     d_time := d_time d; d_duration := d_duration d; d_attendees := d_attendees d;
     d_suggestedTimes := l; d_dateObj := d_dateObj d; d_startTime := d_startTime d;
     d_endTime := d_endTime d; d_startTimestamp := d_startTimestamp d;
     d_location := d_location d |}.

Definition setDateObj (d : Data) (date : option string) (o : option Z) : Data :=
  {| d_title := d_title d; d_description := d_description d; d_date := date;
     d_time := d_time d; d_duration := d_duration d; d_attendees := d_attendees d;
     d_suggestedTimes := d_suggestedTimes d; d_dateObj := Some o;
     d_startTime := d_startTime d; d_endTime := d_endTime d;
     d_startTimestamp := d_startTimestamp d; d_location := d_location d |}.

Definition setStartTime (d : Data) (t : TimeVal) : Data :=
  {| d_title := d_title d; d_description := d_description d; d_date := d_date d;
     d_time := d_time d; d_duration := d_duration d; d_attendees := d_attendees d;
     d_suggestedTimes := d_suggestedTimes d; d_dateObj := d_dateObj d;
     d_startTime := Some t; d_endTime := d_endTime d;
     d_startTimestamp := d_startTimestamp d; d_location := d_location d |}.

Definition setEndTime (d : Data) (t : TimeVal) : Data :=
  {| d_title := d_title d; d_description := d_description d; d_date := d_date d;
     d_time := d_time d; d_duration := d_duration d; d_attendees := d_attendees d;
     d_suggestedTimes := d_suggestedTimes d; d_dateObj := d_dateObj d;
     d_startTime := d_startTime d; d_endTime := Some t;
     d_startTimestamp := d_startTimestamp d; d_location := d_location d |}.

Record EventDetails := mkEventDetails {
  e_title : string;
  e_description : option string;
  e_startTime : option TimeVal;
  e_endTime : option TimeVal;
  e_attendees : list string
}.

(** The collaborators of the flow. *)
Record World := mkWorld {
  tz : Z;
  now : Z;
  parser : EventAnalyzer.Oracle;
  (** [new Date(text)] *)
  newDate : string -> option Z;
  (** [checkForConflicts(start, end)]; it returns the empty list on every
      failure. *)
  checkForConflicts : Z -> Z -> list Event;
  (** [analyzeEventPatterns] for a valid target date: the decoded array of
      the gateway ([None] is a [null] element), empty on every failure. *)
  patternSuggestions : Z -> num -> string -> list (option Suggestion);
  getCalendarEvents : Z -> Z -> list Event;
  (** [toLocaleDateString('en-US')] and [toLocaleTimeString('en-US', ...)] *)
  formatDate : option Z -> string;
  formatTime : Z -> string
}.

Definition showNum (n : num) : string :=
  match n with
  | NaN => "NaN"
  | Fin z => if z <? 0 then "-" ++ natToString (- z) else natToString z
  end.

(** A duration inside a template literal. *)
Definition showDuration (v : nullable) : string :=
  match v with Num n => showNum n | Null => "null" end.

(** [analyzeEventPatterns(targetDate, duration, purpose)]: with an invalid
    target date the prompt cannot be built ([toISOString] throws) and the
    function returns the empty list. *)
Definition analyzeEventPatterns (w : World) (targetDate : option Z)
    (duration : num) (purpose : string) : list (option Suggestion) :=
  match targetDate with
  | Some t => patternSuggestions w t duration purpose
  | None => []
  end.

(** [suggestions.map((slot, index) => `${index + 1}. ${slot.displayText}`)]:
    reading [displayText] of a [null] element throws. *)
Fixpoint optionLines (index : Z) (l : list (option Suggestion)) : result (list string) :=
  match l with
  | [] => Ok []
  | None :: _ => Throw "TypeError: Cannot read properties of null"
  | Some slot :: r =>
      match optionLines (index + 1) r with
      | Ok lines => Ok ((showNum (Fin (index + 1)) ++ ". " ++ displayText slot) :: lines)
      | Throw e => Throw e
      end
  end.

(** [lines.join('\n')] *)
Fixpoint joinLines (l : list string) : string :=
  match l with
  | [] => EmptyString
  | [x] => x
  | x :: r => x ++ String (ascii_of_nat 10) (joinLines r)
  end.

Definition newline : string := String (ascii_of_nat 10) EmptyString.

Definition suggestAvailableTimes (w : World) (st : State) : result string * State :=
  let d := data st in
  let duration := toNumber (d_duration d) in
  let targetDate :=
    match truthyOpt (d_date d) with
    | Some text => newDate w text
    | None => Some (now w)
    end in
  let purpose := if JsString.truthy (d_title d) then d_title d else "General meeting" in
  let suggestions := analyzeEventPatterns w targetDate duration purpose in
  let suggestions :=
    if isEmpty suggestions then
      map (fun slot =>
             Some {| sStart := start slot; sEnd := end_ slot;
                     displayText := formatTime w (start slot) ++ " - "
                                    ++ formatTime w (end_ slot) |})
          (findAvailableTimeSlots (tz w) (now w) (getCalendarEvents w) targetDate duration)
    else suggestions in
  let st := mkState (active st) (stage st) (setSuggestedTimes d suggestions) in
  if negb (isEmpty suggestions) then
    match optionLines 0 suggestions with
    | Ok options =>
        (Ok ("Based on your event purpose and existing calendar patterns, here are some optimal time slot suggestions:"
             ++ newline ++ joinLines options ++ newline
             ++ "Select a slot by entering its number (1-"
             ++ showNum (Fin (Z.of_nat (List.length suggestions))) ++ ")."), st)
    | Throw e => (Throw e, st)
    end
  else (Ok "No available time slots found for the selected day.", st).

Definition invalidTime : string := "RangeError: Invalid time value".

(** [startTime = new Date(dateObj); startTime.setHours(hours, minutes, 0, 0)]
    with [[hours, minutes] = time.split(':').map(Number)] *)
Definition startOf (w : World) (dateObj : option Z) (timeText : string) : option Z :=
  let parts := clockParts timeText in
  let hours := at_ parts 0 in
  let minutes := at_ parts 1 in
  JsDate.setHoursOpt (tz w) dateObj hours minutes 0 0.

(** [endTime = new Date(startTime);
     endTime.setMinutes(endTime.getMinutes() + duration)] *)
Definition endOf (w : World) (startTime : option Z) (duration : num) : option Z :=
  JsDate.setMinutesOpt (tz w) startTime
    (add (JsDate.getMinutesOpt (tz w) startTime) duration).

(** The module-level value of [scheduleState], loaded at instant [t]. *)
Definition idle (t : Z) : State := mkState false init (freshData t).

(** The branch [if (!scheduleState.active)] of the handler. *)
Definition activate (w : World) (userInput : string) : result string * State :=
  let parsed := parseDateAndTime (parser w) userInput in
  let d := merge (freshData (now w)) parsed in
  match truthyOpt (date parsed) with
  | Some dateText =>
      let dateObj := newDate w dateText in
      let d := setDateObj d (d_date d) dateObj in
      match truthyOpt (time parsed) with
      | Some timeText =>
          let startTime := startOf w dateObj timeText in
          let endTime := endOf w startTime (toNumber (d_duration d)) in
          match startTime with
          | None => (Throw invalidTime, mkState true parsing_request d)
          | Some s =>
              let d := setStartTime d (Instant s) in
              match endTime with
              | None => (Throw invalidTime, mkState true parsing_request d)
              | Some e =>
                  let d := setEndTime d (Instant e) in
                  if (s <? now w) || negb (isEmpty (checkForConflicts w s e)) then
                    suggestAvailableTimes w (mkState true suggesting_time d)
                  else
                    (Ok ("I'll schedule " ++ JsString.dq ++ d_title d ++ JsString.dq ++ " on "
                         ++ formatDate w dateObj ++ " at " ++ timeText ++ " for "
                         ++ showDuration (d_duration d)
                         ++ " minutes. Does this look correct? (yes/no)"),
                     mkState true confirming d)
              end
          end
      | None => suggestAvailableTimes w (mkState true suggesting_time d)
      end
  | None =>
      (Ok ("What date would you like to schedule " ++ JsString.dq ++ d_title d ++ JsString.dq ++ " for?"),
       mkState true collecting_date d)
  end.

(** [/^[1-5]$/.test(s)] *)
Definition isChoice (s : string) : bool :=
  match s with
  | String c EmptyString =>
      let n := nat_of_ascii c in (Nat.leb 49 n && Nat.leb n 53)%bool
  | _ => false
  end.

(** [parseInt(s) - 1] as an index, for a string that [isChoice] accepts. *)
Definition choiceIndex (s : string) : nat :=
  match parseInt s with
  | Fin n => Z.to_nat (n - 1)
  | NaN => 0%nat
  end.

(** The [switch] on the stage. *)
Definition step (w : World) (userInput : string) (st : State)
  : result string * State * list EventDetails :=
  let d := data st in
  match stage st with
  | collecting_date =>
      let dateResponse := parseDateAndTime (parser w) userInput in
      match truthyOpt (date dateResponse) with
      | Some dateText =>
          let d := setDateObj d (Some dateText) (newDate w dateText) in
          (suggestAvailableTimes w (mkState (active st) suggesting_time d), [])
      | None =>
          (Ok "I couldn't understand the date. Please provide a valid date.", st, [])
      end
  | suggesting_time =>
      if isChoice (JsString.trim userInput) then
        let selectedIndex := choiceIndex (JsString.trim userInput) in
        match nth_error (d_suggestedTimes d) selectedIndex with
        | Some (Some selected) =>
            let d := setEndTime (setStartTime d (Instant (sStart selected)))
                                (Instant (sEnd selected)) in
            (Ok ("I'll schedule " ++ JsString.dq ++ d_title d ++ JsString.dq ++ " for " ++ displayText selected
                 ++ ". Does this look correct? (yes/no)"),
             mkState (active st) confirming d, [])
        | _ => (Ok "Please select a valid option.", st, [])
        end
      else (Ok "Please select a valid option or provide a specific time.", st, [])
  | confirming =>
      if String.eqb (JsString.toLowerCase userInput) "yes" then
        let eventDetails :=
          {| e_title := d_title d; e_description := d_description d;
             e_startTime := d_startTime d; e_endTime := d_endTime d;
             e_attendees := d_attendees d |} in
        (Ok ("Your event " ++ JsString.dq ++ d_title d ++ JsString.dq ++ " has been scheduled successfully!"),
         mkState false (stage st) d, [eventDetails])
      else if String.eqb (JsString.toLowerCase userInput) "no" then
        (Ok "Okay, let's start over.", mkState false (stage st) d, [])
      else (Ok "Please respond with 'yes' or 'no'.", st, [])
  | _ => (Ok "I'm not sure how to proceed. Can you clarify?", st, [])
  end.

Definition sessionTimeout : Z := 10 * 60 * 1000.

(** The body of the [try] block of [handleScheduleIntent]: the outcome,
    the state at that point and the events handed to
    [createCalendarEvent]. *)
Definition handleScheduleIntent_body (w : World) (userInput : string) (st : State)
  : result string * State * list EventDetails :=
  if negb (JsString.truthy userInput) then
    (Ok "Please provide details for what you'd like to schedule.", st, [])
  else if negb (active st) then (activate w userInput, [])
  else if sessionTimeout <? now w - d_startTimestamp (data st) then
    (Ok "The scheduling session timed out. Let's start over.",
     mkState false (stage st) (data st), [])
  else step w userInput st.

(** [handleScheduleIntent(userInput)]: the [catch] block only builds the
    reply. *)
Definition handleScheduleIntent (w : World) (userInput : string) (st : State)
  : string * State * list EventDetails :=
  match handleScheduleIntent_body w userInput st with
  | (Ok reply, st', created) => (reply, st', created)
  | (Throw _, st', created) =>
      ("I encountered an error while trying to schedule. Please try again.", st', created)
  end.

End SchedulingFlow.

(** ** The mail back end ([services/email]) and the mail composition flow
    ([services/emailService]) *)

Module EmailService.

Import Js.

Inductive Stage :=
| init | collecting_recipient | collecting_purpose | checking_context
| collecting_context | generating | confirming | editing.

Record ContextAnalysis := mkContextAnalysis {
  hasAllContext : bool;
  missingInfo : option string;
  suggestedApproach : string
}.

(** The style profile is carried around and never inspected by the flow. *)
Inductive StyleProfile := mkStyle (json : string).

Record Data := mkData {
  (** [undefined] when the entities carried no recipient *)
  to : option string;
  subject : string;
  body : string;
  purpose : string;
  styleAnalysis : option StyleProfile;
  (** set on activation only *)
  startTime : option Z;
  contextAnalysis : option ContextAnalysis
}.

Record State := mkState {
  active : bool;
  stage : Stage;
  data : Data
}.

Definition emptyData : Data :=
  {| to := Some EmptyString; subject := EmptyString; body := EmptyString;
     purpose := EmptyString; styleAnalysis := None; startTime := None;
     contextAnalysis := None |}.

(** The literal that the flow assigns to [emailState] on every reset. *)
Definition resetState : State :=
  {| active := false; stage := init; data := emptyData |}.

Definition withStage (st : State) (s : Stage) : State :=
  mkState (active st) s (data st).

Definition withData (st : State) (d : Data) : State :=
  mkState (active st) (stage st) d.

Definition setTo (d : Data) (v : string) : Data :=
  mkData (Some v) (subject d) (body d) (purpose d) (styleAnalysis d)
         (startTime d) (contextAnalysis d).

Definition setPurpose (d : Data) (v : string) : Data :=
  mkData (to d) (subject d) (body d) v (styleAnalysis d)
         (startTime d) (contextAnalysis d).

Definition setStyle (d : Data) (v : StyleProfile) : Data :=
  mkData (to d) (subject d) (body d) (purpose d) (Some v)
         (startTime d) (contextAnalysis d).

Definition setDraft (d : Data) (s b : string) : Data :=
  mkData (to d) s b (purpose d) (styleAnalysis d)
         (startTime d) (contextAnalysis d).

Definition setContextAnalysis (d : Data) (c : ContextAnalysis) : Data :=
  mkData (to d) (subject d) (body d) (purpose d) (styleAnalysis d)
         (startTime d) (Some c).

(** One call of [sendEmail(to, subject, body)]. *)
Record Sent := mkSent {
  sentTo : option string;
  sentSubject : string;
  sentBody : string
}.

(** Extracted entities: an object with string fields; [[]] is [{}]. *)
Definition Entities := list (string * string).

Fixpoint field (e : Entities) (name : string) : option string :=
  match e with
  | [] => None
  | (k, v) :: r => if String.eqb k name then Some v else field r name
  end.

Record World := mkWorld {
  now : Z;
  (** [gmail.users.messages.send]; [Throw] carries [error.message] *)
  gmailSend : Sent -> result unit;
  (** first match of the address pattern in a text *)
  emailMatch : string -> option string;
  (** [analyzeContextCompleteness]; every error is caught inside it *)
  analyzeContextCompleteness : option string -> string -> ContextAnalysis;
  analyzeEmailContext : option string -> result StyleProfile;
  generateHumanizedEmail :
    option string -> string -> StyleProfile -> result (string * string)
}.

(** [`${value}`] for a value that may be [undefined]. *)
Definition show (o : option string) : string :=
  match o with Some s => s | None => "undefined" end.

(** [sendEmail] of [services/email]: both outcomes are returned as text. *)
Definition sendEmail (w : World) (m : Sent) : result string :=
  match gmailSend w m with
  | Ok _ => Ok "Email sent successfully!"
  | Throw message => Ok ("Error sending email: " ++ message)
  end.

Definition newline : string := String (ascii_of_nat 10) EmptyString.

Definition proceedToEmailGeneration (w : World) (st : State) : string * State :=
  let failed (st : State) :=
    ("I encountered an issue creating your email. Could you please describe the purpose again?",
     withStage st collecting_purpose) in
  match analyzeEmailContext w (to (data st)) with
  | Throw _ => failed st
  | Ok style =>
      let st := withData st (setStyle (data st) style) in
      match generateHumanizedEmail w (to (data st)) (purpose (data st)) style with
      | Throw _ => failed st
      | Ok (s, b) =>
          let st := withStage (withData st (setDraft (data st) s b)) confirming in
          ("Here's your personalized email draft:" ++ newline ++ newline
           ++ "To: " ++ show (to (data st)) ++ newline
           ++ "Subject: " ++ s ++ newline ++ newline ++ b ++ newline ++ newline
           ++ "Should I send this email? (yes/no)", st)
      end
  end.

Definition sessionTimeout : Z := 15 * 60 * 1000.

Definition typeError : string := "TypeError: Cannot read properties of undefined".

(** [Date.now() - emailState.data.startTime > 15 * 60 * 1000]; the
    difference with [undefined] is [NaN] and the test is false. *)
Definition timedOut (w : World) (st : State) : bool :=
  match startTime (data st) with
  | Some t => sessionTimeout <? now w - t
  | None => false
  end.

(** The branch "Starting a new email flow". *)
Definition start (w : World) (entities : Entities) : string * State :=
  let recipient :=
    match field entities "to" with
    | Some v => if String.eqb v "MISSING" then Some EmptyString else Some v
    | None => None
    end in
  let d := {| to := recipient; subject := EmptyString; body := EmptyString;
              purpose := EmptyString; styleAnalysis := None;
              startTime := Some (now w); contextAnalysis := None |} in
  match truthyOpt recipient with
  | Some address =>
      ("Great, I'll help you draft an email to " ++ address
       ++ ". What's the purpose of this email?",
       mkState true collecting_purpose d)
  | None =>
      ("Who would you like to send an email to? (Please provide their email address)",
       mkState true collecting_recipient d)
  end.

(** The [switch] on the stage, for a text input. *)
Definition step (w : World) (userInput : string) (st : State)
  : string * State * list Sent :=
  let lower := JsString.toLowerCase userInput in
  match stage st with
  | collecting_recipient =>
      match emailMatch w userInput with
      | Some address =>
          ("Thanks! What's the purpose of your email to " ++ address ++ "?",
           withStage (withData st (setTo (data st) address)) collecting_purpose, [])
      | None =>
          ("I didn't catch a valid email address. Please provide a full email address like example@domain.com",
           st, [])
      end
  | collecting_purpose =>
      let st := withStage (withData st (setPurpose (data st) (JsString.trim userInput)))
                          checking_context in
      let analysis := analyzeContextCompleteness w (to (data st)) (purpose (data st)) in
      match hasAllContext analysis, truthyOpt (missingInfo analysis) with
      | false, Some missing =>
          ("I can draft that email, but could you clarify " ++ missing
           ++ "? This will help me write a more specific message.",
           withData (withStage st collecting_context)
                    (setContextAnalysis (data st) analysis), [])
      | _, _ => (proceedToEmailGeneration w (withStage st generating), [])
      end
  | collecting_context =>
      let st := withData st (setPurpose (data st)
                  (purpose (data st) ++ " " ++ JsString.trim userInput)) in
      (proceedToEmailGeneration w (withStage st generating), [])
  | confirming =>
      if JsString.includes lower "yes" then
        let m := mkSent (to (data st)) (subject (data st)) (body (data st)) in
        match sendEmail w m with
        | Ok result => (result, resetState, [m])
        | Throw _ =>
            ("I encountered an issue sending your email. Please try again.", st, [m])
        end
      else if JsString.includes lower "no" then
        ("Would you like to edit the email, change the recipient, or cancel?",
         withStage st editing, [])
      else
        ("Please confirm with 'yes' to send the email or 'no' to make changes.", st, [])
  | editing =>
      if JsString.includes lower "edit" then
        ("Please describe again what you want to say in this email.",
         withStage st collecting_purpose, [])
      else if JsString.includes lower "recipient" || JsString.includes lower "to" then
        ("Who would you like to send this email to instead?",
         withStage st collecting_recipient, [])
      else if JsString.includes lower "cancel" then
        ("Email canceled. What else can I help you with?", resetState, [])
      else
        ("Would you like to edit the email content, change the recipient, or cancel?",
         st, [])
  | generating =>
      ("I'm working on your email draft, please wait a moment...", st, [])
  | _ =>
      ("I seem to have lost track of our email drafting. Let's start over. Would you like to send an email?",
       resetState, [])
  end.

(** The body of the outer [try] block of [handleEmailIntent].  The input
    is a text, or [None] for a value that is not a string, on which the
    string methods of a stage throw. *)
Definition handleEmailIntent_body (w : World) (userInput : option string)
    (entities : Entities) (st : State) : result string * State * list Sent :=
  if negb (active st) then
    let '(reply, st') := start w entities in (Ok reply, st', [])
  else if timedOut w st then
    (Ok "It looks like our email drafting session timed out. Let's start over. What would you like to do?",
     resetState, [])
  else
    match userInput, stage st with
    | Some text, _ =>
        let '(reply, st', sent) := step w text st in (Ok reply, st', sent)
    | None, (collecting_recipient | confirming | editing) =>
        (Throw typeError, st, [])
    | None, (collecting_purpose | collecting_context) =>
        (Throw typeError, st, [])
    | None, generating =>
        (Ok "I'm working on your email draft, please wait a moment...", st, [])
    | None, _ =>
        (Ok "I seem to have lost track of our email drafting. Let's start over. Would you like to send an email?",
         resetState, [])
    end.

(** [handleEmailIntent(userInput, entities)]: the outer [catch] resets the
    state. *)
Definition handleEmailIntent (w : World) (userInput : option string)
    (entities : Entities) (st : State) : string * State * list Sent :=
  match handleEmailIntent_body w userInput entities st with
  | (Ok reply, st', sent) => (reply, st', sent)
  | (Throw _, _, sent) =>
      ("I encountered an unexpected error while working on your email. Let's start over. What would you like to do?",
       resetState, sent)
  end.

(** [isInEmailFlow()] *)
Definition isInEmailFlow (st : State) : bool := active st.

End EmailService.

(** ** The turn handler ([services/chat]) *)

Module Chat.

Import Js.

Inductive Role := user | assistant | system.

(** What a handler hands back: a text, or an object of which the turn
    handler reads the fields below. *)
Record ReplyObject := mkReplyObject {
  requiresChoice : bool;
  requiresConfirmation : bool;
  pendingId : option string;
  eventName : option string;
  message : option string;
  (** [JSON.stringify] of the object *)
  asJson : string;
  (** [JSON.stringify] of the marker built from [suggestions] and
      [parsedInput] *)
  choiceMarker : string
}.

Inductive Reply := Text (s : string) | Object (o : ReplyObject) | Undefined.

Record Msg := mkMsg { role : Role; content : Reply }.

(** A document of the durable message collection. *)
Record Stored := mkStored {
  storedSession : string;
  storedRole : Role;
  storedContent : Reply
}.

(** A call of the completion gateway. *)
Inductive Prompt :=
| IntentPrompt (text : string)
| ResearchPrompt (text : string)
| CalendarPrompt (text : string)
| EmailPrompt (text : string).

(** The search for a JSON object in a response, followed by [JSON.parse]. *)
Inductive JsonOutcome :=
| NoMatch
| Decoded (e : EmailService.Entities)
| SyntaxError.

Record World := mkWorld {
  mail : EmailService.World;
  (** [Message.create] *)
  messageCreate : Stored -> result unit;
  (** [saveConversation(sessionId, userId, userInput, response)] *)
  saveConversation : string -> string -> string -> Reply -> result unit;
  (** [model.generateContent(prompt)] followed by [response.text()] *)
  generateContent : Prompt -> result string;
  jsonObject : string -> JsonOutcome;
  (** fallbacks of [extractEntities] built from regular expressions *)
  calendarFallback : string -> EmailService.Entities;
  emailRegexFallback : string -> EmailService.Entities -> EmailService.Entities;
  researchErrorFallback : string -> EmailService.Entities;
  calendarErrorFallback : string -> EmailService.Entities;
  emailErrorFallback : string -> EmailService.Entities;
  (** [JSON.parse(content).pendingCalendarEvent] of a marker; [None] when
      decoding throws *)
  markerPendingId : string -> option string;
  (** [calendarService.confirmCalendarEvent(pendingId, flag)] *)
  confirmCalendarEvent : string -> bool -> ReplyObject;
  (** [JSON.parse(content)] of a suggestion marker followed by
      [calendarService.handleTimeSelection(userInput, data.context)];
      [Throw] when decoding throws *)
  timeSelection : string -> string -> result string;
  (** [calendarService.handleScheduleIntent(userInput)] *)
  scheduleHandler : string -> Reply;
  (** [JSON.stringify] of the pending-confirmation marker *)
  pendingMarker : option string -> option string -> string;
  research : option string -> string;
  (** [model.startChat(...)] and [chat.sendMessage(text)]; [Throw] carries
      [error.message] *)
  chatSend : list Msg -> string -> result string
}.

Record State := mkState {
  conversationHistory : list Msg;
  emailState : EmailService.State
}.

(** The effects of a turn outside the state of the process. *)
Record Effects := mkEffects {
  stored : list Stored;
  sent : list EmailService.Sent;
  prompts : list Prompt
}.

Definition noEffects : Effects := mkEffects [] [] [].

Definition addStored (e : Effects) (m : Stored) : Effects :=
  mkEffects (stored e ++ [m])%list (sent e) (prompts e).

Definition addSent (e : Effects) (l : list EmailService.Sent) : Effects :=
  mkEffects (stored e) (sent e ++ l)%list (prompts e).

Definition addPrompts (e : Effects) (l : list Prompt) : Effects :=
  mkEffects (stored e) (sent e) (prompts e ++ l)%list.

Definition classifyIntent (w : World) (text : string) : string * list Prompt :=
  let prompt := IntentPrompt text in
  match generateContent w prompt with
  | Throw _ => ("chat_intent", [prompt])
  | Ok response =>
      let response := JsString.toLowerCase (JsString.trim response) in
      let lower := JsString.toLowerCase text in
      (if JsString.includes response "research_intent" then "research_intent"
       else if JsString.includes response "calendar_intent" then "calendar_intent"
       else if JsString.includes response "email_intent" then "email_intent"
       else if JsString.includes response "exit_intent" then "exit_intent"
       else if JsString.includes lower "research" then "research_intent"
       else if JsString.includes lower "schedule" then "calendar_intent"
       else if JsString.includes lower "email" then "email_intent"
       else if JsString.includes lower "quit" then "exit_intent"
       else "chat_intent", [prompt])
  end.

Definition missingEmailData : EmailService.Entities :=
  [("to", "MISSING"); ("subject", "MISSING"); ("body", "MISSING")].

(** [extractEntities(text, intentType)]: the entities and the gateway calls
    made. *)
Definition extractEntities (w : World) (flow : EmailService.State)
    (text intentType : string) : EmailService.Entities * list Prompt :=
  if String.eqb intentType "research_intent" then
    let prompt := ResearchPrompt text in
    match generateContent w prompt with
    | Ok response =>
        let topic := JsString.trim response in
        ([("topic", if JsString.truthy topic then topic else "AI")], [prompt])
    | Throw _ => (researchErrorFallback w text, [prompt])
    end
  else if String.eqb intentType "calendar_intent" then
    let prompt := CalendarPrompt text in
    match generateContent w prompt with
    | Ok response =>
        match jsonObject w (JsString.trim response) with
        | Decoded e => (e, [prompt])
        | _ => (calendarFallback w text, [prompt])
        end
    | Throw _ => (calendarErrorFallback w text, [prompt])
    end
  else if String.eqb intentType "email_intent" then
    if EmailService.isInEmailFlow flow then ([], [])
    else
      let prompt := EmailPrompt text in
      match generateContent w prompt with
      | Ok response =>
          match jsonObject w (JsString.trim response) with
          | Decoded e => (e, [prompt])
          | NoMatch => (missingEmailData, [prompt])
          | SyntaxError => (emailRegexFallback w text missingEmailData, [prompt])
          end
      | Throw _ => (emailErrorFallback w text, [prompt])
      end
  else ([], []).

Definition isSystemWith (marker : string) (m : Msg) : bool :=
  match role m, content m with
  | system, Text s => JsString.includes s marker
  | _, _ => false
  end.

Definition anyOf (s : string) (words : list string) : bool :=
  existsb (JsString.includes s) words.

(** [checkForPendingCalendarEvents(userInput)]: the answer, or [None] for
    [null], and the history. *)
Definition checkForPendingCalendarEvents (w : World) (userInput : string)
    (history : list Msg) : option ReplyObject * list Msg :=
  let pendingEvents := filter (isSystemWith "pendingCalendarEvent") history in
  match last (map Some pendingEvents) None with
  | Some (mkMsg _ (Text marker)) =>
      match markerPendingId w marker with
      | Some id =>
          let lower := JsString.toLowerCase userInput in
          let without :=
            filter (fun m => negb (isSystemWith id m)) history in
          if anyOf lower ["yes"; "confirm"; "ok"; "sure"; "schedule it"] then
            (Some (confirmCalendarEvent w id true), without)
          else if anyOf lower ["no"; "cancel"; "don't"; "dont"; "nope"] then
            (Some (confirmCalendarEvent w id false), without)
          else (None, history)
      | None => (None, history)
      end
  | _ => (None, history)
  end.

Definition push (history : list Msg) (m : Msg) : list Msg := (history ++ [m])%list.

(** [conversationHistory.push(...)] of the user's message, then
    [shift()] once the length exceeds 10. *)
Definition remember (history : list Msg) (userInput : string) : list Msg :=
  let h := push history (mkMsg user (Text userInput)) in
  if Nat.ltb 10 (List.length h) then tl h else h.

(** The tail of [processInput] after the [switch]: the response goes to
    the history and to the message collection. *)
Definition finish (w : World) (sessionId : string) (userId : option string)
    (userInput : string) (response : Reply) (st : State) (eff : Effects)
  : result Reply * State * Effects :=
  let st := mkState (push (conversationHistory st) (mkMsg assistant response))
                    (emailState st) in
  let doc := mkStored sessionId assistant response in
  match messageCreate w doc with
  | Throw e => (Throw e, st, eff)
  | Ok _ =>
      let eff := addStored eff doc in
      match userId with
      | Some uid =>
          match saveConversation w sessionId uid userInput response with
          | Throw e => (Throw e, st, eff)
          | Ok _ => (Ok response, st, eff)
          end
      | None => (Ok response, st, eff)
      end
  end.

(** The [switch] on the intent. *)
Definition dispatch (w : World) (sessionId : string) (userId : option string)
    (userInput : string) (st : State) (eff : Effects)
  : result Reply * State * Effects :=
  let '(intent, p1) := classifyIntent w userInput in
  let '(entities, p2) := extractEntities w (emailState st) userInput intent in
  let eff := addPrompts (addPrompts eff p1) p2 in
  if String.eqb intent "research_intent" then
    let response := Text (research w (EmailService.field entities "topic")) in
    finish w sessionId userId userInput response st eff
  else if String.eqb intent "calendar_intent" then
    match scheduleHandler w userInput with
    | Object o =>
        if requiresChoice o then
          let st := mkState (push (conversationHistory st)
                                  (mkMsg system (Text (choiceMarker o))))
                            (emailState st) in
          let response :=
            match message o with Some m => Text m | None => Undefined end in
          finish w sessionId userId userInput response st eff
        else
          let st :=
            match requiresConfirmation o, truthyOpt (pendingId o) with
            | true, Some _ =>
                mkState (push (conversationHistory st)
                              (mkMsg system (Text (pendingMarker w (pendingId o) (eventName o)))))
                        (emailState st)
            | _, _ => st
            end in
          let response :=
            match truthyOpt (message o) with
            | Some m => Text m
            | None => Text (asJson o)
            end in
          finish w sessionId userId userInput response st eff
    | r => finish w sessionId userId userInput r st eff
    end
  else if String.eqb intent "email_intent" then
    let '(reply, flow, mails) :=
      EmailService.handleEmailIntent (mail w) (Some userInput) entities (emailState st) in
    finish w sessionId userId userInput (Text reply)
           (mkState (conversationHistory st) flow) (addSent eff mails)
  else if String.eqb intent "exit_intent" then
    finish w sessionId userId userInput (Text "Peace out!") st eff
  else
    let history := conversationHistory st in
    match chatSend w (removelast history) userInput with
    | Ok assistantReply =>
        (Ok (Text assistantReply),
         mkState (push history (mkMsg assistant (Text assistantReply))) (emailState st),
         eff)
    | Throw e =>
        finish w sessionId userId userInput
               (Text ("AI: Couldn't process that: " ++ e)) st eff
    end.

(** [processInput(userInput, sessionId, userId)] *)
Definition processInput (w : World) (userInput sessionId : string)
    (userId : option string) (st : State) : result Reply * State * Effects :=
  let userDoc := mkStored sessionId user (Text userInput) in
  match messageCreate w userDoc with
  | Throw e => (Throw e, st, noEffects)
  | Ok _ =>
      let eff := addStored noEffects userDoc in
      let history := remember (conversationHistory st) userInput in
      let '(calendarResponse, history) :=
        checkForPendingCalendarEvents w userInput history in
      match calendarResponse with
      | Some o =>
          (Ok (Object o),
           mkState (push history (mkMsg assistant (Object o))) (emailState st), eff)
      | None =>
          let pendingSuggestions := filter (isSystemWith "calendarSuggestions") history in
          let selection :=
            match last (map Some pendingSuggestions) None with
            | Some (mkMsg _ (Text marker)) =>
                match timeSelection w marker userInput with
                | Ok response => Some response
                | Throw _ => None
                end
            | _ => None
            end in
          match selection with
          | Some response =>
              let history :=
                filter (fun m => negb (isSystemWith "calendarSuggestions" m)) history in
              (Ok (Text response),
               mkState (push history (mkMsg assistant (Text response))) (emailState st),
               eff)
          | None =>
              let st := mkState history (emailState st) in
              if EmailService.isInEmailFlow (emailState st) then
                let '(reply, flow, mails) :=
                  EmailService.handleEmailIntent (mail w) (Some userInput) []
                                                 (emailState st) in
                (Ok (Text reply),
                 mkState (push history (mkMsg assistant (Text reply))) flow,
                 addSent eff mails)
              else dispatch w sessionId userId userInput st eff
          end
      end
  end.

End Chat.

(** ** The rest of the TTL cache: statistics and batch operations *)

Module CacheBatch.

Import Cache.

Record stats := mkStats {
  count : Z;
  expiredCount : Z;
  totalSizeBytes : Z;
  statMaxSize : Z;
  statDefaultTTL : Z
}.

Section WithValue.

Variable V : Type.

(** [JSON.stringify(item).length]; [None] when serialization throws. *)
Variable jsonLength : item V -> option Z.

Definition isExpired (now : Z) (e : string * item V) : bool :=
  expires (snd e) <? now.

(** [size()] *)
Definition size (c : store V) : Z := map_size c.

(** [getStats()] at clock reading [now]. *)
Definition getStats (opts : options) (now : Z) (c : store V) : stats :=
  {| count := map_size c;
     expiredCount := Z.of_nat (List.length (filter (isExpired now) c));
     totalSizeBytes :=
       fold_left (fun total e =>
                    match jsonLength (snd e) with
                    | Some n => total + n
                    | None => total + 1000
                    end) c 0;
     statMaxSize := maxSize opts;
     statDefaultTTL := defaultTTL opts |}.

(** One iteration of the loop of [setMultiple]. *)
Definition setOne (opts : options) (now : Z) (ttl : option Z)
    (acc : bool * store V) (entry : string * V) : bool * store V :=
  let '(success, c) := acc in
  let '(ok, c') := set opts now c (fst entry) (snd entry) ttl in
  (if ok then success else false, c').

(** [setMultiple(items, ttl)]; [items] is the list [Object.entries] yields,
    or [None] for a payload that is not an object. *)
Definition setMultiple (opts : options) (now : Z) (c : store V)
    (items : option (list (string * V))) (ttl : option Z) : bool * store V :=
  match items with
  | None => (false, c)
  | Some entries => fold_left (setOne opts now ttl) entries (true, c)
  end.

(** One iteration of the loop of [removeMultiple]. *)
Definition removeOne (acc : bool * store V) (key : string) : bool * store V :=
  let '(success, c) := acc in
  let '(ok, c') := remove c key in
  (if ok then success else false, c').

(** [removeMultiple(keys)]; [None] is a payload that is not an array. *)
Definition removeMultiple (c : store V) (keys : option (list string))
  : bool * store V :=
  match keys with
  | None => (false, c)
  | Some l => fold_left removeOne l (true, c)
  end.

(** [value !== null] fails for the values for which [isNull] holds. *)
Variable isNull : V -> bool.

(** The values that are objects (arrays and functions included). *)
Variable isObject : V -> bool.

(** The object that [getMultiple] builds from [{}]: its own properties, in
    the order in which the assignments [result[key] = value] made them, and
    whether an assignment has replaced its prototype. *)
Record answer := mkAnswer {
  own : list (string * V);
  prototypeReplaced : bool
}.

(** One iteration of the [forEach] of [getMultiple].  The assignment to
    the key [__proto__] reaches the accessor of [Object.prototype]: it makes
    no own property, and an object becomes the prototype of the answer.
    Once the prototype is replaced, an assignment makes an own property
    unless that object has a setter or a read-only property of the name;
    [own] lists the assignment all the same, so it is to be read with
    [prototypeReplaced]. *)
Definition getOne (now : Z) (acc : answer * store V) (key : string)
  : answer * store V :=
  let '(result, c) := acc in
  match get now c key with
  | (Some v, c') =>
      if isNull v then (result, c')
      else if String.eqb key "__proto__" then
        (if isObject v then mkAnswer (own result) true else result, c')
      else (mkAnswer (own result ++ [(key, v)])%list (prototypeReplaced result), c')
  | (None, c') => (result, c')
  end.

(** [getMultiple(keys)]; [None] is a payload that is not an array. *)
Definition getMultiple (now : Z) (c : store V) (keys : option (list string))
  : answer * store V :=
  match keys with
  | None => (mkAnswer [] false, c)
  | Some l => fold_left (getOne now) l (mkAnswer [] false, c)
  end.

End WithValue.

Arguments mkAnswer {V}.
Arguments own {V}.
Arguments prototypeReplaced {V}.
Arguments getOne {V}.
Arguments getMultiple {V}.
Arguments isExpired {V}.
Arguments size {V}.
Arguments getStats {V}.
Arguments setOne {V}.
Arguments setMultiple {V}.
Arguments removeOne {V}.
Arguments removeMultiple {V}.

End CacheBatch.

(** ** Calendar reads behind a one-minute cache (calendarClient.js) *)

Module CalendarClient.

Import Js.

Section WithItem.

(** The items of the calendar API. *)
Variable E : Type.

Record cached := mkCached {
  events : list E;
  timestamp : Z
}.

(** The key [events_<timeMin>_<timeMax>], as the two instants whose ISO
    texts it joins. *)
Definition key : Type := (Z * Z)%type.

Definition key_eqb (a b : key) : bool :=
  (fst a =? fst b) && (snd a =? snd b).

(** [eventCache], a [Map] that is never pruned. *)
Definition eventCache := list (key * cached).

Fixpoint cache_get (c : eventCache) (k : key) : option cached :=
  match c with
  | [] => None
  | (k0, v) :: c' => if key_eqb k0 k then Some v else cache_get c' k
  end.

Fixpoint cache_set (c : eventCache) (k : key) (v : cached) : eventCache :=
  match c with
  | [] => [(k, v)]
  | (k0, old) :: c' =>
      if key_eqb k0 k then (k0, v) :: c' else (k0, old) :: cache_set c' k v
  end.

Record World := mkWorld {
  now : Z;
  (** [getCalendarClient()]; [Ok false] is [null] *)
  getCalendarClient : result bool;
  (** [calendar.events.list] for a range, then [response.data.items];
      [None] is a response without items *)
  eventsList : Z -> Z -> result (option (list E))
}.

(** [getCalendarEvents(startTime, endTime)]: the arguments are the dates
    that [new Date] makes of them, [None] when invalid; the third component
    lists the ranges requested from the API. *)
Definition getCalendarEvents (w : World) (c : eventCache)
    (startTime endTime : option Z) : list E * eventCache * list key :=
  match startTime, endTime with
  | Some timeMin, Some timeMax =>
      match getCalendarClient w with
      | Ok true =>
          let cacheKey := (timeMin, timeMax) in
          let hit :=
            match cache_get c cacheKey with
            | Some cachedData =>
                if now w - timestamp cachedData <? 60 * 1000
                then Some (events cachedData) else None
            | None => None
            end in
          match hit with
          | Some cachedEvents => (cachedEvents, c, [])
          | None =>
              match eventsList w timeMin timeMax with
              | Ok items =>
                  let events := match items with Some l => l | None => [] end in
                  (events, cache_set c cacheKey (mkCached events (now w)),
                   [cacheKey])
              | Throw _ => ([], c, [cacheKey])
              end
          end
      | _ => ([], c, [])
      end
  | _, _ => ([], c, [])
  end.

End WithItem.

Arguments mkCached {E}.
Arguments events {E}.
Arguments timestamp {E}.
Arguments cache_get {E}.
Arguments cache_set {E}.
Arguments mkWorld {E}.
Arguments now {E}.
Arguments getCalendarClient {E}.
Arguments eventsList {E}.
Arguments getCalendarEvents {E}.

End CalendarClient.

(** ** Creating events (eventOperations.js) *)

Module EventOperations.

Import Js.

(** The argument of [createCalendarEvent]; absent fields are [None], and
    [attendees] and [videoConference] carry their defaults. *)
Record Details := mkDetails {
  title : option string;
  description : option string;
  startTime : option SchedulingFlow.TimeVal;
  endTime : option SchedulingFlow.TimeVal;
  attendees : list string;
  location : option string;
  videoConference : bool
}.

(** The event resource; [r_attendees] and [r_location] are [undefined] when
    empty or [None]. *)
Record Resource := mkResource {
  summary : string;
  r_description : string;
  startDateTime : Z;
  endDateTime : Z;
  r_attendees : list string;
  r_location : option string;
  conferenceRequested : bool
}.

(** The argument of [calendar.events.insert]. *)
Record Insert := mkInsert {
  resource : Resource;
  conferenceDataVersion : Z;
  sendUpdates : string
}.

Record Response := mkResponse {
  id : string;
  htmlLink : string;
  (** [conferenceData?.entryPoints?.[0]?.uri] *)
  entryPoint : option string
}.

Inductive Outcome :=
| Success (eventId eventLink : string) (meetLink : option string)
| Failure (error : string).

Inductive Effect :=
| ClientRequested
| InsertCall (i : Insert).

Record World := mkWorld {
  (** [getCalendarClient()]; [Ok false] is [null] *)
  getCalendarClient : result bool;
  (** [new Date(text)] *)
  newDate : string -> option Z;
  (** [calendar.events.insert]; [Throw] carries [error.message] *)
  insert : Insert -> result Response
}.

Definition truthyTime (t : option SchedulingFlow.TimeVal) : bool :=
  match t with
  | Some (SchedulingFlow.Instant _) => true
  | Some (SchedulingFlow.ClockText s) => JsString.truthy s
  | None => false
  end.

(** [new Date(t)] *)
Definition toDate (w : World) (t : option SchedulingFlow.TimeVal) : option Z :=
  match t with
  | Some (SchedulingFlow.Instant z) => Some z
  | Some (SchedulingFlow.ClockText s) => newDate w s
  | None => None
  end.

(** [error.message || 'Unknown error creating event'] *)
Definition messageOf (e : string) : string :=
  if JsString.truthy e then e else "Unknown error creating event".

Definition createCalendarEvent (w : World) (d : Details) : Outcome * list Effect :=
  match truthyOpt (title d) with
  | None => (Failure "Missing required event details (title, startTime, or endTime)", [])
  | Some title =>
      if negb (truthyTime (startTime d)) || negb (truthyTime (endTime d)) then
        (Failure "Missing required event details (title, startTime, or endTime)", [])
      else
        match getCalendarClient w with
        | Throw e => (Failure (messageOf e), [ClientRequested])
        | Ok false =>
            (Failure "Could not authenticate with Google Calendar", [ClientRequested])
        | Ok true =>
            match toDate w (startTime d), toDate w (endTime d) with
            | Some startInstant, Some endInstant =>
                let event :=
                  {| summary := title;
                     r_description :=
                       match truthyOpt (description d) with
                       | Some text => text
                       | None => EmptyString
                       end;
                     startDateTime := startInstant;
                     endDateTime := endInstant;
                     r_attendees := attendees d;
                     r_location := truthyOpt (location d);
                     conferenceRequested := videoConference d |} in
                let request :=
                  {| resource := event;
                     conferenceDataVersion := if videoConference d then 1 else 0;
                     sendUpdates := if isEmpty (attendees d) then "none" else "all" |} in
                match insert w request with
                | Ok response =>
                    (Success (id response) (htmlLink response)
                             (truthyOpt (entryPoint response)),
                     [ClientRequested; InsertCall request])
                | Throw e =>
                    (Failure (messageOf e), [ClientRequested; InsertCall request])
                end
            | _, _ =>
                (** [toISOString] of an invalid date throws a [RangeError] *)
                (Failure "Invalid time value", [ClientRequested])
            end
        end
  end.

(** [confirmCalendarEvent(pendingEvent)] *)
Definition confirmCalendarEvent (w : World) (pendingEvent : Details)
  : Outcome * list Effect :=
  createCalendarEvent w pendingEvent.

(** The calls of [calendar.events.insert] among the effects. *)
Fixpoint inserts (l : list Effect) : list Insert :=
  match l with
  | [] => []
  | InsertCall i :: l' => i :: inserts l'
  | ClientRequested :: l' => inserts l'
  end.

End EventOperations.

(** ** Choosing one of the suggested slots (services/calendar.js) *)

Module CalendarService.

Import Js JsNum.

Record Suggestion := mkSuggestion {
  start : option SchedulingFlow.TimeVal;
  end_ : option SchedulingFlow.TimeVal;
  displayText : string
}.

Record ParsedInput := mkParsedInput {
  title : option string;
  description : option string;
  (** [None] when the field is missing *)
  attendees : option (list string);
  location : option string
}.

(** The context that the turn handler kept with the suggestions; a [null]
    element of the array is [None]. *)
Record Context := mkContext {
  suggestions : list (option Suggestion);
  parsedInput : ParsedInput
}.

(** [userInput.match(/^(\d+)$/)] *)
Definition wholeNumber (s : string) : option string :=
  if JsString.truthy s && String.eqb (EventAnalyzer.leadingDigits s) s
  then Some s else None.

(** A match of [/schedule\s+#?(\d+)/i] that starts at the head of [s]. *)
Definition scheduleHere (s : string) : option string :=
  if JsString.startsWith (JsString.toLowerCase s) "schedule" then
    match String.substring 8 (String.length s - 8) s with
    | String c rest =>
        if JsString.isSpace c then
          let rest := JsString.trimStart rest in
          let rest := match rest with
                      | String "#"%char r => r
                      | _ => rest
                      end in
          match EventAnalyzer.leadingDigits rest with
          | EmptyString => None
          | digits => Some digits
          end
        else None
    | EmptyString => None
    end
  else None.

(** [userInput.match(/schedule\s+#?(\d+)/i)]: the leftmost match. *)
Fixpoint scheduleMatch (s : string) : option string :=
  match scheduleHere s with
  | Some digits => Some digits
  | None =>
      match s with
      | String _ s' => scheduleMatch s'
      | EmptyString => None
      end
  end.

Definition selectionMatch (userInput : string) : option string :=
  match wholeNumber userInput with
  | Some digits => Some digits
  | None => scheduleMatch userInput
  end.

Definition selectedIndex (userInput : string) : num :=
  match selectionMatch userInput with
  | Some digits => sub (EventAnalyzer.parseInt digits) (Fin 1)
  | None => Fin (-1)
  end.

Definition show (o : option string) : string :=
  match o with Some s => s | None => "undefined" end.

Definition handleTimeSelection (w : EventOperations.World) (userInput : string)
    (context : Context) : string * list EventOperations.Effect :=
  let valid :=
    match selectedIndex userInput with
    | Fin i =>
        if (0 <=? i) && (i <? Z.of_nat (List.length (suggestions context)))
        then Some (Z.to_nat i) else None
    | NaN => None
    end in
  match valid with
  | Some index =>
      match nth_error (suggestions context) index with
      | Some (Some selected) =>
          let p := parsedInput context in
          let lower := JsString.toLowerCase userInput in
          let eventDetails :=
            {| EventOperations.title := title p;
               EventOperations.description :=
                 match truthyOpt (description p) with
                 | Some text => Some text
                 | None => Some "Scheduled via TwinAI assistant"
                 end;
               EventOperations.startTime := start selected;
               EventOperations.endTime := end_ selected;
               EventOperations.attendees :=
                 match attendees p with Some l => l | None => [] end;
               EventOperations.location := location p;
               EventOperations.videoConference :=
                 JsString.includes lower "meet" || JsString.includes lower "video" |} in
          match EventOperations.createCalendarEvent w eventDetails with
          | (EventOperations.Success _ _ _, effects) =>
              ("Great! I've scheduled " ++ JsString.dq ++ show (title p) ++ JsString.dq
               ++ " for " ++ displayText selected ++ ". It's now on your calendar.",
               effects)
          | (EventOperations.Failure error, effects) =>
              ("Sorry, I couldn't create the event. "
               ++ (if JsString.truthy error then error else "Please try again."),
               effects)
          end
      | _ =>
          (** [selected.start] of [null] throws, which the handler catches *)
          ("Sorry, I encountered an error while scheduling. Please try again.", [])
      end
  | None =>
      ("Please select a valid option between 1 and "
       ++ EventAnalyzer.natToString (Z.of_nat (List.length (suggestions context))) ++ ".",
       [])
  end.

End CalendarService.

(** ** Drafting a mail with retries (emailService.js) *)

Module EmailDraft.

Import Js.

Definition newline : string := String (ascii_of_nat 10) EmptyString.

(** [Array.prototype.join] *)
Fixpoint join (sep : string) (l : list string) : string :=
  match l with
  | [] => EmptyString
  | [x] => x
  | x :: l' => x ++ sep ++ join sep l'
  end.

Fixpoint dropChars (n : nat) (s : string) : string :=
  match n, s with
  | S n', String _ s' => dropChars n' s'
  | _, _ => s
  end.

(** [s.replace(pattern, replacement)] for a non-empty text pattern: the
    first occurrence is replaced. *)
Fixpoint replaceFirst (pattern replacement s : string) : string :=
  if String.prefix pattern s
  then replacement ++ dropChars (String.length pattern) s
  else match s with
       | EmptyString => EmptyString
       | String c s' => String c (replaceFirst pattern replacement s')
       end.

(** [parts.findIndex((line, index) => index > 0 && line.trim().length > 0)]
    from position [index] on. *)
Fixpoint findBodyStart (index : nat) (parts : list string) : option nat :=
  match parts with
  | [] => None
  | line :: rest =>
      if Nat.ltb 0 index && JsString.truthy (JsString.trim line) then Some index
      else findBodyStart (S index) rest
  end.

(** The block "Extract subject and body" of one attempt. *)
Definition extractDraft (generatedText : string) : string * string :=
  if JsString.startsWith generatedText "Subject:" then
    let parts := JsString.splitOn (ascii_of_nat 10) generatedText in
    let subject :=
      JsString.trim (replaceFirst "Subject:" EmptyString (hd EmptyString parts)) in
    match findBodyStart 0 parts with
    | Some bodyStartIndex =>
        if Nat.ltb 0 bodyStartIndex
        then (subject, join newline (skipn bodyStartIndex parts))
        else (subject, generatedText)
    | None => (subject, generatedText)
    end
  else (EmptyString, generatedText).

Inductive Effect :=
| DraftCall
| SubjectCall
| Sleep (ms : Z).

(** The completion gateway during one call of [generateHumanizedEmail]:
    the prompt of the draft is the same at every attempt, so its answers
    are told apart by the number of the attempt. *)
Record Gateway := mkGateway {
  draftCall : nat -> result string;
  (** the call of [generateNaturalSubject], for a purpose *)
  subjectCall : string -> result string
}.

(** [generateNaturalSubject(purpose, contextAnalysis)] *)
Definition generateNaturalSubject (g : Gateway) (purpose : string) : string :=
  match subjectCall g purpose with
  | Ok text => JsString.trim text
  | Throw _ =>
      let firstFewWords := join " " (firstn 3 (JsString.splitOn " "%char purpose)) in
      "Quick update - " ++ firstFewWords ++ "..."
  end.

Definition maxAttempts : nat := 3.

(** The [while] loop of the retry mechanism; [None] is the exit of the loop
    with every attempt failed. *)
Fixpoint retry (g : Gateway) (purpose : string) (fuel attempts : nat)
  : option (string * string) * list Effect :=
  match fuel with
  | O => (None, [])
  | S fuel' =>
      if Nat.ltb attempts maxAttempts then
        match draftCall g attempts with
        | Ok text =>
            let '(subject, body) := extractDraft (JsString.trim text) in
            if JsString.truthy subject then (Some (subject, body), [DraftCall])
            else (Some (generateNaturalSubject g purpose, body),
                  [DraftCall; SubjectCall])
        | Throw _ =>
            let attempts := S attempts in
            let wait :=
              if Nat.ltb attempts maxAttempts
              then [Sleep (1000 * 2 ^ Z.of_nat attempts)] else [] in
            let '(r, effects) := retry g purpose fuel' attempts in
            (r, (DraftCall :: wait ++ effects)%list)
        end
      else (None, [])
  end.

(** [generateHumanizedEmail(recipient, purpose, styleAnalysis)].  The
    [catch] block reads [contextAnalysis], a constant of the [try] block
    that is out of scope there: whatever reaches it ends in a
    [ReferenceError].  A [styleAnalysis] of [null] throws while the prompt
    is built. *)
Definition generateHumanizedEmail (g : Gateway) (recipient : option string)
    (purpose : string) (styleAnalysis : option EmailService.StyleProfile)
  : result (string * string) * list Effect :=
  match styleAnalysis with
  | None => (Throw "contextAnalysis is not defined", [])
  | Some _ =>
      match retry g purpose maxAttempts 0 with
      | (Some draft, effects) => (Ok draft, effects)
      | (None, effects) => (Throw "contextAnalysis is not defined", effects)
      end
  end.



End EmailDraft.

(** * Vocabulary of the properties and sample data *)

Module CacheSpec.

Import Cache.

(** Three entries; ["b"] was created first and has expired at clock
    reading 1000. *)
Definition sampleStore : store string :=
  [("a", mkItem "x" 1060 1000); ("b", mkItem "y" 960 900); ("c", mkItem "z" 1010 950)].

End CacheSpec.

Module EventAnalyzerSpec.

Import JsNum EventAnalyzer.


(** A parsed request with both clock times and no duration. *)










(** A Tuesday in UTC: 2025-06-10T12:00:00Z, looked at from the day before. *)
Definition sampleTarget : Z := 1749556800000.

Definition sampleNow : Z := 1749470400000.





End EventAnalyzerSpec.

Module SchedulingFlowSpec.

Import JsNum Js EventAnalyzer SchedulingFlow.

Definition stateAfter (r : string * State * list EventDetails) : State := snd (fst r).

Definition replyOf (r : string * State * list EventDetails) : string := fst (fst r).

(** The stage that [activate] leaves, read off its branches. *)
Definition activationStage (w : World) (parsed : Parsed) : Stage :=
  match truthyOpt (date parsed) with
  | None => collecting_date
  | Some d =>
      match truthyOpt (time parsed) with
      | None => suggesting_time
      | Some t =>
          match startOf w (newDate w d) t with
          | None => parsing_request
          | Some s =>
              match endOf w (Some s)
                          (toNumber (d_duration (merge (freshData (now w)) parsed))) with
              | None => parsing_request
              | Some e =>
                  if (s <? now w) || negb (isEmpty (checkForConflicts w s e))
                  then suggesting_time else confirming
              end
          end
      end
  end.

(** A world in which the completion gateway is unreachable, so that the
    parser falls back on its regular expressions, with an empty calendar.
    The clock reads 2025-06-09T12:00:00Z and local time is UTC. *)
Definition sampleParser : EventAnalyzer.Oracle :=
  {| gatewayJson := fun _ => None;
     regexDate := fun text =>
       if JsString.includes text "tomorrow" then Some "2025-06-10"
       else if JsString.includes text "today" then Some "2025-06-09"
       else None;
     timeRegexMatch := fun text =>
       if JsString.includes text "9:30pm" then Some "9:30pm"
       else if JsString.includes text "10:00" then Some "10:00"
       else if JsString.includes text "08:00" then Some "08:00"
       else None;
     regexTitle := fun _ => "Standup";
     regexAttendees := fun _ => [] |}.

Definition sampleWorld : World :=
  {| tz := 0;
     now := 1749470400000;
     parser := sampleParser;
     newDate := fun text =>
       if String.eqb text "2025-06-10" then Some 1749513600000
       else if String.eqb text "2025-06-09" then Some 1749427200000
       else None;
     checkForConflicts := fun _ _ => [];
     patternSuggestions := fun _ _ _ => [];
     getCalendarEvents := fun _ _ => [];
     formatDate := fun _ => "6/10/2025";
     formatTime := fun _ => "9:00 AM" |}.

(** The replies that ask again without touching the state. *)
Definition reprompts : list string :=
  [ "Please provide details for what you'd like to schedule.";
    "Please select a valid option.";
    "Please select a valid option or provide a specific time." ].

Definition notTimedOut (w : World) (st : State) : Prop :=
  now w - d_startTimestamp (data st) <= sessionTimeout.

Definition twoSuggestions : list (option Suggestion) :=
  [ Some (mkSuggestion 1749546000000 1749549600000 "9:00 AM - 10:00 AM");
    Some (mkSuggestion 1749549600000 1749553200000 "10:00 AM - 11:00 AM") ].

(** A session in [suggesting_time] that started at the clock reading of
    [sampleWorld] and holds two suggestions. *)
Definition offering : State :=
  mkState true suggesting_time
    (setSuggestedTimes (setDateObj (freshData 1749470400000)
                          (Some "2025-06-10") (Some 1749513600000))
                       twoSuggestions).

Definition errorReply : string :=
  "I encountered an error while trying to schedule. Please try again.".

End SchedulingFlowSpec.

Module EmailServiceSpec.

Import Js EmailService.

Definition replyOf (r : string * State * list Sent) : string := fst (fst r).

Definition stateAfter (r : string * State * list Sent) : State := snd (fst r).

Definition sentOf (r : string * State * list Sent) : list Sent := snd r.

Definition recoveryReply : string :=
  "I encountered an unexpected error while working on your email. Let's start over. What would you like to do?".

(** A mail world whose back end accepts every message; the clock reads
    2025-06-09T12:00:00Z. *)
Definition sampleMail : World :=
  {| now := 1749470400000;
     gmailSend := fun _ => Ok tt;
     emailMatch := fun text =>
       if JsString.includes text "alice@example.com"
       then Some "alice@example.com" else None;
     analyzeContextCompleteness := fun _ _ =>
       mkContextAnalysis true None "Proceed with all available context";
     analyzeEmailContext := fun _ => Ok (mkStyle "{}");
     generateHumanizedEmail := fun _ p _ => Ok ("Budget", "Hi Alice, " ++ p) |}.

(** A session waiting for the confirmation of a draft, started one minute
    before the clock reading of [sampleMail]. *)
Definition awaitingConfirmation : State :=
  mkState true confirming
    {| to := Some "alice@example.com"; subject := "Budget";
       body := "Hi Alice, the budget is ready."; purpose := "the budget is ready";
       styleAnalysis := Some (mkStyle "{}"); startTime := Some 1749470340000;
       contextAnalysis := None |}.

End EmailServiceSpec.

Module ChatSpec.

Import Js Chat.

Definition emptyReply : ReplyObject :=
  {| requiresChoice := false; requiresConfirmation := false; pendingId := None;
     eventName := None; message := None; asJson := "{}"; choiceMarker := "{}" |}.

(** A world in which every collaborator answers: the gateway classifies
    every text as general chat and the chat session replies. *)
Definition sampleChat : World :=
  {| mail := EmailServiceSpec.sampleMail;
     messageCreate := fun _ => Ok tt;
     saveConversation := fun _ _ _ _ => Ok tt;
     generateContent := fun p =>
       match p with
       | IntentPrompt _ => Ok "chat_intent"
       | EmailPrompt _ => Ok "{ to: alice@example.com }"
       | _ => Ok "Meeting"
       end;
     jsonObject := fun _ => Decoded [("to", "alice@example.com")];
     calendarFallback := fun _ => [];
     emailRegexFallback := fun _ e => e;
     researchErrorFallback := fun _ => [("topic", "AI")];
     calendarErrorFallback := fun _ => [];
     emailErrorFallback := fun _ => [];
     markerPendingId := fun _ => None;
     confirmCalendarEvent := fun _ _ => emptyReply;
     timeSelection := fun _ _ => Ok "Please select a valid option between 1 and 3.";
     scheduleHandler := fun _ => Text "What date would you like to schedule for?";
     pendingMarker := fun _ _ => "{}";
     research := fun _ => "Summary";
     chatSend := fun _ _ => Ok "Hi there!" |}.

(** The state of a fresh process. *)
Definition freshState : State := mkState [] EmailService.resetState.

Definition resultOf (r : result Reply * State * Effects) : result Reply := fst (fst r).

Definition effectsOf (r : result Reply * State * Effects) : Effects := snd r.

(** The same world with a gateway that classifies every text as the exit
    intent. *)
Definition exitWorld : World :=
  {| mail := mail sampleChat;
     messageCreate := messageCreate sampleChat;
     saveConversation := saveConversation sampleChat;
     generateContent := fun _ => Ok "exit_intent";
     jsonObject := jsonObject sampleChat;
     calendarFallback := calendarFallback sampleChat;
     emailRegexFallback := emailRegexFallback sampleChat;
     researchErrorFallback := researchErrorFallback sampleChat;
     calendarErrorFallback := calendarErrorFallback sampleChat;
     emailErrorFallback := emailErrorFallback sampleChat;
     markerPendingId := markerPendingId sampleChat;
     confirmCalendarEvent := confirmCalendarEvent sampleChat;
     timeSelection := timeSelection sampleChat;
     scheduleHandler := scheduleHandler sampleChat;
     pendingMarker := pendingMarker sampleChat;
     research := research sampleChat;
     chatSend := chatSend sampleChat |}.

End ChatSpec.

Module CacheExtraSpec.

Import Cache.

(** The time to live that [set] uses. *)
Definition effectiveTTL (opts : options) (ttl : option Z) : Z :=
  match ttl with Some t => t | None => defaultTTL opts end.

(** A store of two entries under a limit of two. *)
Definition smallOptions : options := mkOptions 2 60000 300000.

Definition fullStore : store string :=
  [("a", mkItem "x" 61000 1000); ("b", mkItem "y" 60900 900)].

(** A store of strings with an entry under the key [__proto__]. *)
Definition protoStore : store string :=
  [("a", mkItem "x" 61000 1000); ("__proto__", mkItem "p" 61000 1000);
   ("b", mkItem "y" 60900 900)].

(** What a read at clock reading [now] answers for a key: the value of its
    entry unless there is none or it has expired. *)
Definition liveValue {V} (now : Z) (c : store V) (key : string) : option V :=
  match map_get c key with
  | Some it => if expires it <? now then None else Some (value it)
  | None => None
  end.

(** The entry of a key once the expired entries among the keys [l] have been
    evicted. *)
Definition evicted {V} (now : Z) (l : list string) (c : store V) (key : string)
  : option (item V) :=
  match map_get c key with
  | Some it =>
      if (expires it <? now) && existsb (String.eqb key) l then None else Some it
  | None => None
  end.

End CacheExtraSpec.

Module EventAnalyzerExtraSpec.

Import JsNum EventAnalyzer.

(** The order of the comparator of [sort]. *)
Definition keyLe (a b : Event) : Prop := sortKey a <= sortKey b.

(** A slot and a timed event do not overlap: the slot ends no later than
    the event starts, or starts no earlier than the event ends. *)
Definition clearOf (s : Slot) (e : Event) : Prop :=
  forall eventStart, startDateTime e = Some eventStart ->
                     end_ s <= eventStart \/ endDateTime e <= start s.

(** A meeting from 09:30 to 10:30 and an all-day event on 2025-06-10. *)
Definition busyMorning (_ _ : Z) : list Event :=
  [ {| startDateTime := None; startDate := 1749513600000; endDateTime := 0 |};
    {| startDateTime := Some 1749547800000; startDate := 0;
       endDateTime := 1749551400000 |} ].

(** 2025-06-10T10:10:25Z, a moment of the target day after 09:00. *)
Definition midMorning : Z := 1749550225000.

End EventAnalyzerExtraSpec.

Module FlowExtraSpec.

Import JsNum Js EventAnalyzer.

(** The event that the scheduling flow hands to [createCalendarEvent] from
    the data of a session. *)
Definition eventOf (d : SchedulingFlow.Data) : SchedulingFlow.EventDetails :=
  {| SchedulingFlow.e_title := SchedulingFlow.d_title d;
     SchedulingFlow.e_description := SchedulingFlow.d_description d;
     SchedulingFlow.e_startTime := SchedulingFlow.d_startTime d;
     SchedulingFlow.e_endTime := SchedulingFlow.d_endTime d;
     SchedulingFlow.e_attendees := SchedulingFlow.d_attendees d |}.

(** The data of a session after a suggestion was selected. *)
Definition bound (d : SchedulingFlow.Data) (selected : SchedulingFlow.Suggestion)
  : SchedulingFlow.Data :=
  SchedulingFlow.setEndTime
    (SchedulingFlow.setStartTime d (SchedulingFlow.Instant (SchedulingFlow.sStart selected)))
    (SchedulingFlow.Instant (SchedulingFlow.sEnd selected)).

(** A scheduling session that started 11 minutes before the clock reading
    of the sample world. *)
Definition staleOffering : SchedulingFlow.State :=
  SchedulingFlow.mkState true SchedulingFlow.suggesting_time
    (SchedulingFlow.setSuggestedTimes (SchedulingFlow.freshData 1749469740000)
                                      SchedulingFlowSpec.twoSuggestions).

(** The date for which [suggestAvailableTimes] looks: the stored date
    text read as a date, or the clock reading when there is none. *)
Definition targetOf (w : SchedulingFlow.World) (st : SchedulingFlow.State)
  : option Z :=
  match truthyOpt (SchedulingFlow.d_date (SchedulingFlow.data st)) with
  | Some text => SchedulingFlow.newDate w text
  | None => Some (SchedulingFlow.now w)
  end.

(** The suggestion that the fallback makes of a slot of the finder. *)
Definition suggestionOf (w : SchedulingFlow.World) (slot : Slot)
  : SchedulingFlow.Suggestion :=
  {| SchedulingFlow.sStart := start slot;
     SchedulingFlow.sEnd := end_ slot;
     SchedulingFlow.displayText :=
       SchedulingFlow.formatTime w (start slot) ++ " - "
       ++ SchedulingFlow.formatTime w (end_ slot) |}.

(** A stage in which the mail flow waits for the user. *)
Definition settled (s : EmailService.Stage) : Prop :=
  s <> EmailService.generating /\ s <> EmailService.checking_context.

(** A mail session that started 16 minutes before the clock reading of the
    sample mail world. *)
Definition staleConfirmation : EmailService.State :=
  EmailService.mkState true EmailService.confirming
    {| EmailService.to := Some "alice@example.com"; EmailService.subject := "Budget";
       EmailService.body := "Hi Alice, the budget is ready.";
       EmailService.purpose := "the budget is ready";
       EmailService.styleAnalysis := None;
       EmailService.startTime := Some 1749469440000;
       EmailService.contextAnalysis := None |}.

Definition intents : list string :=
  ["research_intent"; "calendar_intent"; "email_intent"; "exit_intent"; "chat_intent"].

End FlowExtraSpec.

Module CalendarClientSpec.

Import Js CalendarClient.

(** A client that answers every range with one item named after the clock
    reading. *)
Definition answering (clock : Z) : World string :=
  {| now := clock;
     getCalendarClient := Ok true;
     eventsList := fun _ _ =>
       Ok (Some [EventAnalyzer.natToString clock]) |}.

(** A clock reading with no client to be had. *)
Definition signedOut (clock : Z) : World string :=
  {| now := clock;
     getCalendarClient := Ok false;
     eventsList := fun _ _ => Throw "unreachable" |}.

(** A client whose API call fails. *)
Definition failing (clock : Z) : World string :=
  {| now := clock;
     getCalendarClient := Ok true;
     eventsList := fun _ _ => Throw "Rate Limit Exceeded" |}.

End CalendarClientSpec.

Module OperationsSpec.

Import Js.

(** The object that the scheduling flow passes to [createCalendarEvent]:
    no location, and the default of [videoConference]. *)
Definition ofFlow (e : SchedulingFlow.EventDetails) : EventOperations.Details :=
  {| EventOperations.title := Some (SchedulingFlow.e_title e);
     EventOperations.description := SchedulingFlow.e_description e;
     EventOperations.startTime := SchedulingFlow.e_startTime e;
     EventOperations.endTime := SchedulingFlow.e_endTime e;
     EventOperations.attendees := SchedulingFlow.e_attendees e;
     EventOperations.location := None;
     EventOperations.videoConference := false |}.

(** A calendar that accepts every event. *)
Definition online : EventOperations.World :=
  {| EventOperations.getCalendarClient := Ok true;
     EventOperations.newDate := fun _ => None;
     EventOperations.insert := fun _ =>
       Ok (EventOperations.mkResponse "evt1" "https://calendar.example/evt1" None) |}.

(** No calendar client: the credentials are missing. *)
Definition offline : EventOperations.World :=
  {| EventOperations.getCalendarClient := Ok false;
     EventOperations.newDate := fun _ => None;
     EventOperations.insert := fun _ => Throw "unreachable" |}.

(** A session of the scheduling flow that waits for the confirmation of the
    first of two suggestions. *)
Definition awaitingYes : SchedulingFlow.State :=
  SchedulingFlow.mkState true SchedulingFlow.confirming
    {| SchedulingFlow.d_title := "Standup";
       SchedulingFlow.d_description := None;
       SchedulingFlow.d_date := Some "2025-06-10";
       SchedulingFlow.d_time := None;
       SchedulingFlow.d_duration := JsNum.Num (JsNum.Fin 60);
       SchedulingFlow.d_attendees := [];
       SchedulingFlow.d_suggestedTimes := SchedulingFlowSpec.twoSuggestions;
       SchedulingFlow.d_dateObj := Some (Some 1749513600000);
       SchedulingFlow.d_startTime := Some (SchedulingFlow.Instant 1749546000000);
       SchedulingFlow.d_endTime := Some (SchedulingFlow.Instant 1749549600000);
       SchedulingFlow.d_startTimestamp := 1749470400000;
       SchedulingFlow.d_location := None |}.

(** The context that the turn handler keeps with two suggestions. *)
Definition twoSlots : CalendarService.Context :=
  {| CalendarService.suggestions :=
       [ Some (CalendarService.mkSuggestion
                 (Some (SchedulingFlow.Instant 1749546000000))
                 (Some (SchedulingFlow.Instant 1749549600000))
                 "9:00 AM - 10:00 AM");
         Some (CalendarService.mkSuggestion
                 (Some (SchedulingFlow.Instant 1749549600000))
                 (Some (SchedulingFlow.Instant 1749553200000))
                 "10:00 AM - 11:00 AM") ];
     CalendarService.parsedInput :=
       {| CalendarService.title := Some "Standup";
          CalendarService.description := None;
          CalendarService.attendees := Some ["bob@example.com"];
          CalendarService.location := None |} |}.

End OperationsSpec.

Module EmailDraftSpec.

Import Js EmailDraft.

(** The text has no line break. *)
Definition oneLine (s : string) : Prop :=
  JsString.splitOn (ascii_of_nat 10) s = [s].

(** A line that [trim] empties: there is nothing on it but white space. *)
Definition blank (line : string) : Prop :=
  oneLine line /\ JsString.trim line = EmptyString.

(** The lines [lines], each after a line break, and then [tail]. *)
Fixpoint linesThen (lines : list string) (tail : string) : string :=
  match lines with
  | [] => tail
  | line :: lines' => newline ++ line ++ linesThen lines' tail
  end.


Definition failed {A} (r : result A) : Prop :=
  match r with Throw _ => True | Ok _ => False end.



End EmailDraftSpec.

Module ClockSpec.

Import JsNum EventAnalyzer.

(** The numbers from [lo] up, [n] of them. *)
Fixpoint range (lo : Z) (n : nat) : list Z :=
  match n with
  | O => []
  | S n' => lo :: range (lo + 1) n'
  end.

Definition suffix (isPM : bool) : string := if isPM then "pm" else "am".

(** The hour of the 24-hour clock for an hour of the 12-hour clock. *)
Definition hour24 (hour : Z) (isPM : bool) : Z :=
  hour mod 12 + (if isPM then 12 else 0).

(** The texts of a time of the 12-hour clock that reach the conversion of
    the fallback: the hour alone, with or without a blank before the
    suffix, and the hour with minutes and the suffix attached (with a blank
    after the minutes the pattern matches the 24-hour alternative first, and
    the suffix is not part of the match). *)
Definition hourOnly (hour : Z) (blank isPM : bool) : string :=
  natToString hour ++ (if blank then " " else EmptyString) ++ suffix isPM.

Definition hourMinutes (hour minutes : Z) (isPM : bool) : string :=
  natToString hour ++ ":" ++ pad2 (Fin minutes) ++ suffix isPM.

Definition hourOnly_ok (hour : Z) (blank isPM : bool) : bool :=
  match convertTimeText (hourOnly hour blank isPM) with
  | Some text => String.eqb text (pad2 (Fin (hour24 hour isPM)) ++ ":00")
  | None => false
  end.

Definition hourMinutes_ok (hour minutes : Z) (isPM : bool) : bool :=
  match convertTimeText (hourMinutes hour minutes isPM) with
  | Some text =>
      String.eqb text (pad2 (Fin (hour24 hour isPM)) ++ ":" ++ pad2 (Fin minutes)
                       ++ suffix isPM)
  | None => false
  end.

End ClockSpec.

(** * Properties *)

(** ** The TTL cache *)

Module CacheFacts.

Import Cache.
Import CacheSpec.

Section WithValue.

Context {V : Type}.
Implicit Types (c : store V) (key k : string) (it : item V).

Lemma map_get_In c key it :
  map_get c key = Some it -> In (key, it) c.
Proof.
  induction c as [|[k0 i0] c IH]; simpl; [discriminate|].
  destruct (String.eqb k0 key) eqn:E.
  - apply String.eqb_eq in E. intros [= ->]. left. now subst.
  - intros H. right. now apply IH.
Qed.

Lemma map_get_notin c key :
  ~ In key (keys c) -> map_get c key = None.
Proof.
  induction c as [|[k0 i0] c IH]; simpl; [reflexivity|].
  intros H. destruct (String.eqb k0 key) eqn:E.
  - apply String.eqb_eq in E. exfalso. apply H. now left.
  - apply IH. intros Hin. apply H. now right.
Qed.

Lemma In_map_get c key it :
  NoDup (keys c) -> In (key, it) c -> map_get c key = Some it.
Proof.
  induction c as [|[k0 i0] c IH]; simpl; [intros _ []|].
  intros Hnd [Heq|Hin].
  - injection Heq as -> ->. now rewrite String.eqb_refl.
  - inversion Hnd as [|? ? Hnotin Hnd']; subst.
    destruct (String.eqb k0 key) eqn:E.
    + apply String.eqb_eq in E. subst. exfalso. apply Hnotin.
      change key with (fst (key, it)). now apply in_map.
    + now apply IH.
Qed.

Lemma keys_delete_subset c key k :
  In k (keys (map_delete c key)) -> In k (keys c).
Proof.
  induction c as [|[k0 i0] c IH]; simpl; [tauto|].
  destruct (String.eqb k0 key); simpl; intuition.
Qed.

Lemma map_delete_NoDup c key :
  NoDup (keys c) -> NoDup (keys (map_delete c key)).
Proof.
  induction c as [|[k0 i0] c IH]; simpl; intros Hnd; [constructor|].
  inversion Hnd as [|? ? Hnotin Hnd']; subst.
  destruct (String.eqb k0 key); [assumption|].
  simpl. constructor; [|now apply IH].
  intros Hin. apply Hnotin. eapply keys_delete_subset. eassumption.
Qed.

Lemma map_get_delete_same c key :
  NoDup (keys c) -> map_get (map_delete c key) key = None.
Proof.
  induction c as [|[k0 i0] c IH]; simpl; intros Hnd; [reflexivity|].
  inversion Hnd as [|? ? Hnotin Hnd']; subst.
  destruct (String.eqb k0 key) eqn:E.
  - apply String.eqb_eq in E. subst. now apply map_get_notin.
  - simpl. rewrite E. now apply IH.
Qed.

Lemma map_get_delete_other c key k :
  k <> key -> map_get (map_delete c key) k = map_get c k.
Proof.
  intros Hne. induction c as [|[k0 i0] c IH]; simpl; [reflexivity|].
  destruct (String.eqb k0 key) eqn:E.
  - apply String.eqb_eq in E. subst.
    destruct (String.eqb key k) eqn:E'; [|reflexivity].
    apply String.eqb_eq in E'. congruence.
  - simpl. now rewrite IH.
Qed.

Lemma map_delete_length c key it :
  map_get c key = Some it ->
  List.length (map_delete c key) = pred (List.length c).
Proof.
  induction c as [|[k0 i0] c IH]; simpl; [discriminate|].
  destruct (String.eqb k0 key); [reflexivity|].
  intros H. simpl. rewrite (IH H).
  destruct c; [discriminate H | reflexivity].
Qed.

Lemma map_set_fresh c key it :
  map_get c key = None -> map_set c key it = (c ++ [(key, it)])%list.
Proof.
  induction c as [|[k0 i0] c IH]; simpl; [reflexivity|].
  destruct (String.eqb k0 key); [discriminate|].
  intros H. now rewrite IH.
Qed.

Lemma keys_map_set c key it k :
  In k (keys (map_set c key it)) <-> In k (keys c) \/ k = key.
Proof.
  induction c as [|[k0 i0] c IH]; simpl.
  - intuition.
  - destruct (String.eqb k0 key) eqn:E; simpl.
    + apply String.eqb_eq in E. subst. intuition.
    + rewrite IH. intuition.
Qed.

Lemma map_set_NoDup c key it :
  NoDup (keys c) -> NoDup (keys (map_set c key it)).
Proof.
  induction c as [|[k0 i0] c IH]; simpl; intros Hnd.
  - constructor; [intros []|constructor].
  - inversion Hnd as [|? ? Hnotin Hnd']; subst.
    destruct (String.eqb k0 key) eqn:E; simpl.
    + now constructor.
    + constructor; [|now apply IH].
      rewrite keys_map_set. intros [Hin|Heq]; [now apply Hnotin|].
      subst. now rewrite String.eqb_refl in E.
Qed.

Lemma wf_nil : wf (@nil (string * item V)).
Proof. split; constructor. Qed.

Lemma wf_delete c key : wf c -> wf (map_delete c key).
Proof.
  intros [Hnd Hall]. split; [now apply map_delete_NoDup|].
  rewrite Forall_forall in *. intros k Hk. apply Hall.
  eapply keys_delete_subset. eassumption.
Qed.

Lemma wf_set_key c key it :
  JsString.truthy key = true -> wf c -> wf (map_set c key it).
Proof.
  intros Hk [Hnd Hall]. split; [now apply map_set_NoDup|].
  rewrite Forall_forall in *. intros k Hin.
  apply keys_map_set in Hin as [Hin| ->]; auto.
Qed.

(** Every store reached through [set], [get], [has] and [remove] from the
    empty one is well formed. *)
Lemma set_preserves_wf opts now c key v ttl :
  wf c -> wf (snd (set opts now c key v ttl)).
Proof.
  intros Hwf. unfold set.
  destruct (JsString.truthy key) eqn:Hk; simpl; [|assumption].
  apply wf_set_key; [assumption|].
  destruct ((maxSize opts <=? map_size c) && negb (map_has c key)); [|assumption].
  destruct (getOldestKey c) as [k|]; [|assumption].
  destruct (JsString.truthy k); [now apply wf_delete | assumption].
Qed.

Lemma get_preserves_wf now c key : wf c -> wf (snd (get now c key)).
Proof.
  intros Hwf. unfold get.
  destruct (negb (JsString.truthy key) || negb (map_has c key)); [assumption|].
  destruct (map_get c key) as [it|]; [|assumption].
  destruct (expires it <? now); [now apply wf_delete | assumption].
Qed.

Lemma has_preserves_wf now c key : wf c -> wf (snd (has now c key)).
Proof.
  intros Hwf. unfold has.
  destruct (negb (JsString.truthy key) || negb (map_has c key)); [assumption|].
  destruct (map_get c key) as [it|]; [|assumption].
  destruct (expires it <? now); [now apply wf_delete | assumption].
Qed.

Lemma wf_key_truthy c key it :
  wf c -> map_get c key = Some it -> JsString.truthy key = true.
Proof.
  intros [_ Hall] Hget. rewrite Forall_forall in Hall. apply Hall.
  apply map_get_In in Hget. change key with (fst (key, it)). now apply in_map.
Qed.

(** The scan of [getOldestKey]: the running pair is either the initial
    one or an entry of the store, and its time stamp is a lower bound of
    the entries seen. *)
Lemma oldest_fold c : forall (ok : option string) (ot : option Z),
  let r := fold_left oldest_step c (ok, ot) in
  (r = (ok, ot) \/ exists k it, In (k, it) c /\ r = (Some k, Some (timestamp it))) /\
  (forall k it, In (k, it) c -> exists t, snd r = Some t /\ t <= timestamp it) /\
  (forall t0, ot = Some t0 -> exists t, snd r = Some t /\ t <= t0).
Proof.
  induction c as [|[k0 i0] c IH]; intros ok ot; cbv zeta.
  - simpl. split; [now left|]. split; [intros ? ? []|].
    intros t0 ->. exists t0. split; [reflexivity|lia].
  - change (fold_left oldest_step ((k0, i0) :: c) (ok, ot))
      with (fold_left oldest_step c (oldest_step (ok, ot) (k0, i0))).
    assert (Hacc: (oldest_step (ok, ot) (k0, i0) = (Some k0, Some (timestamp i0)) /\
                   (forall t0, ot = Some t0 -> timestamp i0 < t0)) \/
                  (oldest_step (ok, ot) (k0, i0) = (ok, ot) /\
                   exists t0, ot = Some t0 /\ t0 <= timestamp i0)).
    { unfold oldest_step. simpl. destruct ot as [t0|].
      - destruct (timestamp i0 <? t0) eqn:E.
        + left. split; [reflexivity|]. intros t1 [= <-]. now apply Z.ltb_lt.
        + right. split; [reflexivity|]. exists t0. split; [reflexivity|].
          apply Z.ltb_ge in E. lia.
      - left. split; [reflexivity|]. intros ? [=]. }
    destruct Hacc as [[Heq Hlt]|[Heq (t0 & Hot & Hle)]]; rewrite Heq.
    + destruct (IH (Some k0) (Some (timestamp i0))) as (Hprov & Hbound & Hinit).
      cbv zeta in Hprov, Hbound, Hinit.
      destruct (Hinit _ eq_refl) as (t & Ht & Htle).
      split; [|split].
      * right. destruct Hprov as [Hp|(k & it & Hin & Hp)].
        -- exists k0, i0. split; [now left|assumption].
        -- exists k, it. split; [now right|assumption].
      * intros k it [Hin|Hin].
        -- injection Hin as <- <-. exists t. split; [assumption|lia].
        -- exact (Hbound k it Hin).
      * intros t0 Hot. exists t. split; [assumption|]. specialize (Hlt _ Hot). lia.
    + destruct (IH ok ot) as (Hprov & Hbound & Hinit).
      cbv zeta in Hprov, Hbound, Hinit.
      destruct (Hinit _ Hot) as (t & Ht & Htle).
      split; [|split].
      * destruct Hprov as [Hp|(k & it & Hin & Hp)]; [now left|].
        right. exists k, it. split; [now right|assumption].
      * intros k it [Hin|Hin].
        -- injection Hin as <- <-. exists t. split; [assumption|lia].
        -- exact (Hbound k it Hin).
      * intros t1 Ht1. rewrite Hot in Ht1. injection Ht1 as <-.
        exists t. split; [assumption|lia].
Qed.

Lemma getOldestKey_spec c :
  c <> [] ->
  exists k it, getOldestKey c = Some k /\ In (k, it) c /\
               forall k' it', In (k', it') c -> timestamp it <= timestamp it'.
Proof.
  intros Hne. unfold getOldestKey, map_size.
  destruct c as [|e c]; [congruence|].
  replace (Z.of_nat (List.length (e :: c)) =? 0) with false
    by (symmetry; apply Z.eqb_neq; simpl; lia).
  destruct (oldest_fold (e :: c) None None) as (Hprov & Hbound & _).
  cbv zeta in Hprov, Hbound.
  destruct Hprov as [Hp|(k & it & Hin & Hp)].
  - destruct e as [k0 i0]. destruct (Hbound k0 i0 (or_introl eq_refl)) as (t & Ht & _).
    rewrite Hp in Ht. discriminate.
  - exists k, it. rewrite Hp. split; [reflexivity|]. split; [assumption|].
    intros k' it' Hin'. destruct (Hbound _ _ Hin') as (t & Ht & Hle).
    rewrite Hp in Ht. injection Ht as <-. assumption.
Qed.

(** C6. Once the clock is strictly past the expiry time stamp of an entry,
    [get] answers [null] and [has] answers [false] for its key, and each of
    them removes the entry from the store on that very access, without any
    sweep having run. *)
Theorem expired_entry_absent_and_evicted (now : Z) c key it :
  wf c ->
  map_get c key = Some it ->
  expires it < now ->
  get now c key = (None, map_delete c key) /\
  has now c key = (false, map_delete c key) /\
  map_get (map_delete c key) key = None /\
  List.length (map_delete c key) = pred (List.length c).
Proof.
  intros Hwf Hget Hexp.
  pose proof (wf_key_truthy _ _ _ Hwf Hget) as Hk.
  assert (Hlt : (expires it <? now) = true) by now apply Z.ltb_lt.
  unfold get, has, map_has. rewrite Hk, Hget, Hlt. simpl.
  repeat split.
  - apply map_get_delete_same. apply Hwf.
  - eapply map_delete_length. eassumption.
Qed.

(** C7. When the store holds at least [maxSize] entries and [set] receives
    a key that is not present, exactly one entry leaves the store before the
    insertion: the one [getOldestKey] names, whose creation time stamp is the
    smallest of all entries; every other entry stays, and the new entry is
    appended. *)
Theorem set_at_capacity_evicts_oldest opts (now : Z) c key (v : V) ttl :
  wf c ->
  c <> [] ->
  JsString.truthy key = true ->
  map_get c key = None ->
  maxSize opts <= map_size c ->
  exists oldKey oldItem newItem,
    getOldestKey c = Some oldKey /\
    map_get c oldKey = Some oldItem /\
    (forall k it, map_get c k = Some it -> timestamp oldItem <= timestamp it) /\
    set opts now c key v ttl
      = (true, (map_delete c oldKey ++ [(key, newItem)])%list) /\
    value newItem = v /\ timestamp newItem = now /\
    List.length (map_delete c oldKey) = pred (List.length c) /\
    map_get (map_delete c oldKey) oldKey = None /\
    (forall k, k <> oldKey -> map_get (map_delete c oldKey) k = map_get c k).
Proof.
  intros Hwf Hne Hk Hfresh Hfull.
  destruct (getOldestKey_spec c Hne) as (oldKey & oldItem & Hold & Hin & Hmin).
  pose proof (In_map_get _ _ _ (proj1 Hwf) Hin) as Hgetold.
  pose proof (wf_key_truthy _ _ _ Hwf Hgetold) as Holdk.
  eexists oldKey, oldItem, _.
  split; [assumption|]. split; [assumption|].
  split; [intros k it Hget; apply Hmin with (k' := k); now apply map_get_In|].
  split.
  - unfold set, map_has. rewrite Hk, Hfresh, Hold, Holdk. simpl.
    replace (maxSize opts <=? map_size c) with true
      by (symmetry; now apply Z.leb_le).
    simpl. rewrite map_set_fresh; [reflexivity|].
    destruct (String.eqb oldKey key) eqn:E.
    + apply String.eqb_eq in E. subst. congruence.
    + rewrite map_get_delete_other; [assumption|].
      intros ->. now rewrite String.eqb_refl in E.
  - simpl. repeat split.
    + eapply map_delete_length. eassumption.
    + apply map_get_delete_same. apply Hwf.
    + intros k Hk'. now apply map_get_delete_other.
Qed.

End WithValue.

Lemma sampleStore_wf : wf sampleStore.
Proof.
  split.
  - repeat constructor; simpl; intuition discriminate.
  - repeat constructor.
Defined.

Lemma expired_entry_witness :
  get 1000 sampleStore "b" = (None, map_delete sampleStore "b") /\
  has 1000 sampleStore "b" = (false, map_delete sampleStore "b") /\
  map_get (map_delete sampleStore "b") "b" = None /\
  List.length (map_delete sampleStore "b") = pred (List.length sampleStore).
Proof.
  apply (expired_entry_absent_and_evicted 1000 sampleStore "b" (mkItem "y" 960 900)).
  - exact sampleStore_wf.
  - reflexivity.
  - simpl. lia.
Defined.

Lemma set_at_capacity_witness :
  exists oldKey oldItem newItem,
    getOldestKey sampleStore = Some oldKey /\
    map_get sampleStore oldKey = Some oldItem /\
    (forall k it, map_get sampleStore k = Some it -> timestamp oldItem <= timestamp it) /\
    set (mkOptions 3 60000 300000) 2000 sampleStore "d" "w" None
      = (true, (map_delete sampleStore oldKey ++ [("d", newItem)])%list) /\
    value newItem = "w" /\ timestamp newItem = 2000 /\
    List.length (map_delete sampleStore oldKey) = pred (List.length sampleStore) /\
    map_get (map_delete sampleStore oldKey) oldKey = None /\
    (forall k, k <> oldKey -> map_get (map_delete sampleStore oldKey) k = map_get sampleStore k).
Proof.
  apply (set_at_capacity_evicts_oldest (mkOptions 3 60000 300000) 2000 sampleStore "d" "w" None).
  - exact sampleStore_wf.
  - discriminate.
  - reflexivity.
  - reflexivity.
  - simpl. unfold map_size. simpl. lia.
Defined.

(** On the sample store the evicted key is the one created first. *)
Example set_at_capacity_run :
  snd (set (mkOptions 3 60000 300000) 2000 sampleStore "d" "w" None)
  = [("a", mkItem "x" 1060 1000); ("c", mkItem "z" 1010 950);
     ("d", mkItem "w" 62000 2000)].
Proof. reflexivity. Qed.

End CacheFacts.

(** ** The event analyzer *)

Module EventAnalyzerFacts.

Import JsNum EventAnalyzer.
Import EventAnalyzerSpec.

(** *** Duration inference *)



(** A duration that the object already carries is kept. *)
Lemma inferDuration_keeps_given p (n : num) :
  duration p = Some (Num n) -> truthy n = true -> inferDuration p = p.
Proof.
  intros Hd Hn. unfold inferDuration.
  destruct (Js.truthyOpt (time p)), (Js.truthyOpt (endTime p)); try reflexivity.
  unfold falsyDuration. rewrite Hd. cbn [toNumber]. now rewrite Hn.
Qed.

(** *** The slot finder *)

Lemma slotsFrom_step durationMs limit slotStart :
  slotStart + durationMs <= limit ->
  slotsFrom durationMs limit slotStart
  = {| start := slotStart; end_ := slotStart + durationMs |}
    :: slotsFrom durationMs limit (slotStart + halfHour).
Proof.
  intros H. rewrite slotsFrom_equation_1. simpl.
  destruct (Z_le_dec (slotStart + durationMs) limit); [reflexivity|contradiction].
Qed.


Lemma slotsFrom_bounds durationMs limit slotStart x :
  In x (slotsFrom durationMs limit slotStart) ->
  slotStart <= start x /\ start x + durationMs <= limit /\
  end_ x = start x + durationMs.
Proof.
  funelim (slotsFrom durationMs limit slotStart); simpl.
  - intros [<-|Hin]; simpl; [lia|].
    match goal with IH : forall x, In x _ -> _ |- _ => specialize (IH _ Hin) end.
    unfold halfHour in *. lia.
  - intros [].
Qed.



Lemma firstn_subset {A} n (l : list A) x : In x (firstn n l) -> In x l.
Proof.
  revert l. induction n as [|n IH]; intros [|a l]; simpl; try tauto.
  intros [->|H]; auto.
Qed.






Section Finder.

Variables (tz now : Z) (getCalendarEvents : Z -> Z -> list Event).

Local Abbreviation find := (findAvailableTimeSlots tz now getCalendarEvents).

Lemma find_at_most_five targetDate duration :
  (List.length (find targetDate duration) <= 5)%nat.
Proof.
  unfold find, findAvailableTimeSlots.
  destruct targetDate as [target|]; [|simpl; lia].
  destruct duration as [d|]; [|simpl; lia].
  cbv zeta. destruct (fold_left _ _ _) as [slots cur].
  rewrite length_firstn. lia.
Qed.





End Finder.



End EventAnalyzerFacts.

(** ** The scheduling flow *)

Module SchedulingFlowFacts.

Import JsNum Js EventAnalyzer SchedulingFlow.
Import SchedulingFlowSpec.

Lemma suggestAvailableTimes_stage w st :
  stage (snd (suggestAvailableTimes w st)) = stage st /\
  active (snd (suggestAvailableTimes w st)) = active st.
Proof.
  unfold suggestAvailableTimes. cbv zeta.
  destruct (negb _); [destruct (optionLines _ _)|]; split; reflexivity.
Qed.

Lemma handle_from_body w userInput st :
  stateAfter (handleScheduleIntent w userInput st)
  = snd (fst (handleScheduleIntent_body w userInput st)).
Proof.
  unfold stateAfter, handleScheduleIntent.
  destruct (handleScheduleIntent_body w userInput st) as [[[reply|e] st'] created];
    reflexivity.
Qed.

Lemma activation_state w userInput st :
  active st = false -> JsString.truthy userInput = true ->
  stateAfter (handleScheduleIntent w userInput st) = snd (activate w userInput).
Proof.
  intros Hact Hin. rewrite handle_from_body.
  unfold handleScheduleIntent_body. now rewrite Hin, Hact.
Qed.

Lemma activate_stage w userInput :
  stage (snd (activate w userInput))
  = activationStage w (parseDateAndTime (parser w) userInput) /\
  active (snd (activate w userInput)) = true.
Proof.
  unfold activate, activationStage. cbv zeta.
  destruct (truthyOpt (date _)) as [d|]; [|split; reflexivity].
  destruct (truthyOpt (time _)) as [t|];
    [|split; apply suggestAvailableTimes_stage].
  destruct (startOf _ _ _) as [s|]; [|split; reflexivity].
  cbn [d_duration setDateObj].
  destruct (endOf _ _ _) as [e|]; [|split; reflexivity].
  destruct (_ || _); [split; apply suggestAvailableTimes_stage|split; reflexivity].
Qed.

(** On activation the stage follows from what the parse resolved, as long
    as nothing throws: no date gives [collecting_date]; a date without a
    time gives [suggesting_time]; a date and a time whose start and end
    instants are valid give [suggesting_time] when the start is in the past
    or an existing event conflicts, and [confirming] otherwise.  The flow is
    active afterwards. *)
Lemma activation_stage (w : World) (userInput : string) (st : State) :
  active st = false ->
  JsString.truthy userInput = true ->
  let parsed := parseDateAndTime (parser w) userInput in
  let duration := toNumber (d_duration (merge (freshData (now w)) parsed)) in
  let st' := stateAfter (handleScheduleIntent w userInput st) in
  active st' = true /\
  (truthyOpt (date parsed) = None -> stage st' = collecting_date) /\
  (forall d, truthyOpt (date parsed) = Some d ->
             truthyOpt (time parsed) = None ->
             stage st' = suggesting_time) /\
  (forall d t s e,
     truthyOpt (date parsed) = Some d ->
     truthyOpt (time parsed) = Some t ->
     startOf w (newDate w d) t = Some s ->
     endOf w (Some s) duration = Some e ->
     (s < now w \/ checkForConflicts w s e <> [] -> stage st' = suggesting_time) /\
     (now w <= s -> checkForConflicts w s e = [] -> stage st' = confirming)).
Proof.
  intros Hact Hin parsed duration st'.
  unfold st'. rewrite (activation_state w userInput st Hact Hin).
  destruct (activate_stage w userInput) as [Hstage Hactive].
  rewrite Hstage. fold parsed. unfold activationStage. fold duration.
  split; [assumption|]. split; [|split].
  - intros ->. reflexivity.
  - intros d -> ->. reflexivity.
  - intros d t s e -> -> -> ->. split.
    + intros Hcond.
      assert (Hb : (s <? now w) || negb (isEmpty (checkForConflicts w s e)) = true).
      { destruct Hcond as [Hpast|Hconf].
        - apply orb_true_iff. left. now apply Z.ltb_lt.
        - apply orb_true_iff. right.
          destruct (checkForConflicts w s e); [congruence|reflexivity]. }
      now rewrite Hb.
    + intros Hfuture Hfree.
      assert (Hb : (s <? now w) || negb (isEmpty (checkForConflicts w s e)) = false).
      { rewrite Hfree. simpl. rewrite orb_false_r. apply Z.ltb_ge. lia. }
      now rewrite Hb.
Qed.

Lemma activation_stage_witness :
  stage (stateAfter (handleScheduleIntent sampleWorld "Standup" (idle 0)))
  = collecting_date /\
  stage (stateAfter (handleScheduleIntent sampleWorld "Standup tomorrow" (idle 0)))
  = suggesting_time /\
  stage (stateAfter (handleScheduleIntent sampleWorld "Standup tomorrow at 10:00" (idle 0)))
  = confirming /\
  stage (stateAfter (handleScheduleIntent sampleWorld "Standup today at 08:00" (idle 0)))
  = suggesting_time.
Proof.
  split; [|split; [|split]].
  - apply (activation_stage sampleWorld "Standup" (idle 0)); reflexivity.
  - apply (activation_stage sampleWorld "Standup tomorrow" (idle 0))
      with (d := "2025-06-10"); reflexivity.
  - apply (activation_stage sampleWorld "Standup tomorrow at 10:00" (idle 0))
      with (d := "2025-06-10") (t := "10:00")
           (s := 1749549600000) (e := 1749553200000);
      try reflexivity.
    simpl. lia.
  - apply (activation_stage sampleWorld "Standup today at 08:00" (idle 0))
      with (d := "2025-06-09") (t := "08:00")
           (s := 1749456000000) (e := 1749459600000);
      try reflexivity.
    left. simpl. lia.
Defined.

(** *** The stage [suggesting_time] *)

(** C10, as amended. In the stage [suggesting_time] of a session that has
    not timed out, an input whose text without surrounding white space is not a
    single digit 1 to 5, and a digit whose index is past the stored
    suggestions, are answered by a re-prompt and leave the whole state as it
    was, with no event created; the state changes only when the indexed
    suggestion exists, and then to [confirming] with that suggestion's
    start and end. *)
Theorem suggesting_time_selection (w : World) (userInput : string) (st : State) :
  active st = true ->
  stage st = suggesting_time ->
  notTimedOut w st ->
  (isChoice (JsString.trim userInput) = false \/
   (List.length (d_suggestedTimes (data st))
    <= choiceIndex (JsString.trim userInput))%nat ->
   In (replyOf (handleScheduleIntent w userInput st)) reprompts /\
   stateAfter (handleScheduleIntent w userInput st) = st /\
   snd (handleScheduleIntent w userInput st) = []) /\
  (stateAfter (handleScheduleIntent w userInput st) <> st ->
   exists selected,
     isChoice (JsString.trim userInput) = true /\
     nth_error (d_suggestedTimes (data st)) (choiceIndex (JsString.trim userInput))
     = Some (Some selected) /\
     stateAfter (handleScheduleIntent w userInput st)
     = mkState true confirming
         (setEndTime (setStartTime (data st) (Instant (sStart selected)))
                     (Instant (sEnd selected)))).
Proof.
  intros Hact Hstage Hlive.
  assert (Hto : (sessionTimeout <? now w - d_startTimestamp (data st)) = false).
  { apply Z.ltb_ge. exact Hlive. }
  unfold handleScheduleIntent, handleScheduleIntent_body, stateAfter, replyOf.
  destruct (JsString.truthy userInput) eqn:Hin; cbn [negb].
  2:{ simpl. split; [intros _; repeat split; auto|intros H; now elim H]. }
  rewrite Hact, Hto. cbn [negb]. unfold step. rewrite Hstage.
  destruct (isChoice (JsString.trim userInput)) eqn:Hc.
  2:{ simpl. split; [intros _; repeat split; auto|intros H; now elim H]. }
  destruct (nth_error (d_suggestedTimes (data st)) (choiceIndex (JsString.trim userInput)))
    as [[selected|]|] eqn:Hnth.
  - split.
    + intros [Hf|Hlen]; [discriminate|].
      apply nth_error_None in Hlen. congruence.
    + intros _. exists selected. rewrite Hact. repeat split.
  - simpl. split; [intros _; repeat split; auto|intros H; now elim H].
  - simpl. split; [intros _; repeat split; auto|intros H; now elim H].
Qed.

Lemma suggesting_time_witness :
  (In (replyOf (handleScheduleIntent sampleWorld "3" offering)) reprompts /\
   stateAfter (handleScheduleIntent sampleWorld "3" offering) = offering /\
   snd (handleScheduleIntent sampleWorld "3" offering) = []) /\
  (In (replyOf (handleScheduleIntent sampleWorld "at noon" offering)) reprompts /\
   stateAfter (handleScheduleIntent sampleWorld "at noon" offering) = offering /\
   snd (handleScheduleIntent sampleWorld "at noon" offering) = []).
Proof.
  split.
  - apply (suggesting_time_selection sampleWorld "3" offering).
    + reflexivity.
    + reflexivity.
    + unfold notTimedOut, sessionTimeout. simpl. lia.
    + right. apply Nat.leb_le. vm_compute. reflexivity.
  - apply (suggesting_time_selection sampleWorld "at noon" offering).
    + reflexivity.
    + reflexivity.
    + unfold notTimedOut, sessionTimeout. simpl. lia.
    + left. reflexivity.
Defined.

(** C10, as stated, fails: the input [" 2"] is not a single digit, yet the
    handler trims it, binds the second suggestion and moves to
    [confirming]. *)
Lemma padded_digit_is_a_selection :
  isChoice " 2" = false /\
  " 2" <> "2" /\
  stage (stateAfter (handleScheduleIntent sampleWorld " 2" offering)) = confirming /\
  d_startTime (data (stateAfter (handleScheduleIntent sampleWorld " 2" offering)))
  = Some (Instant 1749549600000) /\
  d_endTime (data (stateAfter (handleScheduleIntent sampleWorld " 2" offering)))
  = Some (Instant 1749553200000) /\
  stateAfter (handleScheduleIntent sampleWorld " 2" offering) <> offering.
Proof.
  repeat split; try reflexivity; discriminate.
Qed.

(** The white space that the handler trims is that of JavaScript: a digit
    after a no-break space selects as well. *)
Lemma nbsp_digit_is_a_selection :
  JsString.trim (JsString.nbsp ++ "2") = "2" /\
  stage (stateAfter (handleScheduleIntent sampleWorld (JsString.nbsp ++ "2") offering))
  = confirming /\
  d_startTime (data (stateAfter
                       (handleScheduleIntent sampleWorld (JsString.nbsp ++ "2") offering)))
  = Some (Instant 1749549600000).
Proof. repeat split. Qed.

(** *** Errors inside the handler *)

(** Whatever the handler's body throws, the [catch] block answers with the
    generic reply and keeps the state that the body left. *)
Lemma throw_keeps_state w userInput st e st' created :
  handleScheduleIntent_body w userInput st = (Throw e, st', created) ->
  handleScheduleIntent w userInput st = (errorReply, st', created).
Proof.
  intros H. unfold handleScheduleIntent. now rewrite H.
Qed.

(** In the scheduling handler every path on which the body throws leaves
    the flow active. *)
Lemma schedule_throw_leaves_active w userInput st e st' created :
  handleScheduleIntent_body w userInput st = (Throw e, st', created) ->
  active st' = true.
Proof.
  unfold handleScheduleIntent_body.
  destruct (JsString.truthy userInput); cbn [negb]; [|discriminate].
  destruct (active st) eqn:Hact; cbn [negb].
  2:{ intros H. destruct (activate_stage w userInput) as [_ Ha].
      destruct (activate w userInput) as [r s0]. injection H as _ <- _. exact Ha. }
  destruct (sessionTimeout <? _); [discriminate|].
  unfold step. destruct (stage st); try discriminate.
  - destruct (truthyOpt _) as [dateText|]; [|discriminate].
    intros H.
    match type of H with
    | (suggestAvailableTimes w ?s, _) = _ =>
        destruct (suggestAvailableTimes_stage w s) as [_ Ha];
        destruct (suggestAvailableTimes w s) as [r s0]
    end.
    injection H as _ <- _. simpl in Ha. congruence.
  - destruct (isChoice _); [|discriminate].
    destruct (nth_error _ _) as [[sel|]|]; discriminate.
  - destruct (String.eqb _ "yes"); [discriminate|].
    destruct (String.eqb _ "no"); discriminate.
Qed.

(** The fallback turns the text "9:30pm" into the time "21:30pm". *)
Example fallback_time_9_30pm :
  convertTimeText "9:30pm" = Some "21:30pm" /\
  clockParts "21:30pm" = [Fin 21; NaN].
Proof. split; reflexivity. Qed.

(** C4. With the completion gateway unreachable, the request "Standup
    tomorrow at 9:30pm" resolves to a date and a time, the clock text
    "21:30pm" that the fallback makes of "9:30pm"; the start instant computed
    from it is invalid, and the activation ends with the stage still
    [parsing_request], none of the three stages that follow a parse, while
    the same request for "10:00" reaches [confirming]. *)
Theorem activation_stops_at_parsing_request :
  truthyOpt (date (parseDateAndTime (parser sampleWorld) "Standup tomorrow at 9:30pm"))
  = Some "2025-06-10" /\
  truthyOpt (time (parseDateAndTime (parser sampleWorld) "Standup tomorrow at 9:30pm"))
  = Some "21:30pm" /\
  startOf sampleWorld (newDate sampleWorld "2025-06-10") "21:30pm" = None /\
  stage (stateAfter (handleScheduleIntent sampleWorld "Standup tomorrow at 9:30pm" (idle 0)))
  = parsing_request /\
  ~ In (stage (stateAfter (handleScheduleIntent sampleWorld "Standup tomorrow at 9:30pm"
                             (idle 0))))
       [collecting_date; suggesting_time; confirming] /\
  stage (stateAfter (handleScheduleIntent sampleWorld "Standup tomorrow at 10:00" (idle 0)))
  = confirming.
Proof.
  split; [reflexivity|]. split; [reflexivity|]. split; [reflexivity|].
  split; [reflexivity|]. split; [|reflexivity].
  change (stage (stateAfter (handleScheduleIntent sampleWorld "Standup tomorrow at 9:30pm"
                               (idle 0)))) with parsing_request.
  intros [H|[H|[H|[]]]]; discriminate H.
Qed.

(** C2. With the completion gateway unreachable, the request
    "Standup tomorrow at 9:30pm" makes the handler's body throw (the start
    instant is invalid); the handler answers with the generic error
    reply, and the flow stays active in the stage [parsing_request], for
    which the handler has no case: the next turn is answered by the default
    branch and the flow is still active. *)
Theorem schedule_error_leaves_flow_active :
  let r := handleScheduleIntent sampleWorld "Standup tomorrow at 9:30pm" (idle 0) in
  fst (fst (handleScheduleIntent_body sampleWorld "Standup tomorrow at 9:30pm" (idle 0)))
  = Throw invalidTime /\
  replyOf r = errorReply /\
  active (stateAfter r) = true /\
  stage (stateAfter r) = parsing_request /\
  replyOf (handleScheduleIntent sampleWorld "yes" (stateAfter r))
  = "I'm not sure how to proceed. Can you clarify?" /\
  active (stateAfter (handleScheduleIntent sampleWorld "yes" (stateAfter r))) = true.
Proof. repeat split. Qed.

End SchedulingFlowFacts.

(** ** The mail composition flow *)

Module EmailServiceFacts.

Import Js EmailService.
Import EmailServiceSpec.


Lemma step_sent w text st :
  snd (step w text st) <> [] ->
  stage st = confirming /\
  JsString.includes (JsString.toLowerCase text) "yes" = true.
Proof.
  unfold step. destruct (stage st) eqn:Hs; cbv zeta.
  - simpl. congruence.
  - destruct (emailMatch w text); simpl; congruence.
  - match goal with
    | |- context [hasAllContext ?a] =>
        destruct (hasAllContext a), (truthyOpt (missingInfo a))
    end; simpl; congruence.
  - simpl. congruence.
  - simpl. congruence.
  - simpl. congruence.
  - destruct (JsString.includes (JsString.toLowerCase text) "yes") eqn:Hyes.
    + intros _. split; reflexivity.
    + destruct (JsString.includes (JsString.toLowerCase text) "no"); simpl; congruence.
  - destruct (JsString.includes _ "edit"); [simpl; congruence|].
    destruct (_ || _); [simpl; congruence|].
    destruct (JsString.includes _ "cancel"); simpl; congruence.
Qed.

(** The mail-send operation is invoked in one place only: the stage
    [confirming] of an active session that has not timed out, on a text
    whose lower-cased form contains "yes". *)
Lemma send_only_on_yes w userInput entities st :
  sentOf (handleEmailIntent w userInput entities st) <> [] ->
  active st = true /\ stage st = confirming /\ timedOut w st = false /\
  exists text, userInput = Some text /\
               JsString.includes (JsString.toLowerCase text) "yes" = true.
Proof.
  unfold sentOf, handleEmailIntent, handleEmailIntent_body.
  destruct (active st) eqn:Ha; cbn [negb].
  2:{ destruct (start w entities). simpl. congruence. }
  destruct (timedOut w st) eqn:Ht.
  { simpl. congruence. }
  destruct userInput as [text|].
  2:{ destruct (stage st); simpl; congruence. }
  pose proof (step_sent w text st) as Hstep.
  destruct (step w text st) as [[reply st'] sent]. simpl in *.
  intros Hne. destruct (Hstep Hne) as [Hs Hyes].
  repeat split; try assumption. exists text. split; [reflexivity|assumption].
Qed.



(** An exception that reaches the outer [catch] of [handleEmailIntent]
    resets the flow: the reply is the generic one and the state is the
    inactive initial state. *)
Lemma mail_error_resets_flow w userInput entities st e st' sent :
  handleEmailIntent_body w userInput entities st = (Throw e, st', sent) ->
  handleEmailIntent w userInput entities st = (recoveryReply, resetState, sent) /\
  active (stateAfter (handleEmailIntent w userInput entities st)) = false.
Proof.
  intros H. unfold stateAfter, handleEmailIntent. rewrite H. split; reflexivity.
Qed.

(** Whatever happens in a turn of the mail flow, a turn whose body threw
    leaves the flow inactive. *)
Lemma mail_flow_never_active_after_throw w userInput entities st :
  (exists e, fst (fst (handleEmailIntent_body w userInput entities st)) = Throw e) ->
  active (stateAfter (handleEmailIntent w userInput entities st)) = false.
Proof.
  intros [e He].
  destruct (handleEmailIntent_body w userInput entities st) as [[r st'] sent] eqn:E.
  simpl in He. subst r.
  now destruct (mail_error_resets_flow w userInput entities st e st' sent E).
Qed.

(** An input that is not a string makes the stage [confirming] throw, and
    the flow is reset. *)
Example mail_error_run :
  fst (fst (handleEmailIntent_body sampleMail None [] awaitingConfirmation))
  = Throw typeError /\
  handleEmailIntent sampleMail None [] awaitingConfirmation
  = (recoveryReply, resetState, []).
Proof. split; reflexivity. Qed.

End EmailServiceFacts.

(** ** The turn handler and entity extraction *)

Module ChatFacts.

Import Js Chat.
Import ChatSpec.

(** C3. While the mail composition flow is active, entity extraction for
    the mail intent returns the empty object for every input text, and it
    does so before any call of the completion gateway. *)
Theorem extraction_suppressed_in_mail_flow (w : World)
    (flow : EmailService.State) (text : string) :
  EmailService.active flow = true ->
  extractEntities w flow text "email_intent" = ([], []).
Proof.
  intros Hactive. unfold extractEntities, EmailService.isInEmailFlow.
  simpl. now rewrite Hactive.
Qed.

Lemma extraction_suppressed_witness :
  extractEntities sampleChat EmailServiceSpec.awaitingConfirmation
                  "send it to bob@example.com instead" "email_intent" = ([], []).
Proof.
  apply (extraction_suppressed_in_mail_flow sampleChat
           EmailServiceSpec.awaitingConfirmation
           "send it to bob@example.com instead").
  reflexivity.
Defined.

(** Outside a mail flow the same call does reach the gateway. *)
Example extraction_outside_flow :
  extractEntities sampleChat EmailService.resetState
                  "email alice@example.com about the budget" "email_intent"
  = ([("to", "alice@example.com")],
     [EmailPrompt "email alice@example.com about the budget"]).
Proof. reflexivity. Qed.

(** The tail of [processInput] does persist the response it returns. *)
Lemma finish_persists w sessionId userId userInput response st eff reply st' eff' :
  finish w sessionId userId userInput response st eff = (Ok reply, st', eff') ->
  reply = response /\
  stored eff' = (stored eff ++ [mkStored sessionId assistant response])%list.
Proof.
  unfold finish. destruct (messageCreate w _); [|discriminate].
  destruct userId as [uid|].
  - destruct (saveConversation w _ _ _ _); [|discriminate].
    intros [= <- <- <-]. split; reflexivity.
  - intros [= <- <- <-]. split; reflexivity.
Qed.

(** C5. On the general-chat path and on the active-mail-flow path the
    entry point returns the assistant's response without writing it to the
    message collection: after the turn the collection holds the user's
    message only.  (The paths that end in [finish] store the response.) *)
Theorem reply_returned_but_not_persisted :
  resultOf (processInput sampleChat "hello" "s1" None freshState)
  = Ok (Text "Hi there!") /\
  stored (effectsOf (processInput sampleChat "hello" "s1" None freshState))
  = [mkStored "s1" user (Text "hello")] /\
  resultOf (processInput sampleChat "no" "s1" None
              (mkState [] EmailServiceSpec.awaitingConfirmation))
  = Ok (Text "Would you like to edit the email, change the recipient, or cancel?") /\
  stored (effectsOf (processInput sampleChat "no" "s1" None
                       (mkState [] EmailServiceSpec.awaitingConfirmation)))
  = [mkStored "s1" user (Text "no")].
Proof. repeat split. Qed.

(** For comparison, the exit intent goes through [finish] and the response
    is stored next to the user's message. *)
Example exit_reply_is_persisted :
  resultOf (processInput exitWorld "bye" "s1" None freshState)
  = Ok (Text "Peace out!") /\
  stored (effectsOf (processInput exitWorld "bye" "s1" None freshState))
  = [mkStored "s1" user (Text "bye"); mkStored "s1" assistant (Text "Peace out!")].
Proof. split; reflexivity. Qed.

End ChatFacts.

(** ** More on the TTL cache *)

Module CacheExtra.

Import Cache CacheBatch CacheExtraSpec.

Section WithValue.

Context {V : Type}.
Implicit Types (c : store V) (key k : string) (it : item V).

Lemma map_get_set_same c key it : map_get (map_set c key it) key = Some it.
Proof.
  induction c as [|[k0 i0] c IH]; simpl.
  - now rewrite String.eqb_refl.
  - destruct (String.eqb k0 key) eqn:E; simpl; rewrite E; [reflexivity|exact IH].
Qed.

Lemma map_get_set_other c key it k :
  k <> key -> map_get (map_set c key it) k = map_get c k.
Proof.
  intros Hne. induction c as [|[k0 i0] c IH]; simpl.
  - destruct (String.eqb key k) eqn:E; [|reflexivity].
    apply String.eqb_eq in E. congruence.
  - destruct (String.eqb k0 key) eqn:E; simpl.
    + apply String.eqb_eq in E. subst k0.
      destruct (String.eqb key k) eqn:E'; [|reflexivity].
      apply String.eqb_eq in E'. congruence.
    + now rewrite IH.
Qed.

Lemma map_set_present_keys c key it old :
  map_get c key = Some old -> keys (map_set c key it) = keys c.
Proof.
  induction c as [|[k0 i0] c IH]; simpl; [discriminate|].
  destruct (String.eqb k0 key) eqn:E; simpl; [reflexivity|].
  intros H. now rewrite IH.
Qed.

Lemma keys_length c : List.length (keys c) = List.length c.
Proof. apply length_map. Qed.

Lemma set_shape opts (now : Z) c key (v : V) ttl :
  JsString.truthy key = true ->
  exists c1, set opts now c key v ttl
             = (true, map_set c1 key (mkItem v (now + effectiveTTL opts ttl) now)).
Proof.
  intros Hk. unfold set. rewrite Hk. eexists. reflexivity.
Qed.

(** X1. A value stored by [set] is returned by [get], and [has] answers
    [true], at every clock reading up to and including its expiry; neither
    access changes the store. *)
Theorem set_then_get opts (now now' : Z) c key (v : V) ttl :
  JsString.truthy key = true ->
  now' <= now + effectiveTTL opts ttl ->
  fst (set opts now c key v ttl) = true /\
  get now' (snd (set opts now c key v ttl)) key
  = (Some v, snd (set opts now c key v ttl)) /\
  has now' (snd (set opts now c key v ttl)) key
  = (true, snd (set opts now c key v ttl)).
Proof.
  intros Hk Hlive.
  destruct (set_shape opts now c key v ttl Hk) as [c1 Hset]. rewrite Hset.
  cbn [fst snd]. unfold get, has, map_has. rewrite Hk, map_get_set_same.
  cbn [negb orb expires value].
  replace (now + effectiveTTL opts ttl <? now')
    with false by (symmetry; apply Z.ltb_ge; lia).
  repeat split.
Qed.

(** X2. With a positive limit, a store within the limit stays within the
    limit after [set], whatever the key. *)
Theorem set_keeps_capacity opts (now : Z) c key (v : V) ttl :
  wf c ->
  0 < maxSize opts ->
  map_size c <= maxSize opts ->
  map_size (snd (set opts now c key v ttl)) <= maxSize opts.
Proof.
  intros Hwf Hpos Hsize. unfold set.
  destruct (JsString.truthy key) eqn:Hk; cbn [negb snd]; [|assumption].
  unfold map_has. destruct (map_get c key) as [old|] eqn:Hget.
  - rewrite andb_false_r. unfold map_size.
    rewrite <- keys_length, (map_set_present_keys _ _ _ _ Hget), keys_length.
    exact Hsize.
  - rewrite andb_true_r. destruct (maxSize opts <=? map_size c) eqn:Hfull.
    + apply Z.leb_le in Hfull.
      assert (Hne : c <> []).
      { intros ->. unfold map_size in Hfull. simpl in Hfull. lia. }
      destruct (CacheFacts.getOldestKey_spec c Hne) as (ok & oi & Hold & Hin & _).
      pose proof (CacheFacts.In_map_get _ _ _ (proj1 Hwf) Hin) as Hgo.
      rewrite Hold, (CacheFacts.wf_key_truthy _ _ _ Hwf Hgo).
      rewrite CacheFacts.map_set_fresh.
      * unfold map_size in *. rewrite length_app.
        rewrite (CacheFacts.map_delete_length _ _ _ Hgo). simpl.
        destruct c; [congruence|]. simpl in *. lia.
      * destruct (String.eqb ok key) eqn:E.
        -- apply String.eqb_eq in E. congruence.
        -- rewrite CacheFacts.map_get_delete_other; [assumption|].
           intros ->. now rewrite String.eqb_refl in E.
    + apply Z.leb_gt in Hfull. rewrite CacheFacts.map_set_fresh by assumption.
      unfold map_size in *. rewrite length_app. simpl. lia.
Qed.

(** X3. [set] on a key that is present evicts nothing, even in a full
    store: the keys and their order are unchanged, every other entry is
    untouched, and the key now holds the new value with a fresh creation
    time stamp. *)
Theorem set_existing_key_overwrites opts (now : Z) c key (v : V) ttl old :
  JsString.truthy key = true ->
  map_get c key = Some old ->
  fst (set opts now c key v ttl) = true /\
  keys (snd (set opts now c key v ttl)) = keys c /\
  map_get (snd (set opts now c key v ttl)) key
  = Some (mkItem v (now + effectiveTTL opts ttl) now) /\
  (forall k, k <> key ->
             map_get (snd (set opts now c key v ttl)) k = map_get c k).
Proof.
  intros Hk Hget. unfold set, map_has. rewrite Hk, Hget, andb_false_r.
  cbn [negb fst snd]. split; [reflexivity|]. split; [|split].
  - eapply map_set_present_keys. eassumption.
  - apply map_get_set_same.
  - intros k Hne. now apply map_get_set_other.
Qed.

Lemma filter_map_get (f : string * item V -> bool) c key it :
  map_get (filter f c) key = Some it -> In (key, it) c /\ f (key, it) = true.
Proof.
  induction c as [|[k0 i0] c IH]; simpl; [discriminate|].
  destruct (f (k0, i0)) eqn:Ef; simpl.
  - destruct (String.eqb k0 key) eqn:E.
    + apply String.eqb_eq in E. subst. intros [= ->]. split; [now left|assumption].
    + intros H. destruct (IH H). split; [now right|assumption].
  - intros H. destruct (IH H). split; [now right|assumption].
Qed.

Lemma map_get_filter (f : string * item V -> bool) c key it :
  NoDup (keys c) -> map_get c key = Some it -> f (key, it) = true ->
  map_get (filter f c) key = Some it.
Proof.
  induction c as [|[k0 i0] c IH]; simpl; [discriminate|].
  intros Hnd Hget Hf. inversion Hnd as [|? ? Hnotin Hnd']; subst.
  destruct (String.eqb k0 key) eqn:E.
  - apply String.eqb_eq in E. subst. injection Hget as ->.
    rewrite Hf. simpl. now rewrite String.eqb_refl.
  - destruct (f (k0, i0)); simpl; [rewrite E|]; now apply IH.
Qed.

Lemma filter_split_length {A} (f : A -> bool) (l : list A) :
  List.length l
  = (List.length (filter f l) + List.length (filter (fun x => negb (f x)) l))%nat.
Proof.
  induction l as [|a l IH]; simpl; [reflexivity|].
  destruct (f a); simpl; lia.
Qed.

(** X4. After [cleanup] no entry left in the store has expired, every
    entry that has not expired is still there, and the number it returns is
    the [expiredCount] that [getStats] reports for the store before the
    sweep, which is also the drop in size. *)
Theorem cleanup_removes_exactly_expired jsonLength opts (now : Z) c :
  wf c ->
  (forall k it, map_get (snd (cleanup now c)) k = Some it -> now <= expires it) /\
  (forall k it, map_get c k = Some it -> now <= expires it ->
                map_get (snd (cleanup now c)) k = Some it) /\
  fst (cleanup now c) = expiredCount (getStats jsonLength opts now c) /\
  fst (cleanup now c) = map_size c - map_size (snd (cleanup now c)).
Proof.
  intros [Hnd _]. unfold cleanup. cbn [fst snd]. split; [|split; [|split]].
  - intros k it H. apply filter_map_get in H as [_ Hf].
    simpl in Hf. apply negb_true_iff, Z.ltb_ge in Hf. exact Hf.
  - intros k it Hget Hlive. apply map_get_filter; try assumption.
    simpl. apply negb_true_iff, Z.ltb_ge. exact Hlive.
  - unfold getStats, map_size, isExpired. cbn [expiredCount].
    rewrite (filter_split_length (fun e => expires (snd e) <? now) c). lia.
  - reflexivity.
Qed.

(** X5. [remove] answers [true] exactly when the key was in the store,
    expired or not; afterwards [has] answers [false] and [get] answers
    [null] for that key, and every other key reads as before. *)
Theorem remove_then_absent (now : Z) c key :
  wf c ->
  (fst (remove c key) = true <-> In key (keys c)) /\
  has now (snd (remove c key)) key = (false, snd (remove c key)) /\
  get now (snd (remove c key)) key = (None, snd (remove c key)) /\
  (forall k, k <> key -> map_get (snd (remove c key)) k = map_get c k).
Proof.
  intros [Hnd _]. unfold remove. cbn [fst snd]. split; [|split; [|split]].
  - unfold map_has. destruct (map_get c key) as [it|] eqn:Hget.
    + split; [intros _|reflexivity].
      apply CacheFacts.map_get_In in Hget.
      change key with (fst (key, it)). now apply in_map.
    + split; [discriminate|]. intros Hin. exfalso.
      apply in_map_iff in Hin as ([k it] & Hk & Hin). simpl in Hk. subst k.
      rewrite (CacheFacts.In_map_get _ _ _ Hnd Hin) in Hget. discriminate.
  - unfold has, map_has. rewrite (CacheFacts.map_get_delete_same _ _ Hnd).
    now rewrite orb_true_r.
  - unfold get, map_has. rewrite (CacheFacts.map_get_delete_same _ _ Hnd).
    now rewrite orb_true_r.
  - intros k Hne. now apply CacheFacts.map_get_delete_other.
Qed.

Lemma setMultiple_fold opts now ttl (entries : list (string * V)) :
  forall (success : bool) c,
    fst (fold_left (setOne opts now ttl) entries (success, c))
    = success && forallb (fun e => JsString.truthy (fst e)) entries.
Proof.
  induction entries as [|[k v] entries IH]; intros success c; simpl.
  - now rewrite andb_true_r.
  - unfold set. destruct (JsString.truthy k) eqn:Hk; cbn [negb].
    + rewrite IH. reflexivity.
    + rewrite IH. simpl. now rewrite andb_false_r.
Qed.

Lemma setMultiple_skips_empty_keys opts now ttl (entries : list (string * V)) :
  Forall (fun e => JsString.truthy (fst e) = false) entries ->
  forall (success : bool) c,
    snd (fold_left (setOne opts now ttl) entries (success, c)) = c.
Proof.
  induction 1 as [|[k v] entries Hk _ IH]; intros success c; cbn [fold_left].
  - reflexivity.
  - cbn [fst] in Hk. unfold setOne at 2. cbn [fst snd]. unfold set.
    rewrite Hk. cbn [negb]. apply IH.
Qed.

Lemma setMultiple_store_filter opts now ttl (entries : list (string * V)) :
  forall (success success' : bool) c,
    snd (fold_left (setOne opts now ttl) entries (success, c))
    = snd (fold_left (setOne opts now ttl)
             (filter (fun e => JsString.truthy (fst e)) entries) (success', c)).
Proof.
  induction entries as [|[k v] entries IH]; intros success success' c;
    cbn [fold_left filter fst]; [reflexivity|].
  destruct (JsString.truthy k) eqn:Hk.
  - cbn [fold_left]. unfold setOne at 2 4. cbn [fst snd].
    destruct (set opts now c k v ttl) as [ok c']. apply IH.
  - unfold setOne at 2. cbn [fst snd]. unfold set. rewrite Hk. cbn [negb].
    apply IH.
Qed.

(** X6. [setMultiple] answers [true] exactly when the payload is an object
    none of whose keys is empty; an empty key does not stop the batch and
    changes nothing: the store is left as the payload without its entries
    of an empty key would leave it, and the last entry with a non-empty key
    is readable afterwards, whatever precedes it and whatever entries with
    an empty key follow it. *)
Theorem setMultiple_reports_empty_keys opts (now : Z) c
    (items : option (list (string * V))) ttl :
  (fst (setMultiple opts now c items ttl) = true <->
   exists entries, items = Some entries /\
                   Forall (fun e => JsString.truthy (fst e) = true) entries) /\
  (forall entries,
     items = Some entries ->
     snd (setMultiple opts now c items ttl)
     = snd (setMultiple opts now c
              (Some (filter (fun e => JsString.truthy (fst e)) entries)) ttl)) /\
  (forall before after key v,
     items = Some (before ++ (key, v) :: after)%list ->
     JsString.truthy key = true ->
     Forall (fun e => JsString.truthy (fst e) = false) after ->
     map_get (snd (setMultiple opts now c items ttl)) key
     = Some (mkItem v (now + effectiveTTL opts ttl) now)).
Proof.
  split; [|split; [intros entries ->; apply setMultiple_store_filter|]].
  - destruct items as [entries|]; simpl.
    + rewrite setMultiple_fold. simpl. rewrite forallb_forall.
      split.
      * intros H. exists entries. split; [reflexivity|].
        apply Forall_forall. exact H.
      * intros (entries' & [= <-] & H). rewrite Forall_forall in H. exact H.
    + split; [discriminate|]. intros (? & [=] & _).
  - intros before after key v -> Hk Hafter. unfold setMultiple.
    rewrite fold_left_app. cbn [fold_left].
    destruct (fold_left _ before (true, c)) as [success c1].
    unfold setOne at 2. cbn [fst snd].
    destruct (set_shape opts now c1 key v ttl Hk) as [c2 Hset].
    rewrite Hset. rewrite (setMultiple_skips_empty_keys opts now ttl after Hafter).
    apply map_get_set_same.
Qed.

End WithValue.

Lemma setMultiple_witness :
  map_get (snd (setMultiple smallOptions 2000 [] (Some [("a", "x"); ("", "y")]) None)) "a"
  = Some (mkItem "x" 62000 2000).
Proof.
  destruct (setMultiple_reports_empty_keys smallOptions 2000 []
              (Some [("a", "x"); ("", "y")]) None) as (_ & _ & H).
  apply (H [] [("", "y")] "a" "x").
  - reflexivity.
  - reflexivity.
  - repeat constructor.
Defined.

Lemma set_then_get_witness :
  fst (set smallOptions 2000 fullStore "c" "z" None) = true /\
  get 62000 (snd (set smallOptions 2000 fullStore "c" "z" None)) "c"
  = (Some "z", snd (set smallOptions 2000 fullStore "c" "z" None)) /\
  has 62000 (snd (set smallOptions 2000 fullStore "c" "z" None)) "c"
  = (true, snd (set smallOptions 2000 fullStore "c" "z" None)).
Proof.
  apply (set_then_get smallOptions 2000 62000 fullStore "c" "z" None).
  - reflexivity.
  - simpl. lia.
Defined.

Lemma fullStore_wf : wf fullStore.
Proof.
  split.
  - repeat constructor; simpl; intuition discriminate.
  - repeat constructor.
Defined.

Lemma set_keeps_capacity_witness :
  map_size (snd (set smallOptions 2000 fullStore "c" "z" None)) <= 2.
Proof.
  apply (set_keeps_capacity smallOptions 2000 fullStore "c" "z" None).
  - exact fullStore_wf.
  - simpl. lia.
  - unfold map_size. simpl. lia.
Defined.

Lemma set_existing_key_witness :
  fst (set smallOptions 2000 fullStore "b" "w" (Some 500)) = true /\
  keys (snd (set smallOptions 2000 fullStore "b" "w" (Some 500))) = ["a"; "b"] /\
  map_get (snd (set smallOptions 2000 fullStore "b" "w" (Some 500))) "b"
  = Some (mkItem "w" 2500 2000) /\
  (forall k, k <> "b" ->
             map_get (snd (set smallOptions 2000 fullStore "b" "w" (Some 500))) k
             = map_get fullStore k).
Proof.
  apply (set_existing_key_overwrites smallOptions 2000 fullStore "b" "w" (Some 500)
           (mkItem "y" 60900 900)); reflexivity.
Defined.

Lemma cleanup_witness :
  (forall k it, map_get (snd (cleanup 61000 fullStore)) k = Some it -> 61000 <= expires it) /\
  (forall k it, map_get fullStore k = Some it -> 61000 <= expires it ->
                map_get (snd (cleanup 61000 fullStore)) k = Some it) /\
  fst (cleanup 61000 fullStore)
  = expiredCount (getStats (fun _ => None) smallOptions 61000 fullStore) /\
  fst (cleanup 61000 fullStore)
  = map_size fullStore - map_size (snd (cleanup 61000 fullStore)).
Proof.
  apply (cleanup_removes_exactly_expired (fun _ => None) smallOptions 61000 fullStore).
  exact fullStore_wf.
Defined.

Lemma remove_witness :
  (fst (remove fullStore "b") = true <-> In "b" (keys fullStore)) /\
  has 5000 (snd (remove fullStore "b")) "b" = (false, snd (remove fullStore "b")) /\
  get 5000 (snd (remove fullStore "b")) "b" = (None, snd (remove fullStore "b")) /\
  (forall k, k <> "b" -> map_get (snd (remove fullStore "b")) k = map_get fullStore k).
Proof.
  apply (remove_then_absent 5000 fullStore "b"). exact fullStore_wf.
Defined.

End CacheExtra.

(** ** More on the slot finder *)

Module EventAnalyzerExtra.

Import JsNum EventAnalyzer EventAnalyzerSpec EventAnalyzerExtraSpec.

Lemma insertEvent_In e l x : In x (insertEvent e l) <-> x = e \/ In x l.
Proof.
  induction l as [|y l IH]; simpl.
  - intuition.
  - destruct (sortKey e <=? sortKey y); simpl; [intuition|].
    rewrite IH. intuition.
Qed.

Lemma insertEvent_sorted e l :
  StronglySorted keyLe l -> StronglySorted keyLe (insertEvent e l).
Proof.
  induction l as [|y l IH]; simpl; intros Hs.
  - constructor; [constructor|constructor].
  - inversion Hs as [|? ? Hs' Hall]; subst.
    destruct (sortKey e <=? sortKey y) eqn:E.
    + apply Z.leb_le in E. constructor; [assumption|].
      constructor; [exact E|].
      rewrite Forall_forall in *. intros x Hx. specialize (Hall x Hx).
      unfold keyLe in *. lia.
    + apply Z.leb_gt in E. constructor; [now apply IH|].
      apply Forall_forall. intros x Hx. apply insertEvent_In in Hx as [->|Hx].
      * unfold keyLe. lia.
      * rewrite Forall_forall in Hall. now apply Hall.
Qed.

Lemma insertEvent_perm e l : Permutation (e :: l) (insertEvent e l).
Proof.
  induction l as [|y l IH]; simpl; [reflexivity|].
  destruct (sortKey e <=? sortKey y); [reflexivity|].
  rewrite perm_swap. now constructor.
Qed.

(** X7. The sort of the events returns the same events, each as often as
    before, ordered by start instant (an all-day event by the instant of its
    date). *)
Theorem sortEvents_sorted_permutation (l : list Event) :
  StronglySorted keyLe (sortEvents l) /\ Permutation l (sortEvents l).
Proof.
  induction l as [|e l [IHs IHp]]; simpl.
  - split; constructor.
  - split; [now apply insertEvent_sorted|].
    rewrite <- insertEvent_perm. now constructor.
Qed.

Lemma sortEvents_In l x : In x (sortEvents l) <-> In x l.
Proof.
  destruct (sortEvents_sorted_permutation l) as [_ Hp]. split; intros H.
  - eapply Permutation_in; [symmetry; exact Hp|exact H].
  - eapply Permutation_in; eassumption.
Qed.

(** The loop over sorted events: the cursor only moves forward and ends
    behind every timed event; each slot it adds starts at or after the
    cursor it began with, has the requested length, and is clear of every
    event of the list. *)
Lemma fold_gapStep_clear durationMs events : forall slots cur,
  StronglySorted keyLe events ->
  cur <= snd (fold_left (gapStep durationMs) events (slots, cur)) /\
  (forall e es, In e events -> startDateTime e = Some es ->
                endDateTime e <= snd (fold_left (gapStep durationMs) events (slots, cur))) /\
  (forall s, In s (fst (fold_left (gapStep durationMs) events (slots, cur))) ->
             In s slots \/
             (cur <= start s /\ end_ s = start s + durationMs /\
              forall e, In e events -> clearOf s e)).
Proof.
  induction events as [|E events IH]; intros slots cur Hsorted.
  - simpl. split; [lia|]. split; [intros ? ? []|]. intros s Hs. now left.
  - inversion Hsorted as [|? ? Hs' Hall]; subst. rewrite Forall_forall in Hall.
    cbn [fold_left].
    destruct (gapStep durationMs (slots, cur) E) as [slots1 cur1] eqn:Estep.
    destruct (IH slots1 cur1 Hs') as (Hmono & Hends & Hslots).
    unfold gapStep in Estep.
    destruct (startDateTime E) as [eventStart|] eqn:Etimed.
    + injection Estep as Hslots1 Hcur1.
      assert (Hcur : cur <= cur1 /\ endDateTime E <= cur1).
      { subst cur1. destruct (cur <? endDateTime E) eqn:C;
          [apply Z.ltb_lt in C|apply Z.ltb_ge in C]; lia. }
      split; [lia|]. split.
      * intros e es [<-|Hin] Hes; [lia|]. eapply Hends; eassumption.
      * intros s Hs. destruct (Hslots s Hs) as [Hin1|(Hge & Hlen & Hclear)].
        -- assert (Hnew : In s slots \/
                          (In s (slotsFrom durationMs eventStart cur) /\ cur < eventStart)).
           { subst slots1. destruct (cur <? eventStart) eqn:C; [|now left].
             apply Z.ltb_lt in C.
             destruct (durationMs <=? eventStart - cur); [|now left].
             apply in_app_or in Hin1 as [?|?]; [now left|right; now split]. }
           destruct Hnew as [?|[Hin _]]; [now left|]. right.
           apply EventAnalyzerFacts.slotsFrom_bounds in Hin as (Hlo & Hhi & Hend).
           split; [exact Hlo|]. split; [exact Hend|].
           intros e [<-|Hin'] es Hes.
           ++ left. rewrite Etimed in Hes. injection Hes as <-. lia.
           ++ left. specialize (Hall e Hin'). unfold keyLe, sortKey in Hall.
              rewrite Etimed, Hes in Hall. lia.
        -- right. split; [lia|]. split; [exact Hlen|].
           intros e [<-|Hin'] es Hes; [right; lia|]. now apply Hclear.
    + injection Estep as <- <-.
      split; [exact Hmono|]. split.
      * intros e es [<-|Hin] Hes; [congruence|]. eapply Hends; eassumption.
      * intros s Hs. destruct (Hslots s Hs) as [?|(Hge & Hlen & Hclear)]; [now left|].
        right. split; [exact Hge|]. split; [exact Hlen|].
        intros e [<-|Hin'] es Hes; [congruence|]. now apply Hclear.
Qed.

(** X8. Every slot that [findAvailableTimeSlots] returns has the requested
    length, starts no earlier than the start of the search window, and
    overlaps no timed event that the calendar returned for the day. *)
Theorem slots_are_free (tz now : Z) (getCalendarEvents : Z -> Z -> list Event)
    (target duration : Z) (slot : Slot) :
  In slot (findAvailableTimeSlots tz now getCalendarEvents (Some target) (Fin duration)) ->
  end_ slot = start slot + duration * 60 * 1000 /\
  windowStart tz now target <= start slot /\
  forall e,
    In e (getCalendarEvents (JsDate.setHours tz target 0 0 0 0)
                            (JsDate.setHours tz target 23 59 59 999)) ->
    clearOf slot e.
Proof.
  unfold findAvailableTimeSlots. cbv zeta.
  set (events := sortEvents _). set (dMs := duration * 60 * 1000).
  destruct (sortEvents_sorted_permutation
              (getCalendarEvents (JsDate.setHours tz target 0 0 0 0)
                                 (JsDate.setHours tz target 23 59 59 999)))
    as [Hsorted _].
  fold events in Hsorted.
  destruct (fold_gapStep_clear dMs events [] (windowStart tz now target) Hsorted)
    as (Hmono & Hends & Hslots).
  destruct (fold_left _ events _) as [slots cur]. cbn [fst snd] in *.
  intros Hin. apply EventAnalyzerFacts.firstn_subset in Hin.
  assert (Hcase : In slot slots \/
                  In slot (slotsFrom dMs (JsDate.setHours tz target 17 0 0 0) cur)).
  { destruct (cur <? _); [apply in_app_or in Hin; exact Hin|now left]. }
  destruct Hcase as [Hold|Hlast].
  - destruct (Hslots slot Hold) as [[]|(Hge & Hlen & Hclear)].
    split; [exact Hlen|]. split; [exact Hge|].
    intros e He. apply Hclear. unfold events. now apply sortEvents_In.
  - apply EventAnalyzerFacts.slotsFrom_bounds in Hlast as (Hlo & _ & Hend).
    split; [exact Hend|]. split; [lia|].
    intros e He es Hes. right.
    assert (Hin' : In e events) by (unfold events; now apply sortEvents_In).
    specialize (Hends e es Hin' Hes). lia.
Qed.

(** X9. When the target day is today and 09:00 has passed, the search
    window starts on a half-hour boundary of local time that lies less than
    a minute before the clock reading at the earliest and 30 minutes after
    it at the latest. *)
Theorem windowStart_today (tz now target : Z) :
  JsDate.sameLocalDay tz target now = true ->
  JsDate.setHours tz target 9 0 0 0 < now ->
  (windowStart tz now target + tz) mod halfHour = 0 /\
  now - JsDate.msPerMinute < windowStart tz now target <= now + halfHour.
Proof.
  intros Hday Hpast. unfold windowStart. rewrite Hday.
  replace (JsDate.setHours tz target 9 0 0 0 <? now) with true
    by (symmetry; now apply Z.ltb_lt).
  unfold JsDate.setMinutes, JsDate.makeLocal, JsDate.getMinutes, JsDate.getHours,
    JsDate.timeWithinDay, JsDate.localDay, JsDate.localTime,
    JsDate.msPerDay, JsDate.msPerHour, JsDate.msPerMinute, JsDate.msPerSecond, halfHour.
  split.
  - Z.div_mod_to_equations. lia.
  - Z.div_mod_to_equations. lia.
Qed.

Lemma busyMorning_result :
  findAvailableTimeSlots 0 sampleNow busyMorning (Some sampleTarget) (Fin 45)
  = map (fun k => {| start := 1749551400000 + k * halfHour;
                     end_ := 1749551400000 + k * halfHour + 2700000 |})
        [0; 1; 2; 3; 4].
Proof.
  unfold findAvailableTimeSlots, busyMorning, windowStart, sampleNow, sampleTarget.
  cbv zeta.
  replace (JsDate.sameLocalDay 0 1749556800000 1749470400000) with false by reflexivity.
  replace (JsDate.setHours 0 1749556800000 9 0 0 0) with 1749546000000 by reflexivity.
  replace (JsDate.setHours 0 1749556800000 17 0 0 0) with 1749574800000 by reflexivity.
  replace (45 * 60 * 1000) with 2700000 by reflexivity.
  cbn [sortEvents fold_right insertEvent sortKey startDateTime startDate].
  replace (1749513600000 <=? 1749547800000) with true by reflexivity.
  cbn [fold_left gapStep startDateTime endDateTime].
  replace (1749546000000 <? 1749547800000) with true by reflexivity.
  replace (2700000 <=? 1749547800000 - 1749546000000) with false by reflexivity.
  replace (1749546000000 <? 1749551400000) with true by reflexivity.
  replace (1749551400000 <? 1749574800000) with true by reflexivity.
  cbn [app].
  do 5 (rewrite EventAnalyzerFacts.slotsFrom_step by (unfold halfHour; lia)).
  cbn [firstn map]. unfold halfHour.
  repeat (f_equal; try lia).
Qed.

Lemma slots_are_free_witness :
  end_ (mkSlot 1749551400000 1749554100000) = 1749551400000 + 45 * 60 * 1000 /\
  windowStart 0 sampleNow sampleTarget <= 1749551400000 /\
  forall e,
    In e (busyMorning (JsDate.setHours 0 sampleTarget 0 0 0 0)
                      (JsDate.setHours 0 sampleTarget 23 59 59 999)) ->
    clearOf (mkSlot 1749551400000 1749554100000) e.
Proof.
  apply (slots_are_free 0 sampleNow busyMorning sampleTarget 45
           (mkSlot 1749551400000 1749554100000)).
  rewrite busyMorning_result. left. reflexivity.
Defined.

Lemma windowStart_today_witness :
  (windowStart 0 midMorning sampleTarget + 0) mod halfHour = 0 /\
  midMorning - JsDate.msPerMinute < windowStart 0 midMorning sampleTarget
  <= midMorning + halfHour.
Proof.
  apply (windowStart_today 0 midMorning sampleTarget).
  - reflexivity.
  - vm_compute. reflexivity.
Defined.

(** At 10:10:25 the window starts at 10:30:00. *)
Example windowStart_run : windowStart 0 midMorning sampleTarget = 1749551400000.
Proof. reflexivity. Qed.

End EventAnalyzerExtra.

(** ** More on the scheduling flow *)

Module SchedulingFlowExtra.

Import JsNum Js EventAnalyzer SchedulingFlow SchedulingFlowSpec FlowExtraSpec.

Lemma handle_created w userInput st :
  snd (handleScheduleIntent w userInput st)
  = snd (handleScheduleIntent_body w userInput st).
Proof.
  unfold handleScheduleIntent.
  destruct (handleScheduleIntent_body w userInput st) as [[[reply|e] st'] created];
    reflexivity.
Qed.

Lemma lower_yes_truthy s : JsString.toLowerCase s = "yes" -> JsString.truthy s = true.
Proof. destruct s; [discriminate|reflexivity]. Qed.


(** X10. A turn hands an event to [createCalendarEvent] only when the flow
    is active in [confirming], has not timed out, and the input is "yes" up
    to letter case and nothing more; it is then exactly one event, built
    from the stored title, times and attendees, and the flow is inactive
    afterwards. *)
Theorem event_created_only_on_exact_yes (w : World) (userInput : string) (st : State) :
  snd (handleScheduleIntent w userInput st) <> [] ->
  active st = true /\ stage st = confirming /\ notTimedOut w st /\
  JsString.toLowerCase userInput = "yes" /\
  snd (handleScheduleIntent w userInput st) = [eventOf (data st)] /\
  active (stateAfter (handleScheduleIntent w userInput st)) = false.
Proof.
  rewrite SchedulingFlowFacts.handle_from_body, handle_created.
  unfold handleScheduleIntent_body, notTimedOut.
  destruct (JsString.truthy userInput); cbn [negb]; [|simpl; congruence].
  destruct (active st); cbn [negb]; [|simpl; congruence].
  destruct (sessionTimeout <? now w - d_startTimestamp (data st)) eqn:Ht;
    [simpl; congruence|].
  apply Z.ltb_ge in Ht. unfold step.
  destruct (stage st); try (simpl; congruence).
  - destruct (truthyOpt _); simpl; congruence.
  - destruct (isChoice _); [|simpl; congruence].
    destruct (nth_error _ _) as [[sel|]|]; simpl; congruence.
  - destruct (String.eqb (JsString.toLowerCase userInput) "yes") eqn:Hyes.
    + apply String.eqb_eq in Hyes. intros _. repeat split; assumption.
    + destruct (String.eqb _ "no"); simpl; congruence.
Qed.

(** X11. A turn on a session older than ten minutes only clears [active]:
    stage and data stay and nothing is created; the next non-empty input
    then starts a flow from fresh data, with nothing of the old session
    left. *)
Theorem timed_out_session_restarts (w w2 : World) (userInput userInput2 : string)
    (st : State) :
  active st = true ->
  JsString.truthy userInput = true ->
  JsString.truthy userInput2 = true ->
  sessionTimeout < now w - d_startTimestamp (data st) ->
  handleScheduleIntent w userInput st
  = ("The scheduling session timed out. Let's start over.",
     mkState false (stage st) (data st), []) /\
  stateAfter (handleScheduleIntent w2 userInput2
                (stateAfter (handleScheduleIntent w userInput st)))
  = snd (activate w2 userInput2).
Proof.
  intros Ha Hin Hin2 Ht.
  assert (H1 : handleScheduleIntent w userInput st
               = ("The scheduling session timed out. Let's start over.",
                  mkState false (stage st) (data st), [])).
  { unfold handleScheduleIntent, handleScheduleIntent_body.
    rewrite Hin, Ha. cbn [negb].
    replace (sessionTimeout <? now w - d_startTimestamp (data st)) with true
      by (symmetry; now apply Z.ltb_lt).
    reflexivity. }
  split; [exact H1|]. rewrite H1.
  apply SchedulingFlowFacts.activation_state; [reflexivity|assumption].
Qed.


Lemma optionLines_of_slots (f : Slot -> Suggestion) (l : list Slot) : forall index,
  exists lines, optionLines index (map (fun slot => Some (f slot)) l) = Ok lines.
Proof.
  induction l as [|s l IH]; intros index; simpl.
  - eexists. reflexivity.
  - destruct (IH (index + 1)) as [lines Hl]. rewrite Hl. eexists. reflexivity.
Qed.

(** X13. When the pattern analysis yields no suggestion,
    [suggestAvailableTimes] falls back on the slot finder and cannot throw:
    what it stores are the slots that [findAvailableTimeSlots] returns for
    the date and the duration of the session, in that order, each with its
    two instants and a display text made of them; so it stores at most five
    suggestions, none of them [null].  It changes nothing else of the
    state, stage and [active] included, and answers that no slot was found
    exactly when it stored none. *)
Theorem fallback_suggestions_are_sound (w : World) (st : State) :
  (forall target duration purpose, patternSuggestions w target duration purpose = []) ->
  (exists reply, fst (suggestAvailableTimes w st) = Ok reply) /\
  (List.length (d_suggestedTimes (data (snd (suggestAvailableTimes w st)))) <= 5)%nat /\
  Forall (fun s => s <> None) (d_suggestedTimes (data (snd (suggestAvailableTimes w st)))) /\
  (d_suggestedTimes (data (snd (suggestAvailableTimes w st))) = [] <->
   fst (suggestAvailableTimes w st)
   = Ok "No available time slots found for the selected day.") /\
  snd (suggestAvailableTimes w st)
  = mkState (active st) (stage st)
      (setSuggestedTimes (data st)
         (map (fun slot => Some (suggestionOf w slot))
              (findAvailableTimeSlots (tz w) (now w) (getCalendarEvents w)
                 (targetOf w st) (toNumber (d_duration (data st)))))).
Proof.
  intros Hnone. unfold suggestAvailableTimes. cbv zeta.
  fold (targetOf w st).
  set (purpose := if JsString.truthy (d_title (data st)) then _ else _).
  assert (Hpat : analyzeEventPatterns w (targetOf w st)
                   (toNumber (d_duration (data st))) purpose = []).
  { unfold analyzeEventPatterns. destruct (targetOf w st); [apply Hnone|reflexivity]. }
  rewrite Hpat. cbn [isEmpty].
  set (slots := findAvailableTimeSlots _ _ _ _ _).
  assert (Hlen : (List.length slots <= 5)%nat)
    by apply EventAnalyzerFacts.find_at_most_five.
  change (map _ slots) with (map (fun slot => Some (suggestionOf w slot)) slots).
  destruct (optionLines_of_slots (suggestionOf w) slots 0) as [lines Hlines].
  rewrite Hlines.
  destruct slots as [|s slots]; cbn [map isEmpty negb fst snd data d_suggestedTimes
                                      setSuggestedTimes].
  - split; [eexists; reflexivity|]. split; [simpl; lia|]. split; [constructor|].
    split; [split; reflexivity|reflexivity].
  - split; [eexists; reflexivity|]. split.
    { cbn [List.length] in *. rewrite length_map. exact Hlen. }
    split.
    { constructor; [discriminate|]. apply Forall_forall. intros x Hx.
      apply in_map_iff in Hx as (y & <- & _). discriminate. }
    split; [split; intros H; discriminate|reflexivity].
Qed.

Lemma event_created_witness :
  active SchedulingFlowSpec.offering = true /\
  JsString.toLowerCase "Yes" = "yes" /\
  snd (handleScheduleIntent sampleWorld "Yes"
         (mkState true confirming (bound (data offering)
            (mkSuggestion 1749546000000 1749549600000 "9:00 AM - 10:00 AM"))))
  = [eventOf (bound (data offering)
       (mkSuggestion 1749546000000 1749549600000 "9:00 AM - 10:00 AM"))].
Proof.
  destruct (event_created_only_on_exact_yes sampleWorld "Yes"
              (mkState true confirming (bound (data offering)
                 (mkSuggestion 1749546000000 1749549600000 "9:00 AM - 10:00 AM"))))
    as (Ha & _ & _ & Hyes & Hone & _).
  - discriminate.
  - split; [reflexivity|]. split; [exact Hyes|exact Hone].
Defined.

Lemma timed_out_session_witness :
  handleScheduleIntent sampleWorld "2" staleOffering
  = ("The scheduling session timed out. Let's start over.",
     mkState false (stage staleOffering) (data staleOffering), []) /\
  stateAfter (handleScheduleIntent sampleWorld "Standup tomorrow"
                (stateAfter (handleScheduleIntent sampleWorld "2" staleOffering)))
  = snd (activate sampleWorld "Standup tomorrow").
Proof.
  apply (timed_out_session_restarts sampleWorld sampleWorld "2" "Standup tomorrow"
           staleOffering).
  - reflexivity.
  - reflexivity.
  - reflexivity.
  - unfold sessionTimeout. simpl. lia.
Defined.


Lemma fallback_suggestions_witness :
  (exists reply, fst (suggestAvailableTimes sampleWorld offering) = Ok reply) /\
  (List.length (d_suggestedTimes (data (snd (suggestAvailableTimes sampleWorld offering))))
   <= 5)%nat /\
  Forall (fun s => s <> None)
         (d_suggestedTimes (data (snd (suggestAvailableTimes sampleWorld offering)))) /\
  (d_suggestedTimes (data (snd (suggestAvailableTimes sampleWorld offering))) = [] <->
   fst (suggestAvailableTimes sampleWorld offering)
   = Ok "No available time slots found for the selected day.") /\
  snd (suggestAvailableTimes sampleWorld offering)
  = mkState (active offering) (stage offering)
      (setSuggestedTimes (data offering)
         (map (fun slot => Some (suggestionOf sampleWorld slot))
              (findAvailableTimeSlots (tz sampleWorld) (now sampleWorld)
                 (getCalendarEvents sampleWorld) (targetOf sampleWorld offering)
                 (toNumber (d_duration (data offering)))))).
Proof.
  apply (fallback_suggestions_are_sound sampleWorld offering).
  intros target duration purpose. reflexivity.
Defined.

End SchedulingFlowExtra.

(** ** More on the mail composition flow *)

Module EmailServiceExtra.

Import Js EmailService EmailServiceSpec FlowExtraSpec.

(** X14. A first turn of the mail flow activates it, records the clock
    reading as its start, and sends nothing; with a recipient among the
    entities (other than the placeholder MISSING and the empty text) it goes
    straight to [collecting_purpose] with that recipient, otherwise it asks
    for one in [collecting_recipient]. *)
Theorem new_flow_routing (w : World) (userInput : option string)
    (entities : Entities) (st : State) :
  active st = false ->
  active (stateAfter (handleEmailIntent w userInput entities st)) = true /\
  startTime (data (stateAfter (handleEmailIntent w userInput entities st)))
  = Some (now w) /\
  sentOf (handleEmailIntent w userInput entities st) = [] /\
  (forall address,
     field entities "to" = Some address ->
     address <> "MISSING" -> address <> EmptyString ->
     stage (stateAfter (handleEmailIntent w userInput entities st))
     = collecting_purpose /\
     to (data (stateAfter (handleEmailIntent w userInput entities st)))
     = Some address) /\
  (field entities "to" = None \/ field entities "to" = Some "MISSING" \/
   field entities "to" = Some EmptyString ->
   stage (stateAfter (handleEmailIntent w userInput entities st))
   = collecting_recipient).
Proof.
  intros Ha. unfold handleEmailIntent, handleEmailIntent_body, stateAfter, sentOf.
  rewrite Ha. cbn [negb]. unfold start.
  destruct (field entities "to") as [address|] eqn:Hto.
  - destruct (String.eqb address "MISSING") eqn:Hm.
    + apply String.eqb_eq in Hm. subst address. cbn.
      split; [reflexivity|]. split; [reflexivity|]. split; [reflexivity|].
      split; [|reflexivity].
      intros a Heq Hn1 Hn2. injection Heq as Heq. subst a. now elim Hn1.
    + destruct address as [|c rest]; cbn.
      * split; [reflexivity|]. split; [reflexivity|]. split; [reflexivity|].
        split; [|reflexivity].
        intros a Heq Hn1 Hn2. injection Heq as Heq. subst a. now elim Hn2.
      * split; [reflexivity|]. split; [reflexivity|]. split; [reflexivity|].
        split.
        -- intros a Heq Hn1 Hn2. injection Heq as Heq. subst a. split; reflexivity.
        -- intros [Hx|[Hx|Hx]]; try discriminate.
           injection Hx as Hx1 Hx2. subst c rest. rewrite String.eqb_refl in Hm.
           discriminate.
  - cbn. split; [reflexivity|]. split; [reflexivity|]. split; [reflexivity|].
    split; [|reflexivity]. intros a Heq. discriminate.
Qed.

Lemma proceed_settles w st :
  settled (stage (snd (proceedToEmailGeneration w st))).
Proof.
  unfold proceedToEmailGeneration, settled.
  destruct (analyzeEmailContext w _); [|split; discriminate].
  destruct (generateHumanizedEmail w _ _ _) as [[s b]|]; split; discriminate.
Qed.

Lemma step_settles w text st :
  settled (stage st) -> settled (stage (snd (fst (step w text st)))).
Proof.
  intros [Hg Hc]. unfold step. cbv zeta.
  destruct (stage st) eqn:Hs; try congruence.
  - cbn. split; discriminate.
  - destruct (emailMatch w text); cbn; [split; discriminate|].
    rewrite Hs. split; discriminate.
  - match goal with
    | |- context [hasAllContext ?a] =>
        destruct (hasAllContext a), (truthyOpt (missingInfo a))
    end; cbn [fst snd]; try apply proceed_settles; cbn; split; discriminate.
  - cbn [fst snd]. apply proceed_settles.
  - destruct (JsString.includes _ "yes").
    + destruct (sendEmail w _); cbn; [split; discriminate|].
      rewrite Hs. split; discriminate.
    + destruct (JsString.includes _ "no"); cbn; [split; discriminate|].
      rewrite Hs. split; discriminate.
  - destruct (JsString.includes _ "edit"); [cbn; split; discriminate|].
    destruct (_ || _); [cbn; split; discriminate|].
    destruct (JsString.includes _ "cancel"); cbn; [split; discriminate|].
    rewrite Hs. split; discriminate.
Qed.

(** X15. The handler never leaves the flow in one of its transient stages:
    from a stage other than [generating] and [checking_context], the stage
    after the turn is again neither of them, whatever the input and whatever
    the collaborators answer, failures included. *)
Theorem handler_settles (w : World) (userInput : option string)
    (entities : Entities) (st : State) :
  settled (stage st) ->
  settled (stage (stateAfter (handleEmailIntent w userInput entities st))).
Proof.
  intros Hst. unfold handleEmailIntent, handleEmailIntent_body, stateAfter.
  destruct (active st); cbn [negb].
  2:{ unfold start. cbv zeta.
      match goal with
      | |- context [truthyOpt ?r] => destruct (truthyOpt r)
      end; cbn; split; discriminate. }
  destruct (timedOut w st); [cbn; split; discriminate|].
  destruct userInput as [text|].
  2:{ destruct Hst as [Hg Hc].
      destruct (stage st); try congruence; cbn; split; discriminate. }
  pose proof (step_settles w text st Hst) as Hstep.
  destruct (step w text st) as [[reply st'] mails]. exact Hstep.
Qed.

(** X16. A turn on a mail session older than 15 minutes resets the flow to
    its initial inactive state and sends nothing, whatever the stage and
    the input, a "yes" at [confirming] included; the next turn starts a new
    flow. *)
Theorem timed_out_mail_session (w w2 : World) (userInput userInput2 : option string)
    (entities entities2 : Entities) (st : State) :
  active st = true ->
  timedOut w st = true ->
  handleEmailIntent w userInput entities st
  = ("It looks like our email drafting session timed out. Let's start over. What would you like to do?",
     resetState, []) /\
  stateAfter (handleEmailIntent w2 userInput2 entities2
                (stateAfter (handleEmailIntent w userInput entities st)))
  = snd (start w2 entities2).
Proof.
  intros Ha Ht.
  assert (H1 : handleEmailIntent w userInput entities st
               = ("It looks like our email drafting session timed out. Let's start over. What would you like to do?",
                  resetState, [])).
  { unfold handleEmailIntent, handleEmailIntent_body. now rewrite Ha, Ht. }
  split; [exact H1|]. rewrite H1.
  unfold stateAfter, handleEmailIntent, handleEmailIntent_body. cbn [fst snd].
  cbn [active resetState negb]. destruct (start w2 entities2). reflexivity.
Qed.

Lemma new_flow_routing_witness :
  active (stateAfter (handleEmailIntent sampleMail (Some "email alice about the budget")
                        [("to", "alice@example.com")] resetState)) = true /\
  stage (stateAfter (handleEmailIntent sampleMail (Some "email alice about the budget")
                       [("to", "alice@example.com")] resetState))
  = collecting_purpose /\
  to (data (stateAfter (handleEmailIntent sampleMail (Some "email alice about the budget")
                          [("to", "alice@example.com")] resetState)))
  = Some "alice@example.com" /\
  stage (stateAfter (handleEmailIntent sampleMail (Some "send an email")
                       [("to", "MISSING")] resetState))
  = collecting_recipient.
Proof.
  destruct (new_flow_routing sampleMail (Some "email alice about the budget")
              [("to", "alice@example.com")] resetState eq_refl)
    as (Ha & _ & _ & Hto & _).
  destruct (Hto "alice@example.com" eq_refl) as [Hs Hr]; try discriminate.
  destruct (new_flow_routing sampleMail (Some "send an email")
              [("to", "MISSING")] resetState eq_refl)
    as (_ & _ & _ & _ & Hmissing).
  split; [exact Ha|]. split; [exact Hs|]. split; [exact Hr|].
  apply Hmissing. right. left. reflexivity.
Defined.

Lemma handler_settles_witness :
  settled (stage (stateAfter (handleEmailIntent sampleMail (Some "the budget is ready") []
                                (mkState true collecting_purpose
                                   (data awaitingConfirmation))))).
Proof.
  apply (handler_settles sampleMail (Some "the budget is ready") []
           (mkState true collecting_purpose (data awaitingConfirmation))).
  split; discriminate.
Defined.

Lemma timed_out_mail_witness :
  handleEmailIntent sampleMail (Some "yes") [] staleConfirmation
  = ("It looks like our email drafting session timed out. Let's start over. What would you like to do?",
     resetState, []) /\
  stateAfter (handleEmailIntent sampleMail (Some "email bob") []
                (stateAfter (handleEmailIntent sampleMail (Some "yes") [] staleConfirmation)))
  = snd (start sampleMail []).
Proof.
  apply (timed_out_mail_session sampleMail sampleMail (Some "yes") (Some "email bob")
           [] [] staleConfirmation); reflexivity.
Defined.

End EmailServiceExtra.

(** ** More on the turn handler *)

Module ChatExtra.

Import Js Chat ChatSpec FlowExtraSpec.

Lemma finish_effects w sessionId userId userInput response st eff :
  let r := finish w sessionId userId userInput response st eff in
  sent (effectsOf r) = sent eff /\ prompts (effectsOf r) = prompts eff /\
  (stored (effectsOf r) = stored eff \/
   stored (effectsOf r) = (stored eff ++ [mkStored sessionId assistant response])%list) /\
  (forall reply, resultOf r = Ok reply ->
     reply = response /\
     stored (effectsOf r) = (stored eff ++ [mkStored sessionId assistant response])%list).
Proof.
  unfold finish, effectsOf, resultOf. cbv zeta.
  destruct (messageCreate w _).
  - destruct userId as [uid|]; [destruct (saveConversation w _ _ _ _)|];
      cbn; (split; [reflexivity|]); (split; [reflexivity|]);
      (split; [now right|]); intros reply Hr;
      try discriminate; injection Hr as Hr; subst reply; split; reflexivity.
  - cbn. split; [reflexivity|]. split; [reflexivity|]. split; [now left|].
    intros reply Hr. discriminate.
Qed.

Lemma step_sends_at_most_one w text st :
  (List.length (snd (EmailService.step w text st)) <= 1)%nat.
Proof.
  unfold EmailService.step. cbv zeta.
  destruct (EmailService.stage st); try (cbn; lia).
  - destruct (EmailService.emailMatch w text); cbn; lia.
  - match goal with
    | |- context [EmailService.hasAllContext ?a] =>
        destruct (EmailService.hasAllContext a),
                 (truthyOpt (EmailService.missingInfo a))
    end; cbn [snd List.length]; lia.
  - destruct (JsString.includes _ "yes").
    + destruct (EmailService.sendEmail w _); cbn; lia.
    + destruct (JsString.includes _ "no"); cbn; lia.
  - destruct (JsString.includes _ "edit"); [cbn; lia|].
    destruct (_ || _); [cbn; lia|].
    destruct (JsString.includes _ "cancel"); cbn; lia.
Qed.

Lemma mail_sends_at_most_one w userInput entities st :
  (List.length (snd (EmailService.handleEmailIntent w userInput entities st)) <= 1)%nat.
Proof.
  unfold EmailService.handleEmailIntent, EmailService.handleEmailIntent_body.
  destruct (EmailService.active st); cbn [negb].
  2:{ destruct (EmailService.start w entities). cbn. lia. }
  destruct (EmailService.timedOut w st); [cbn; lia|].
  destruct userInput as [text|].
  2:{ destruct (EmailService.stage st); cbn; lia. }
  pose proof (step_sends_at_most_one w text st) as Hstep.
  destruct (EmailService.step w text st) as [[reply st'] mails]. exact Hstep.
Qed.

(** The effects of the [switch] on the intent. *)
Lemma dispatch_effects w sessionId userId userInput st eff :
  let r := dispatch w sessionId userId userInput st eff in
  (stored (effectsOf r) = stored eff \/
   exists reply,
     stored (effectsOf r) = (stored eff ++ [mkStored sessionId assistant reply])%list /\
     forall x, resultOf r = Ok x -> x = reply) /\
  (forall x, resultOf r = Ok x ->
     stored (effectsOf r) = stored eff \/
     stored (effectsOf r) = (stored eff ++ [mkStored sessionId assistant x])%list) /\
  (sent (effectsOf r) = sent eff \/
   sent (effectsOf r)
   = (sent eff ++ snd (EmailService.handleEmailIntent (mail w) (Some userInput)
                         (fst (extractEntities w (emailState st) userInput
                                 (fst (classifyIntent w userInput))))
                         (emailState st)))%list).
Proof.
  unfold dispatch. cbv zeta.
  destruct (classifyIntent w userInput) as [intent p1]. cbn [fst].
  destruct (extractEntities w (emailState st) userInput intent) as [entities p2].
  cbn [fst].
  assert (Hfin : forall response st0 eff0,
    sent eff0 = sent eff \/
    sent eff0 = (sent eff ++ snd (EmailService.handleEmailIntent (mail w)
                                    (Some userInput) entities (emailState st)))%list ->
    stored eff0 = stored eff ->
    let r := finish w sessionId userId userInput response st0 eff0 in
    (stored (effectsOf r) = stored eff \/
     exists reply,
       stored (effectsOf r) = (stored eff ++ [mkStored sessionId assistant reply])%list /\
       forall x, resultOf r = Ok x -> x = reply) /\
    (forall x, resultOf r = Ok x ->
       stored (effectsOf r) = stored eff \/
       stored (effectsOf r) = (stored eff ++ [mkStored sessionId assistant x])%list) /\
    (sent (effectsOf r) = sent eff \/
     sent (effectsOf r)
     = (sent eff ++ snd (EmailService.handleEmailIntent (mail w) (Some userInput)
                           entities (emailState st)))%list)).
  { intros response st0 eff0 Hsent Hstored.
    destruct (finish_effects w sessionId userId userInput response st0 eff0)
      as (Hs & _ & Hst & Hok).
    cbv zeta. rewrite Hs, <- Hstored. split; [|split].
    - destruct Hst as [H|H]; [now left|]. right. exists response.
      split; [exact H|]. intros x Hx. now destruct (Hok x Hx).
    - intros x Hx. destruct (Hok x Hx) as [-> H]. now right.
    - exact Hsent. }
  destruct (String.eqb intent "research_intent").
  { apply Hfin; [now left|reflexivity]. }
  destruct (String.eqb intent "calendar_intent").
  { destruct (scheduleHandler w userInput) as [s|o|].
    - apply Hfin; [now left|reflexivity].
    - destruct (requiresChoice o); apply Hfin; try (now left); reflexivity.
    - apply Hfin; [now left|reflexivity]. }
  destruct (String.eqb intent "email_intent").
  { destruct (EmailService.handleEmailIntent (mail w) (Some userInput) entities
                (emailState st)) as [[reply flow] mails] eqn:Hmail.
    apply Hfin; [right; reflexivity|reflexivity]. }
  destruct (String.eqb intent "exit_intent").
  { apply Hfin; [now left|reflexivity]. }
  destruct (chatSend w _ userInput) as [assistantReply|e].
  - unfold effectsOf, resultOf. cbn [fst snd]. split; [now left|].
    split; [intros; now left|now left].
  - apply Hfin; [now left|reflexivity].
Qed.

(** X17. What a turn writes to the message collection is nothing (the
    write of the user's message failed: the turn throws and changes
    nothing), the user's message alone, or the user's message followed by one
    assistant message; when the turn returns a response and an assistant
    message was written, that message is the response returned. *)
Theorem store_discipline (w : World) (userInput sessionId : string)
    (userId : option string) (st : State) :
  let r := processInput w userInput sessionId userId st in
  let userDoc := mkStored sessionId user (Text userInput) in
  (forall e, messageCreate w userDoc = Throw e -> r = (Throw e, st, noEffects)) /\
  (stored (effectsOf r) = [] \/
   stored (effectsOf r) = [userDoc] \/
   exists reply, stored (effectsOf r) = [userDoc; mkStored sessionId assistant reply]) /\
  (forall reply, resultOf r = Ok reply ->
     stored (effectsOf r) = [userDoc] \/
     stored (effectsOf r) = [userDoc; mkStored sessionId assistant reply]).
Proof.
  cbv zeta. unfold processInput.
  destruct (messageCreate w (mkStored sessionId user (Text userInput))) as [u|e0].
  2:{ split; [intros e [= <-]; reflexivity|].
      split; [now left|]. intros reply H. discriminate. }
  split; [intros e H; discriminate|]. cbv zeta.
  destruct (checkForPendingCalendarEvents w userInput _) as [[o|] history].
  { unfold effectsOf, resultOf. cbn. split; [right; now left|]. intros; now left. }
  match goal with
  | |- context [match ?sel with Some _ => _ | None => _ end] =>
      destruct sel as [response|]
  end.
  { unfold effectsOf, resultOf. cbn. split; [right; now left|]. intros; now left. }
  cbn [emailState].
  destruct (EmailService.isInEmailFlow (emailState st)).
  { destruct (EmailService.handleEmailIntent _ _ _ _) as [[reply flow] mails].
    unfold effectsOf, resultOf. cbn. split; [right; now left|]. intros; now left. }
  match goal with
  | |- context [dispatch w sessionId userId userInput ?s ?e] =>
      destruct (dispatch_effects w sessionId userId userInput s e) as (Hst & Hok & _)
  end.
  cbv zeta in Hst, Hok. cbn [stored addStored noEffects app] in Hst, Hok.
  split.
  - destruct Hst as [H|(reply & H & _)]; [right; now left|].
    right. right. exists reply. exact H.
  - exact Hok.
Qed.

(** X18. While the mail flow is active a turn runs neither
    [classifyIntent] nor [extractEntities]: none of the prompts of the turn
    handler is sent, whatever the text and the history.  The requests that
    the mail flow itself makes of the gateway, for its context analysis and
    its draft, are made behind the collaborators of [EmailService] and are
    not counted here. *)
Theorem no_classification_during_mail_flow (w : World) (userInput sessionId : string)
    (userId : option string) (st : State) :
  EmailService.active (emailState st) = true ->
  prompts (effectsOf (processInput w userInput sessionId userId st)) = [].
Proof.
  intros Ha. unfold processInput.
  destruct (messageCreate w _); [|reflexivity]. cbv zeta.
  destruct (checkForPendingCalendarEvents w userInput _) as [[o|] history];
    [reflexivity|].
  match goal with
  | |- context [match ?sel with Some _ => _ | None => _ end] =>
      destruct sel as [response|]
  end; [reflexivity|].
  cbn [emailState]. unfold EmailService.isInEmailFlow. rewrite Ha.
  destruct (EmailService.handleEmailIntent _ _ _ _) as [[reply flow] mails].
  reflexivity.
Qed.

(** X19. A turn of the entry point sends at most one mail, and it sends
    one only when the mail flow was active in [confirming] within its
    timeout and the lower-cased text of the user contains "yes". *)
Theorem turn_sends_only_confirmed_mail (w : World) (userInput sessionId : string)
    (userId : option string) (st : State) :
  (List.length (sent (effectsOf (processInput w userInput sessionId userId st))) <= 1)%nat /\
  (sent (effectsOf (processInput w userInput sessionId userId st)) <> [] ->
   EmailService.active (emailState st) = true /\
   EmailService.stage (emailState st) = EmailService.confirming /\
   EmailService.timedOut (mail w) (emailState st) = false /\
   JsString.includes (JsString.toLowerCase userInput) "yes" = true).
Proof.
  assert (Hmail : forall entities (l : list EmailService.Sent),
    l = snd (EmailService.handleEmailIntent (mail w) (Some userInput) entities
               (emailState st)) ->
    (List.length l <= 1)%nat /\
    (l <> [] ->
     EmailService.active (emailState st) = true /\
     EmailService.stage (emailState st) = EmailService.confirming /\
     EmailService.timedOut (mail w) (emailState st) = false /\
     JsString.includes (JsString.toLowerCase userInput) "yes" = true)).
  { intros entities l ->. split; [apply mail_sends_at_most_one|].
    intros Hne.
    destruct (EmailServiceFacts.send_only_on_yes (mail w) (Some userInput) entities
                (emailState st) Hne) as (Ha & Hs & Ht & text & [= <-] & Hyes).
    repeat split; assumption. }
  assert (Hnil : (List.length (@nil EmailService.Sent) <= 1)%nat /\
                 (@nil EmailService.Sent <> [] ->
                  EmailService.active (emailState st) = true /\
                  EmailService.stage (emailState st) = EmailService.confirming /\
                  EmailService.timedOut (mail w) (emailState st) = false /\
                  JsString.includes (JsString.toLowerCase userInput) "yes" = true)).
  { split; [simpl; lia|congruence]. }
  unfold processInput.
  destruct (messageCreate w _); [|exact Hnil]. cbv zeta.
  destruct (checkForPendingCalendarEvents w userInput _) as [[o|] history];
    [exact Hnil|].
  match goal with
  | |- context [match ?sel with Some _ => _ | None => _ end] =>
      destruct sel as [response|]
  end; [exact Hnil|].
  cbn [emailState].
  destruct (EmailService.isInEmailFlow (emailState st)).
  { destruct (EmailService.handleEmailIntent (mail w) (Some userInput) []
                (emailState st)) as [[reply flow] mails] eqn:Hm.
    unfold effectsOf. cbn [snd sent addSent addStored noEffects app].
    apply (Hmail []). now rewrite Hm. }
  match goal with
  | |- context [dispatch w sessionId userId userInput ?s ?e] =>
      destruct (dispatch_effects w sessionId userId userInput s e) as (_ & _ & Hsent)
  end.
  cbv zeta in Hsent. cbn [sent addStored noEffects app emailState] in Hsent.
  destruct Hsent as [H|H]; rewrite H; [exact Hnil|].
  eapply Hmail. reflexivity.
Qed.

(** X20. [classifyIntent] always answers with one of the five intent
    labels and calls the gateway exactly once; when that call fails the
    answer is the chat intent, without a look at the keywords of the
    text. *)
Theorem classifyIntent_total (w : World) (text : string) :
  In (fst (classifyIntent w text)) intents /\
  snd (classifyIntent w text) = [IntentPrompt text] /\
  (forall e, generateContent w (IntentPrompt text) = Throw e ->
             fst (classifyIntent w text) = "chat_intent").
Proof.
  unfold classifyIntent, intents. cbv zeta.
  destruct (generateContent w (IntentPrompt text)) as [response|e].
  - split; [|split; [reflexivity|intros ? [=]]].
    repeat match goal with
           | |- context [if ?b then _ else _] => destruct b
           end; simpl; auto 10.
  - split; [simpl; auto 10|]. split; reflexivity.
Qed.

Lemma turn_sends_witness :
  EmailService.active EmailServiceSpec.awaitingConfirmation = true /\
  EmailService.stage EmailServiceSpec.awaitingConfirmation = EmailService.confirming /\
  EmailService.timedOut (mail sampleChat) EmailServiceSpec.awaitingConfirmation = false /\
  JsString.includes (JsString.toLowerCase "Yes, send it") "yes" = true.
Proof.
  apply (turn_sends_only_confirmed_mail sampleChat "Yes, send it" "s1" None
           (mkState [] EmailServiceSpec.awaitingConfirmation)).
  discriminate.
Defined.

Lemma no_classification_witness :
  prompts (effectsOf (processInput sampleChat "email bob instead" "s1" None
                        (mkState [] EmailServiceSpec.awaitingConfirmation))) = [].
Proof.
  apply (no_classification_during_mail_flow sampleChat "email bob instead" "s1" None
           (mkState [] EmailServiceSpec.awaitingConfirmation)).
  reflexivity.
Defined.

End ChatExtra.

(** ** The batch operations of the cache *)

Module CacheBatchExtra.

Import Cache CacheBatch CacheExtraSpec.

Section WithValue.

Context {V : Type}.
Implicit Types (c : store V) (key k : string) (it : item V).

Lemma map_has_In c key : map_has c key = true <-> In key (keys c).
Proof.
  unfold map_has, keys. induction c as [|[k0 i0] c IH]; simpl.
  - split; [discriminate|tauto].
  - destruct (String.eqb k0 key) eqn:E.
    + apply String.eqb_eq in E. subst. split; auto.
    + apply String.eqb_neq in E. rewrite IH. split; [auto|].
      intros [H|H]; [congruence|exact H].
Qed.

Lemma removeMultiple_fold (l : list string) : forall (success : bool) c,
  NoDup (keys c) ->
  let r := fold_left removeOne l (success, c) in
  (forall k, In k l -> map_get (snd r) k = None) /\
  (forall k, ~ In k l -> map_get (snd r) k = map_get c k) /\
  (NoDup l -> fst r = success && forallb (map_has c) l).
Proof.
  induction l as [|k0 l IH]; intros success c Hnd; cbn [fold_left].
  - cbv zeta. cbn [fst snd forallb]. split; [intros k []|].
    split; [reflexivity|]. intros _. now rewrite andb_true_r.
  - change (removeOne (success, c) k0)
      with (if map_has c k0 then success else false, map_delete c k0).
    specialize (IH (if map_has c k0 then success else false) (map_delete c k0)
                   (CacheFacts.map_delete_NoDup _ _ Hnd)).
    cbv zeta in IH |- *. destruct IH as (IHin & IHout & IHok).
    split; [|split].
    + intros k Hin. destruct (in_dec string_dec k l) as [Hl|Hl].
      * now apply IHin.
      * rewrite (IHout k Hl). destruct Hin as [<-|Hin]; [|contradiction].
        now apply CacheFacts.map_get_delete_same.
    + intros k Hout. rewrite IHout by (intros H; apply Hout; now right).
      apply CacheFacts.map_get_delete_other. intros ->. apply Hout. now left.
    + intros Hl. inversion Hl as [|? ? Hnotin Hl']; subst.
      rewrite (IHok Hl'). cbn [forallb].
      assert (Hext : forallb (map_has (map_delete c k0)) l = forallb (map_has c) l).
      { clear - Hnotin. induction l as [|k l IHl]; cbn [forallb]; [reflexivity|].
        rewrite IHl by (intros H; apply Hnotin; now right).
        unfold map_has at 1 3.
        rewrite CacheFacts.map_get_delete_other; [reflexivity|].
        intros ->. apply Hnotin. now left. }
      rewrite Hext. destruct (map_has c k0), success; reflexivity.
Qed.

(** X21. [removeMultiple] refuses a payload that is not an array and
    leaves the store alone; for an array it removes every listed key, also
    when it answers [false], and touches no other key; for an array of
    distinct keys it answers [true] exactly when every one of them was in
    the store. *)
Theorem removeMultiple_contract c (keys : option (list string)) :
  wf c ->
  (keys = None -> removeMultiple c keys = (false, c)) /\
  (forall l, keys = Some l ->
     (forall k, In k l -> map_get (snd (removeMultiple c keys)) k = None) /\
     (forall k, ~ In k l -> map_get (snd (removeMultiple c keys)) k = map_get c k) /\
     (NoDup l ->
      (fst (removeMultiple c keys) = true <-> forall k, In k l -> In k (Cache.keys c)))).
Proof.
  intros [Hnd _]. split; [intros ->; reflexivity|].
  intros l ->. unfold removeMultiple.
  destruct (removeMultiple_fold l true c Hnd) as (Hin & Hout & Hok).
  cbv zeta in Hin, Hout, Hok. split; [exact Hin|]. split; [exact Hout|].
  intros Hl. rewrite (Hok Hl). cbn [andb]. rewrite forallb_forall.
  split; intros H k Hk; apply map_has_In; now apply H.
Qed.

(** A key that occurs twice in the array makes [removeMultiple] answer
    [false], although the key is removed. *)
Lemma removeMultiple_repeated_key c key (l1 l2 l3 : list string) :
  NoDup (keys c) ->
  fst (removeMultiple c (Some (l1 ++ key :: l2 ++ key :: l3)%list)) = false.
Proof.
  intros Hnd. unfold removeMultiple.
  assert (Hfalse : forall (l : list string) c0,
            fst (fold_left (@removeOne V) l (false, c0)) = false).
  { induction l as [|k l IH]; intros c0; cbn [fold_left]; [reflexivity|].
    change (removeOne (false, c0) k)
      with (if map_has c0 k then false else false, map_delete c0 k).
    destruct (map_has c0 k); apply IH. }
  rewrite fold_left_app.
  destruct (fold_left removeOne l1 (true, c)) as [s1 c1] eqn:H1.
  assert (Hnd1 : NoDup (keys c1)).
  { clear - Hnd H1. revert c Hnd H1. generalize true as s.
    induction l1 as [|k l IH]; intros s c Hnd H1; cbn [fold_left] in H1.
    - now inversion H1; subst.
    - change (removeOne (s, c) k)
        with (if map_has c k then s else false, map_delete c k) in H1.
      eapply IH; [|exact H1]. now apply CacheFacts.map_delete_NoDup. }
  cbn [fold_left].
  change (removeOne (s1, c1) key)
    with (if map_has c1 key then s1 else false, map_delete c1 key).
  rewrite fold_left_app.
  destruct (fold_left removeOne l2 _) as [s2 c2] eqn:H2.
  destruct (removeMultiple_fold l2 (if map_has c1 key then s1 else false)
              (map_delete c1 key) (CacheFacts.map_delete_NoDup _ _ Hnd1))
    as (Hin & Hout & _).
  cbv zeta in Hin, Hout. rewrite H2 in Hin, Hout. cbn [snd] in Hin, Hout.
  cbn [fold_left].
  change (removeOne (s2, c2) key)
    with (if map_has c2 key then s2 else false, map_delete c2 key).
  assert (Hgone : map_has c2 key = false).
  { unfold map_has. destruct (in_dec string_dec key l2) as [Hl|Hl].
    - now rewrite (Hin key Hl).
    - rewrite (Hout key Hl). now rewrite CacheFacts.map_get_delete_same. }
  rewrite Hgone. apply Hfalse.
Qed.

Variable isNull : V -> bool.

Lemma get_step (now : Z) c key :
  wf c ->
  wf (snd (get now c key)) /\
  fst (get now c key) = liveValue now c key /\
  (forall k, map_get (snd (get now c key)) k = evicted now [key] c k).
Proof.
  intros Hwf. pose proof Hwf as [Hnd _]. unfold get, map_has, liveValue, evicted.
  destruct (map_get c key) as [it0|] eqn:Hget.
  - rewrite (CacheFacts.wf_key_truthy _ _ _ Hwf Hget). cbn [negb orb].
    destruct (expires it0 <? now) eqn:E; cbn [fst snd].
    + split; [now apply CacheFacts.wf_delete|]. split; [reflexivity|].
      intros k. cbn [existsb]. rewrite orb_false_r.
      destruct (String.eqb k key) eqn:Ek.
      * apply String.eqb_eq in Ek. subst k.
        rewrite (CacheFacts.map_get_delete_same _ _ Hnd), Hget, E. reflexivity.
      * apply String.eqb_neq in Ek.
        rewrite (CacheFacts.map_get_delete_other _ _ _ Ek).
        destruct (map_get c k); [|reflexivity]. now rewrite andb_false_r.
    + split; [exact Hwf|]. split; [reflexivity|].
      intros k. cbn [existsb]. rewrite orb_false_r.
      destruct (map_get c k) as [it|] eqn:Hk; [|reflexivity].
      destruct (String.eqb k key) eqn:Ek; [|now rewrite andb_false_r].
      apply String.eqb_eq in Ek. subst k.
      assert (it = it0) by congruence. subst it. now rewrite E.
  - rewrite orb_true_r. cbn [fst snd]. split; [exact Hwf|].
    split; [reflexivity|]. intros k. cbn [existsb]. rewrite orb_false_r.
    destruct (map_get c k) as [it|] eqn:Hk; [|reflexivity].
    destruct (String.eqb k key) eqn:Ek; [|now rewrite andb_false_r].
    apply String.eqb_eq in Ek. subst k. congruence.
Qed.

Variable isObject : V -> bool.

Lemma getMultiple_fold (now : Z) (l : list string) :
  forall (result : answer V) c,
  wf c ->
  let r := fold_left (getOne isNull isObject now) l (result, c) in
  (forall k v, In (k, v) (own (fst r)) <->
               In (k, v) (own result) \/
               (In k l /\ k <> "__proto__" /\
                liveValue now c k = Some v /\ isNull v = false)) /\
  (prototypeReplaced (fst r) = true <->
   prototypeReplaced result = true \/
   (In "__proto__" l /\
    exists v, liveValue now c "__proto__" = Some v /\
              isNull v = false /\ isObject v = true)) /\
  (forall k, map_get (snd r) k = evicted now l c k).
Proof.
  induction l as [|k0 l IH]; intros result c Hwf; cbn [fold_left].
  - cbv zeta. cbn [fst snd]. split; [|split].
    + intros k v. split; [auto|]. intros [H|([] & _)]. exact H.
    + split; [auto|]. intros [H|([] & _)]. exact H.
    + intros k. unfold evicted. cbn [existsb].
      destruct (map_get c k); [|reflexivity]. now rewrite andb_false_r.
  - destruct (get_step now c k0 Hwf) as (Hwf' & Hres & Hstore).
    change (getOne isNull isObject now (result, c) k0)
      with (match get now c k0 with
            | (Some v, c') =>
                if isNull v then (result, c')
                else if String.eqb k0 "__proto__" then
                  (if isObject v then mkAnswer (own result) true else result, c')
                else (mkAnswer (own result ++ [(k0, v)])%list
                               (prototypeReplaced result), c')
            | (None, c') => (result, c')
            end).
    destruct (get now c k0) as [o c'] eqn:Hg. cbn [fst snd] in Hwf', Hres, Hstore.
    assert (Hlive : forall k, liveValue now c' k = liveValue now c k).
    { intros k. unfold liveValue. rewrite Hstore. unfold evicted.
      destruct (map_get c k) as [it|]; [|reflexivity].
      destruct (expires it <? now) eqn:E; cbn [andb].
      - destruct (existsb _ _); [reflexivity|now rewrite E].
      - now rewrite E. }
    assert (Hfinal : forall k, evicted now l c' k = evicted now (k0 :: l) c k).
    { intros k. unfold evicted at 1. rewrite Hstore. unfold evicted.
      cbn [existsb]. destruct (map_get c k) as [it|]; [|reflexivity].
      destruct (expires it <? now) eqn:E; cbn [andb].
      - rewrite orb_false_r. destruct (String.eqb k k0); cbn [orb]; [reflexivity|].
        now rewrite E.
      - now rewrite E. }
    assert (Hstep : forall result',
      let r := fold_left (getOne isNull isObject now) l (result', c') in
      (forall k v, In (k, v) (own (fst r)) <->
                   In (k, v) (own result') \/
                   (In k l /\ k <> "__proto__" /\
                    liveValue now c k = Some v /\ isNull v = false)) /\
      (prototypeReplaced (fst r) = true <->
       prototypeReplaced result' = true \/
       (In "__proto__" l /\
        exists v, liveValue now c "__proto__" = Some v /\
                  isNull v = false /\ isObject v = true)) /\
      (forall k, map_get (snd r) k = evicted now (k0 :: l) c k)).
    { intros result'. destruct (IH result' c' Hwf') as (I1 & I2 & I3).
      cbv zeta in *. split; [|split].
      - intros k v. rewrite I1. now rewrite Hlive.
      - rewrite I2. now rewrite Hlive.
      - intros k. now rewrite I3. }
    assert (Hskip : forall result',
      own result' = own result ->
      prototypeReplaced result' = prototypeReplaced result ->
      (forall v, In (k0, v) (own result) \/ ~ (k0 <> "__proto__" /\
                   liveValue now c k0 = Some v /\ isNull v = false)) ->
      (k0 = "__proto__" ->
       forall v, liveValue now c "__proto__" = Some v ->
                 isNull v = false -> isObject v = true ->
                 prototypeReplaced result = true) ->
      let r := fold_left (getOne isNull isObject now) l (result', c') in
      (forall k v, In (k, v) (own (fst r)) <->
                   In (k, v) (own result) \/
                   (In k (k0 :: l) /\ k <> "__proto__" /\
                    liveValue now c k = Some v /\ isNull v = false)) /\
      (prototypeReplaced (fst r) = true <->
       prototypeReplaced result = true \/
       (In "__proto__" (k0 :: l) /\
        exists v, liveValue now c "__proto__" = Some v /\
                  isNull v = false /\ isObject v = true)) /\
      (forall k, map_get (snd r) k = evicted now (k0 :: l) c k)).
    { intros result' Hown Hproto Hnot Hsame.
      destruct (Hstep result') as (S1 & S2 & S3). cbv zeta in *.
      split; [|split; [|exact S3]].
      - intros k v. rewrite S1, Hown. split.
        + intros [H|(Hin & Hl)]; [now left|]. right. split; [now right|exact Hl].
        + intros [H|([<-|Hin] & Hl)]; [now left| |right; auto].
          destruct (Hnot v) as [H|H]; [now left|contradiction].
      - rewrite S2, Hproto. split.
        + intros [H|(Hin & Hl)]; [now left|]. right. split; [now right|exact Hl].
        + intros [H|([Heq|Hin] & v & Hl & Hn & Ho)]; [now left| |right; eauto].
          left. apply (Hsame Heq v Hl Hn Ho). }
    destruct o as [v|].
    + destruct (isNull v) eqn:Hn.
      * apply Hskip; try reflexivity.
        -- intros v'. right. intros (_ & Hl & Hn'). congruence.
        -- intros -> v' Hl Hn' _. congruence.
      * destruct (String.eqb k0 "__proto__") eqn:Ek.
        -- apply String.eqb_eq in Ek. subst k0.
           destruct (isObject v) eqn:Ho.
           ++ destruct (Hstep (mkAnswer (own result) true)) as (S1 & S2 & S3).
              cbv zeta in *. cbn [own prototypeReplaced] in S1, S2.
              split; [|split; [|exact S3]].
              ** intros k v'. rewrite S1. split.
                 --- intros [H|(Hin & Hl)]; [now left|]. right.
                     split; [now right|exact Hl].
                 --- intros [H|([<-|Hin] & Hne & Hl)]; [now left| |right; auto].
                     now elim Hne.
              ** split; [|intros _; apply S2; now left].
                 intros _. right. split; [now left|].
                 exists v. rewrite <- Hres. auto.
           ++ apply Hskip; try reflexivity.
              ** intros v'. right. intros (Hne & _). now elim Hne.
              ** intros _ v' Hl Hn' Ho'. congruence.
        -- apply String.eqb_neq in Ek.
           destruct (Hstep (mkAnswer (own result ++ [(k0, v)])%list
                                     (prototypeReplaced result))) as (S1 & S2 & S3).
           cbv zeta in *. cbn [own prototypeReplaced] in S1, S2.
           split; [|split; [|exact S3]].
           ** intros k v'. rewrite S1, in_app_iff. cbn [In]. split.
              --- intros [[H|[Heq|[]]]|(Hin & Hl)].
                  +++ now left.
                  +++ injection Heq as <- <-. right. split; [now left|].
                      split; [exact Ek|]. split; [now symmetry|exact Hn].
                  +++ right. split; [now right|exact Hl].
              --- intros [H|([<-|Hin] & Hne & Hl & Hnn)].
                  +++ left. now left.
                  +++ left. right. left. congruence.
                  +++ right. auto.
           ** rewrite S2. split.
              --- intros [H|(Hin & Hl)]; [now left|]. right.
                  split; [now right|exact Hl].
              --- intros [H|([Heq|Hin] & Hl)]; [now left| |right; auto].
                  now elim Ek.
    + apply Hskip; try reflexivity.
      * intros v'. right. intros (_ & Hl & _). congruence.
      * intros -> v' Hl _ _. congruence.
Qed.

(** X22. The object that [getMultiple] answers with: unless a requested
    key [__proto__] holds a live object, which then replaces the prototype
    of the answer, its own properties are exactly the requested keys other
    than [__proto__] that are in the store, have not expired and hold a
    value other than [null], each with its value.  On the way every
    requested key whose entry has expired is evicted, and every other entry
    stays as it was. *)
Theorem getMultiple_reads_live_entries (now : Z) c (keys : option (list string)) :
  wf c ->
  (keys = None -> getMultiple isNull isObject now c keys = (mkAnswer [] false, c)) /\
  (forall l, keys = Some l ->
     (prototypeReplaced (fst (getMultiple isNull isObject now c keys)) = true <->
      In "__proto__" l /\
      exists it, map_get c "__proto__" = Some it /\ now <= expires it /\
                 isNull (value it) = false /\ isObject (value it) = true) /\
     (prototypeReplaced (fst (getMultiple isNull isObject now c keys)) = false ->
      forall k v,
        In (k, v) (own (fst (getMultiple isNull isObject now c keys))) <->
        In k l /\ k <> "__proto__" /\ isNull v = false /\
        exists it, map_get c k = Some it /\ now <= expires it /\ value it = v) /\
     (forall k it, In k l -> map_get c k = Some it -> expires it < now ->
                   map_get (snd (getMultiple isNull isObject now c keys)) k = None) /\
     (forall k it, map_get c k = Some it -> now <= expires it \/ ~ In k l ->
                   map_get (snd (getMultiple isNull isObject now c keys)) k = Some it)).
Proof.
  intros Hwf. split; [intros ->; reflexivity|].
  intros l ->. unfold getMultiple.
  destruct (getMultiple_fold now l (mkAnswer [] false) c Hwf) as (Hres & Hproto & Hstore).
  cbv zeta in Hres, Hproto, Hstore. cbn [own prototypeReplaced] in Hres, Hproto.
  assert (Hlive : forall k v,
            liveValue now c k = Some v <->
            exists it, map_get c k = Some it /\ now <= expires it /\ value it = v).
  { intros k v. unfold liveValue. split.
    - destruct (map_get c k) as [it|]; [|discriminate].
      destruct (expires it <? now) eqn:E; [discriminate|].
      apply Z.ltb_ge in E. intros [= <-]. exists it. auto.
    - intros (it & -> & Hl & <-). apply Z.ltb_ge in Hl. now rewrite Hl. }
  split; [|split; [|split]].
  - rewrite Hproto. split.
    + intros [H|(Hin & v & Hl & Hn & Ho)]; [discriminate|].
      split; [exact Hin|]. apply Hlive in Hl as (it & Hget & Hexp & <-).
      exists it. auto.
    + intros (Hin & it & Hget & Hexp & Hn & Ho). right. split; [exact Hin|].
      exists (value it). split; [|auto]. apply Hlive. exists it. auto.
  - intros _ k v. rewrite Hres. split.
    + intros [[]|(Hin & Hne & Hl & Hn)]. apply Hlive in Hl. auto.
    + intros (Hin & Hne & Hn & Hl). right. apply Hlive in Hl. auto.
  - intros k it Hin Hget Hexp. rewrite Hstore. unfold evicted. rewrite Hget.
    apply Z.ltb_lt in Hexp. rewrite Hexp. cbn [andb].
    assert (Hex : existsb (String.eqb k) l = true).
    { apply existsb_exists. exists k. split; [exact Hin|apply String.eqb_refl]. }
    now rewrite Hex.
  - intros k it Hget Hor. rewrite Hstore. unfold evicted. rewrite Hget.
    destruct Hor as [Hl|Hout].
    + apply Z.ltb_ge in Hl. now rewrite Hl.
    + assert (Hex : existsb (String.eqb k) l = false).
      { destruct (existsb (String.eqb k) l) eqn:E; [|reflexivity].
        apply existsb_exists in E as (x & Hx & Heq).
        apply String.eqb_eq in Heq. subst x. contradiction. }
      rewrite Hex. now rewrite andb_false_r.
Qed.

End WithValue.

End CacheBatchExtra.


Module CacheBatchWitness.

Import Cache CacheBatch CacheExtraSpec.

Lemma removeMultiple_witness :
  (forall k, In k ["a"; "zz"] ->
             map_get (snd (removeMultiple fullStore (Some ["a"; "zz"]))) k = None) /\
  (forall k, ~ In k ["a"; "zz"] ->
             map_get (snd (removeMultiple fullStore (Some ["a"; "zz"]))) k
             = map_get fullStore k) /\
  (NoDup ["a"; "zz"] ->
   (fst (removeMultiple fullStore (Some ["a"; "zz"])) = true <->
    forall k, In k ["a"; "zz"] -> In k (keys fullStore))).
Proof.
  destruct (CacheBatchExtra.removeMultiple_contract fullStore (Some ["a"; "zz"])
              CacheExtra.fullStore_wf) as [_ H].
  exact (H ["a"; "zz"] eq_refl).
Defined.

Lemma protoStore_wf : wf protoStore.
Proof.
  split.
  - repeat constructor; simpl; intuition discriminate.
  - repeat constructor.
Defined.

Lemma getMultiple_witness :
  (prototypeReplaced
     (fst (getMultiple (fun _ => false) (fun _ => false) 61000 protoStore
             (Some ["b"; "__proto__"; "a"; "zz"]))) = true <->
   In "__proto__" ["b"; "__proto__"; "a"; "zz"] /\
   exists it, map_get protoStore "__proto__" = Some it /\ 61000 <= expires it /\
              false = false /\ false = true) /\
  (prototypeReplaced
     (fst (getMultiple (fun _ => false) (fun _ => false) 61000 protoStore
             (Some ["b"; "__proto__"; "a"; "zz"]))) = false ->
   forall k v,
     In (k, v) (own (fst (getMultiple (fun _ => false) (fun _ => false) 61000 protoStore
                            (Some ["b"; "__proto__"; "a"; "zz"])))) <->
     In k ["b"; "__proto__"; "a"; "zz"] /\ k <> "__proto__" /\ false = false /\
     exists it, map_get protoStore k = Some it /\ 61000 <= expires it /\ value it = v) /\
  (forall k it, In k ["b"; "__proto__"; "a"; "zz"] -> map_get protoStore k = Some it ->
                expires it < 61000 ->
                map_get (snd (getMultiple (fun _ => false) (fun _ => false) 61000 protoStore
                                (Some ["b"; "__proto__"; "a"; "zz"]))) k = None) /\
  (forall k it, map_get protoStore k = Some it ->
                61000 <= expires it \/ ~ In k ["b"; "__proto__"; "a"; "zz"] ->
                map_get (snd (getMultiple (fun _ => false) (fun _ => false) 61000 protoStore
                                (Some ["b"; "__proto__"; "a"; "zz"]))) k = Some it).
Proof.
  destruct (CacheBatchExtra.getMultiple_reads_live_entries (fun _ => false)
              (fun _ => false) 61000 protoStore
              (Some ["b"; "__proto__"; "a"; "zz"]) protoStore_wf) as [_ H].
  exact (H ["b"; "__proto__"; "a"; "zz"] eq_refl).
Defined.

(** The answer of the sample above: the entry of [__proto__] is live, yet
    the only own property is that of [a]. *)
Lemma getMultiple_sample :
  fst (getMultiple (fun _ => false) (fun _ => false) 61000 protoStore
         (Some ["b"; "__proto__"; "a"; "zz"]))
  = mkAnswer [("a", "x")] false.
Proof. reflexivity. Qed.

End CacheBatchWitness.

(** ** Calendar reads behind the one-minute cache *)

Module CalendarClientExtra.

Import Js CalendarClient CalendarClientSpec.

Section WithItem.

Context {E : Type}.
Implicit Types (c : eventCache E) (w : World E).

Lemma key_eqb_refl (k : key) : key_eqb k k = true.
Proof. unfold key_eqb. now rewrite !Z.eqb_refl. Qed.

Lemma cache_get_set_same c k v : cache_get (cache_set c k v) k = Some v.
Proof.
  induction c as [|[k0 old] c IH]; simpl.
  - now rewrite key_eqb_refl.
  - destruct (key_eqb k0 k) eqn:Ek; simpl; now rewrite Ek.
Qed.

(** X23. After a read that went to the API, a read of the same range
    within the next minute is answered from the cache, with the same events
    and without a call; from one minute on the API is asked again.  The
    client is obtained before the cache is looked at: without one the
    answer is empty, whatever the cache holds. *)
Theorem cached_events_reused w0 w1 c (timeMin timeMax : Z)
    (items : option (list E)) :
  getCalendarClient w0 = Ok true ->
  eventsList w0 timeMin timeMax = Ok items ->
  (forall cachedData, cache_get c (timeMin, timeMax) = Some cachedData ->
                      60000 <= now w0 - timestamp cachedData) ->
  fst (fst (getCalendarEvents w0 c (Some timeMin) (Some timeMax)))
  = match items with Some l => l | None => [] end /\
  snd (getCalendarEvents w0 c (Some timeMin) (Some timeMax)) = [(timeMin, timeMax)] /\
  (getCalendarClient w1 = Ok true -> now w1 - now w0 < 60000 ->
   getCalendarEvents w1 (snd (fst (getCalendarEvents w0 c (Some timeMin) (Some timeMax))))
                     (Some timeMin) (Some timeMax)
   = (match items with Some l => l | None => [] end,
      snd (fst (getCalendarEvents w0 c (Some timeMin) (Some timeMax))), [])) /\
  (getCalendarClient w1 = Ok true -> 60000 <= now w1 - now w0 ->
   snd (getCalendarEvents w1 (snd (fst (getCalendarEvents w0 c (Some timeMin) (Some timeMax))))
                          (Some timeMin) (Some timeMax))
   = [(timeMin, timeMax)]) /\
  (getCalendarClient w1 <> Ok true ->
   getCalendarEvents w1 (snd (fst (getCalendarEvents w0 c (Some timeMin) (Some timeMax))))
                     (Some timeMin) (Some timeMax)
   = ([], snd (fst (getCalendarEvents w0 c (Some timeMin) (Some timeMax))), [])).
Proof.
  intros Hclient Hlist Hstale.
  assert (Hfirst : getCalendarEvents w0 c (Some timeMin) (Some timeMax)
                   = (match items with Some l => l | None => [] end,
                      cache_set c (timeMin, timeMax)
                        (mkCached (match items with Some l => l | None => [] end)
                                  (now w0)),
                      [(timeMin, timeMax)])).
  { unfold getCalendarEvents. rewrite Hclient.
    destruct (cache_get c (timeMin, timeMax)) as [cachedData|] eqn:Hget.
    - specialize (Hstale cachedData eq_refl).
      assert (Hf : (now w0 - timestamp cachedData <? 60 * 1000) = false)
        by (apply Z.ltb_ge; lia).
      rewrite Hf, Hlist. reflexivity.
    - rewrite Hlist. reflexivity. }
  rewrite Hfirst. cbn [fst snd]. split; [reflexivity|]. split; [reflexivity|].
  split; [|split].
  - intros Hc1 Hfresh. unfold getCalendarEvents. rewrite Hc1, cache_get_set_same.
    cbn [timestamp events].
    assert (Ht : (now w1 - now w0 <? 60 * 1000) = true) by (apply Z.ltb_lt; lia).
    now rewrite Ht.
  - intros Hc1 Hold. unfold getCalendarEvents. rewrite Hc1, cache_get_set_same.
    cbn [timestamp events].
    assert (Ht : (now w1 - now w0 <? 60 * 1000) = false) by (apply Z.ltb_ge; lia).
    rewrite Ht. now destruct (eventsList w1 timeMin timeMax).
  - intros Hc1. unfold getCalendarEvents.
    destruct (getCalendarClient w1) as [[|]|e]; [congruence|reflexivity|reflexivity].
Qed.

(** X24. A read that fails answers with the empty list and leaves the cache
    as it was: with an invalid date or without a client no call is made at
    all, and a call that throws is not remembered.  No read makes more than
    one call, and the cache changes only when a call succeeded. *)
Theorem failed_read_is_empty_and_uncached w c (startTime endTime : option Z) :
  (startTime = None \/ endTime = None \/ getCalendarClient w <> Ok true ->
   getCalendarEvents w c startTime endTime = ([], c, [])) /\
  (forall timeMin timeMax error,
     startTime = Some timeMin -> endTime = Some timeMax ->
     eventsList w timeMin timeMax = Throw error ->
     snd (fst (getCalendarEvents w c startTime endTime)) = c /\
     (snd (getCalendarEvents w c startTime endTime) <> [] ->
      fst (fst (getCalendarEvents w c startTime endTime)) = [])) /\
  (List.length (snd (getCalendarEvents w c startTime endTime)) <= 1)%nat /\
  (snd (fst (getCalendarEvents w c startTime endTime)) <> c ->
   exists timeMin timeMax items,
     startTime = Some timeMin /\ endTime = Some timeMax /\
     eventsList w timeMin timeMax = Ok items /\
     snd (getCalendarEvents w c startTime endTime) = [(timeMin, timeMax)]).
Proof.
  split; [|split; [|split]].
  - intros [->|[->|Hc]]; [reflexivity|now destruct startTime|].
    unfold getCalendarEvents. destruct startTime, endTime; try reflexivity.
    destruct (getCalendarClient w) as [[|]|e]; [congruence|reflexivity|reflexivity].
  - intros timeMin timeMax error -> -> Hthrow. unfold getCalendarEvents.
    destruct (getCalendarClient w) as [[|]|e]; cbn [fst snd]; try (split; congruence).
    destruct (cache_get c (timeMin, timeMax)) as [cachedData|].
    + destruct (now w - timestamp cachedData <? 60 * 1000); cbn [fst snd].
      * split; congruence.
      * rewrite Hthrow. cbn [fst snd]. split; reflexivity.
    + rewrite Hthrow. cbn [fst snd]. split; reflexivity.
  - unfold getCalendarEvents.
    destruct startTime as [timeMin|], endTime as [timeMax|];
      cbn [fst snd List.length]; try lia.
    destruct (getCalendarClient w) as [[|]|e]; cbn [fst snd List.length]; try lia.
    destruct (cache_get c (timeMin, timeMax)) as [cachedData|].
    + destruct (now w - timestamp cachedData <? 60 * 1000);
        cbn [fst snd List.length]; [lia|].
      destruct (eventsList w timeMin timeMax); cbn [fst snd List.length]; lia.
    + destruct (eventsList w timeMin timeMax); cbn [fst snd List.length]; lia.
  - unfold getCalendarEvents.
    destruct startTime as [timeMin|], endTime as [timeMax|]; cbn [fst snd];
      try congruence.
    destruct (getCalendarClient w) as [[|]|e]; cbn [fst snd]; try congruence.
    assert (Hmiss : snd (fst (match eventsList w timeMin timeMax with
                              | Ok items =>
                                  (match items with Some l => l | None => [] end,
                                   cache_set c (timeMin, timeMax)
                                     (mkCached (match items with Some l => l | None => [] end)
                                               (now w)),
                                   [(timeMin, timeMax)])
                              | Throw _ => ([], c, [(timeMin, timeMax)])
                              end)) <> c ->
                    exists timeMin0 timeMax0 items,
                      Some timeMin = Some timeMin0 /\ Some timeMax = Some timeMax0 /\
                      eventsList w timeMin0 timeMax0 = Ok items /\
                      snd (match eventsList w timeMin timeMax with
                           | Ok items =>
                               (match items with Some l => l | None => [] end,
                                cache_set c (timeMin, timeMax)
                                  (mkCached (match items with Some l => l | None => [] end)
                                            (now w)),
                                [(timeMin, timeMax)])
                           | Throw _ => ([], c, [(timeMin, timeMax)])
                           end) = [(timeMin0, timeMax0)]).
    { destruct (eventsList w timeMin timeMax) as [items|e] eqn:Hl; cbn [fst snd].
      - intros _. exists timeMin, timeMax, items. auto.
      - congruence. }
    destruct (cache_get c (timeMin, timeMax)) as [cachedData|]; [|exact Hmiss].
    destruct (now w - timestamp cachedData <? 60 * 1000);
      [cbn [fst snd]; congruence|exact Hmiss].
Qed.

End WithItem.

Lemma cached_events_witness :
  fst (fst (getCalendarEvents (answering 1000) [] (Some 10) (Some 20))) = ["1000"] /\
  getCalendarEvents (answering 50000)
    (snd (fst (getCalendarEvents (answering 1000) [] (Some 10) (Some 20))))
    (Some 10) (Some 20)
  = (["1000"], snd (fst (getCalendarEvents (answering 1000) [] (Some 10) (Some 20))), []) /\
  snd (getCalendarEvents (answering 61000)
         (snd (fst (getCalendarEvents (answering 1000) [] (Some 10) (Some 20))))
         (Some 10) (Some 20)) = [(10, 20)] /\
  getCalendarEvents (signedOut 50000)
    (snd (fst (getCalendarEvents (answering 1000) [] (Some 10) (Some 20))))
    (Some 10) (Some 20)
  = ([], snd (fst (getCalendarEvents (answering 1000) [] (Some 10) (Some 20))), []).
Proof.
  assert (Hstale : forall cachedData : cached string,
            cache_get [] (10, 20) = Some cachedData ->
            60000 <= now (answering 1000) - timestamp cachedData)
    by (intros cachedData H; discriminate H).
  destruct (cached_events_reused (answering 1000) (answering 50000) []
              10 20 (Some ["1000"]) eq_refl eq_refl Hstale)
    as (Hfirst & _ & Hhit & _ & _).
  destruct (cached_events_reused (answering 1000) (answering 61000) []
              10 20 (Some ["1000"]) eq_refl eq_refl Hstale)
    as (_ & _ & _ & Hrefetch & _).
  destruct (cached_events_reused (answering 1000) (signedOut 50000) []
              10 20 (Some ["1000"]) eq_refl eq_refl Hstale)
    as (_ & _ & _ & _ & Hnone).
  split; [exact Hfirst|]. split; [apply Hhit; [reflexivity|simpl; lia]|].
  split; [apply Hrefetch; [reflexivity|simpl; lia]|].
  apply Hnone. discriminate.
Defined.

Lemma failed_read_witness :
  snd (fst (getCalendarEvents (failing 1000) [] (Some 10) (Some 20))) = [] /\
  (snd (getCalendarEvents (failing 1000) [] (Some 10) (Some 20)) <> [] ->
   fst (fst (getCalendarEvents (failing 1000) [] (Some 10) (Some 20))) = []).
Proof.
  destruct (failed_read_is_empty_and_uncached (failing 1000) [] (Some 10) (Some 20))
    as (_ & Hthrow & _ & _).
  apply (Hthrow 10 20 "Rate Limit Exceeded"); reflexivity.
Defined.

End CalendarClientExtra.

(** ** Creating events *)

Module EventOperationsExtra.

Import Js JsNum EventOperations CalendarService OperationsSpec.

(** What [createCalendarEvent] returns and does, branch by branch. *)
Lemma createCalendarEvent_cases (w : World) (d : Details) :
  (createCalendarEvent w d
   = (Failure "Missing required event details (title, startTime, or endTime)", []) /\
   (truthyOpt (EventOperations.title d) = None \/
    truthyTime (startTime d) = false \/ truthyTime (endTime d) = false)) \/
  (exists error, createCalendarEvent w d = (Failure error, [ClientRequested])) \/
  (exists text startInstant endInstant i,
     truthyOpt (EventOperations.title d) = Some text /\
     truthyTime (startTime d) = true /\ truthyTime (endTime d) = true /\
     getCalendarClient w = Ok true /\
     toDate w (startTime d) = Some startInstant /\
     toDate w (endTime d) = Some endInstant /\
     i = {| resource :=
              {| summary := text;
                 r_description :=
                   match truthyOpt (EventOperations.description d) with
                   | Some t => t
                   | None => EmptyString
                   end;
                 startDateTime := startInstant;
                 endDateTime := endInstant;
                 r_attendees := EventOperations.attendees d;
                 r_location := truthyOpt (EventOperations.location d);
                 conferenceRequested := videoConference d |};
            conferenceDataVersion := if videoConference d then 1 else 0;
            sendUpdates := if isEmpty (EventOperations.attendees d) then "none" else "all" |} /\
     ((exists response,
         insert w i = Ok response /\
         createCalendarEvent w d
         = (Success (id response) (htmlLink response) (truthyOpt (entryPoint response)),
            [ClientRequested; InsertCall i])) \/
      (exists error,
         insert w i = Throw error /\
         createCalendarEvent w d
         = (Failure (messageOf error), [ClientRequested; InsertCall i])))).
Proof.
  unfold createCalendarEvent. cbv zeta.
  destruct (truthyOpt (EventOperations.title d)) as [text|]; [|left; auto].
  destruct (truthyTime (startTime d)); cbn [negb orb]; [|left; auto].
  destruct (truthyTime (endTime d)); cbn [negb orb]; [|left; auto].
  right.
  destruct (getCalendarClient w) as [[|]|e]; [|left; eauto|left; eauto].
  destruct (toDate w (startTime d)) as [startInstant|]; [|left; eauto].
  destruct (toDate w (endTime d)) as [endInstant|]; [|left; eauto].
  right. eexists text, startInstant, endInstant, _.
  repeat (split; [reflexivity|]).
  match goal with
  | |- context [insert w ?i] => destruct (insert w i) as [response|error] eqn:Hi
  end.
  - left. exists response. split; reflexivity.
  - right. exists error. split; reflexivity.
Qed.

(** X25. [createCalendarEvent] asks the calendar to insert an event at
    most once, and only for a non-empty title and two valid dates with a
    client at hand; the event carries that title and those instants, and
    the guests are notified exactly when there are attendees.  It answers
    with success only after an insert that succeeded, and with missing
    details it fails before a client is even requested. *)
Theorem event_inserted_only_when_valid (w : World) (d : Details) :
  (List.length (inserts (snd (createCalendarEvent w d))) <= 1)%nat /\
  (forall i, In i (inserts (snd (createCalendarEvent w d))) ->
     truthyOpt (EventOperations.title d) = Some (summary (resource i)) /\
     toDate w (startTime d) = Some (startDateTime (resource i)) /\
     toDate w (endTime d) = Some (endDateTime (resource i)) /\
     getCalendarClient w = Ok true /\
     (sendUpdates i = "all" <-> EventOperations.attendees d <> [])) /\
  (forall eventId eventLink meetLink,
     fst (createCalendarEvent w d) = Success eventId eventLink meetLink ->
     exists i response,
       inserts (snd (createCalendarEvent w d)) = [i] /\
       insert w i = Ok response /\
       id response = eventId /\ htmlLink response = eventLink) /\
  (truthyOpt (EventOperations.title d) = None \/
   truthyTime (startTime d) = false \/ truthyTime (endTime d) = false ->
   createCalendarEvent w d
   = (Failure "Missing required event details (title, startTime, or endTime)", [])).
Proof.
  destruct (createCalendarEvent_cases w d)
    as [[Hr Hmiss]|[[error Hr]|(text & s & e & i & Ht & Hs & He & Hc & Hsd & Hed & Hi & Hins)]].
  - rewrite Hr. cbn [fst snd inserts List.length In].
    split; [lia|]. split; [tauto|]. split; [discriminate|]. reflexivity.
  - rewrite Hr. cbn [fst snd inserts List.length In].
    split; [lia|]. split; [tauto|]. split; [discriminate|].
    intros [H|[H|H]]; unfold createCalendarEvent in Hr; rewrite H in Hr.
    + discriminate Hr.
    + destruct (truthyOpt (EventOperations.title d)); discriminate Hr.
    + destruct (truthyOpt (EventOperations.title d)); [|discriminate Hr].
      rewrite orb_true_r in Hr. discriminate Hr.
  - assert (Hshape : forall j, j = i ->
              truthyOpt (EventOperations.title d) = Some (summary (resource j)) /\
              toDate w (startTime d) = Some (startDateTime (resource j)) /\
              toDate w (endTime d) = Some (endDateTime (resource j)) /\
              getCalendarClient w = Ok true /\
              (sendUpdates j = "all" <-> EventOperations.attendees d <> [])).
    { intros j ->. subst i. cbn [resource summary startDateTime endDateTime sendUpdates].
      repeat (split; [assumption|]).
      destruct (EventOperations.attendees d); cbn [isEmpty]; split;
        congruence. }
    assert (Hnot : ~ (truthyOpt (EventOperations.title d) = None \/
                      truthyTime (startTime d) = false \/
                      truthyTime (endTime d) = false))
      by (intros [H|[H|H]]; congruence).
    destruct Hins as [(response & Hok & Hr)|(error & Hthrow & Hr)]; rewrite Hr;
      cbn [fst snd inserts List.length In].
    + split; [lia|]. split; [intros j [<-|[]]; now apply Hshape|].
      split; [|tauto].
      intros eventId eventLink meetLink [= <- <- <-].
      exists i, response. auto.
    + split; [lia|]. split; [intros j [<-|[]]; now apply Hshape|].
      split; [discriminate|tauto].
Qed.

Lemma selection_valid (userInput : string) (context : Context) (index : nat) :
  match selectedIndex userInput with
  | Fin i =>
      if (0 <=? i) && (i <? Z.of_nat (List.length (suggestions context)))
      then Some (Z.to_nat i) else None
  | NaN => None
  end = Some index ->
  exists digits n,
    selectionMatch userInput = Some digits /\
    EventAnalyzer.parseInt digits = Fin n /\
    1 <= n <= Z.of_nat (List.length (suggestions context)) /\
    index = Z.to_nat (n - 1).
Proof.
  unfold selectedIndex.
  destruct (selectionMatch userInput) as [digits|] eqn:Hm.
  - destruct (EventAnalyzer.parseInt digits) as [n|] eqn:Hp; cbn [sub]; [|discriminate].
    destruct ((0 <=? n - 1) && (n - 1 <? Z.of_nat (List.length (suggestions context))))
      eqn:Hb; [|discriminate].
    intros [= <-]. apply andb_true_iff in Hb as [H1 H2].
    apply Z.leb_le in H1. apply Z.ltb_lt in H2.
    exists digits, n. split; [reflexivity|]. split; [exact Hp|].
    split; [lia|reflexivity].
  - cbn [andb Z.leb]. discriminate.
Qed.

(** X26. [handleTimeSelection] asks for an event only when the input
    selects, by a bare number or by "schedule #n", one of the suggestions
    offered, and then for the instants of that suggestion; and it says that
    the event was scheduled only when an insert was made and succeeded. *)
Theorem selection_reports_creation_honestly (w : World) (userInput : string)
    (context : Context) :
  (forall i, In i (inserts (snd (handleTimeSelection w userInput context))) ->
     exists digits n selected,
       selectionMatch userInput = Some digits /\
       EventAnalyzer.parseInt digits = Fin n /\
       1 <= n <= Z.of_nat (List.length (suggestions context)) /\
       nth_error (suggestions context) (Z.to_nat (n - 1)) = Some (Some selected) /\
       toDate w (start selected) = Some (startDateTime (resource i)) /\
       toDate w (end_ selected) = Some (endDateTime (resource i)) /\
       inserts (snd (handleTimeSelection w userInput context)) = [i]) /\
  (JsString.startsWith (fst (handleTimeSelection w userInput context)) "Great!" = true ->
   exists i response,
     inserts (snd (handleTimeSelection w userInput context)) = [i] /\
     insert w i = Ok response).
Proof.
  unfold handleTimeSelection.
  match goal with
  | |- context [match ?v with Some index => _ | None => _ end] =>
      destruct v as [index|] eqn:Hvalid
  end.
  2:{ cbn [fst snd inserts In]. split; [tauto|]. intros H. discriminate H. }
  apply selection_valid in Hvalid as (digits & n & Hm & Hp & Hn & ->).
  destruct (nth_error (suggestions context) (Z.to_nat (n - 1))) as [[selected|]|] eqn:Hnth;
    cbn [fst snd inserts In]; try (split; [tauto|intros H; discriminate H]).
  match goal with
  | |- context [createCalendarEvent w ?d] =>
      destruct (createCalendarEvent_cases w d)
        as [[Hr _]|[[error Hr]|(text & s & e & i & _ & _ & _ & _ & Hsd & Hed & Hi & Hins)]]
  end.
  - rewrite Hr. cbn [fst snd inserts In]. split; [tauto|]. intros H. discriminate H.
  - rewrite Hr. cbn [fst snd inserts In]. split; [tauto|]. intros H. discriminate H.
  - cbn [startTime endTime] in Hsd, Hed.
    destruct Hins as [(response & Hok & Hr)|(error & Hthrow & Hr)]; rewrite Hr;
      cbn [fst snd inserts In].
    + split.
      * intros j [<-|[]]. exists digits, n, selected.
        subst i. cbn [resource startDateTime endDateTime]. auto 10.
      * intros _. exists i, response. auto.
    + split.
      * intros j [<-|[]]. exists digits, n, selected.
        subst i. cbn [resource startDateTime endDateTime]. auto 10.
      * intros H. discriminate H.
Qed.

Lemma confirm_yes (w : SchedulingFlow.World) (userInput : string)
    (st : SchedulingFlow.State) :
  SchedulingFlow.active st = true ->
  SchedulingFlowSpec.notTimedOut w st ->
  SchedulingFlow.stage st = SchedulingFlow.confirming ->
  JsString.toLowerCase userInput = "yes" ->
  SchedulingFlow.handleScheduleIntent w userInput st
  = ("Your event " ++ JsString.dq ++ SchedulingFlow.d_title (SchedulingFlow.data st)
     ++ JsString.dq ++ " has been scheduled successfully!",
     SchedulingFlow.mkState false SchedulingFlow.confirming (SchedulingFlow.data st),
     [FlowExtraSpec.eventOf (SchedulingFlow.data st)]).
Proof.
  intros Ha Ht Hs Hyes.
  unfold SchedulingFlow.handleScheduleIntent, SchedulingFlow.handleScheduleIntent_body.
  rewrite (SchedulingFlowExtra.lower_yes_truthy _ Hyes), Ha. cbn [negb].
  unfold SchedulingFlowSpec.notTimedOut in Ht.
  assert (Hlt : (SchedulingFlow.sessionTimeout
                 <? SchedulingFlow.now w
                    - SchedulingFlow.d_startTimestamp (SchedulingFlow.data st)) = false)
    by (apply Z.ltb_ge; exact Ht).
  rewrite Hlt. unfold SchedulingFlow.step. rewrite Hs, Hyes. reflexivity.
Qed.

(** X27. The scheduling flow does not look at what [createCalendarEvent]
    answers: on "yes" it says that the event has been scheduled and leaves
    the flow, also when the creation of the event it handed over fails. *)
Theorem flow_reports_success_unchecked (w : SchedulingFlow.World) (ops : World)
    (userInput error : string) (st : SchedulingFlow.State) :
  SchedulingFlow.active st = true ->
  SchedulingFlowSpec.notTimedOut w st ->
  SchedulingFlow.stage st = SchedulingFlow.confirming ->
  JsString.toLowerCase userInput = "yes" ->
  fst (createCalendarEvent ops (ofFlow (FlowExtraSpec.eventOf (SchedulingFlow.data st))))
  = Failure error ->
  SchedulingFlowSpec.replyOf (SchedulingFlow.handleScheduleIntent w userInput st)
  = "Your event " ++ JsString.dq ++ SchedulingFlow.d_title (SchedulingFlow.data st)
    ++ JsString.dq ++ " has been scheduled successfully!" /\
  SchedulingFlow.active
    (SchedulingFlowSpec.stateAfter (SchedulingFlow.handleScheduleIntent w userInput st))
  = false /\
  map (fun e => fst (createCalendarEvent ops (ofFlow e)))
      (snd (SchedulingFlow.handleScheduleIntent w userInput st))
  = [Failure error].
Proof.
  intros Ha Ht Hs Hyes Hfail. rewrite (confirm_yes w userInput st Ha Ht Hs Hyes).
  unfold SchedulingFlowSpec.replyOf, SchedulingFlowSpec.stateAfter.
  cbn [fst snd map SchedulingFlow.active]. rewrite Hfail. auto.
Qed.

Lemma flow_reports_success_witness :
  SchedulingFlowSpec.replyOf
    (SchedulingFlow.handleScheduleIntent SchedulingFlowSpec.sampleWorld "Yes" awaitingYes)
  = "Your event " ++ JsString.dq
    ++ SchedulingFlow.d_title (SchedulingFlow.data awaitingYes)
    ++ JsString.dq ++ " has been scheduled successfully!" /\
  SchedulingFlow.active
    (SchedulingFlowSpec.stateAfter
       (SchedulingFlow.handleScheduleIntent SchedulingFlowSpec.sampleWorld "Yes" awaitingYes))
  = false /\
  map (fun e => fst (createCalendarEvent offline (ofFlow e)))
      (snd (SchedulingFlow.handleScheduleIntent SchedulingFlowSpec.sampleWorld "Yes"
              awaitingYes))
  = [Failure "Could not authenticate with Google Calendar"].
Proof.
  apply (flow_reports_success_unchecked SchedulingFlowSpec.sampleWorld offline "Yes"
           "Could not authenticate with Google Calendar" awaitingYes).
  - reflexivity.
  - unfold SchedulingFlowSpec.notTimedOut. vm_compute. discriminate.
  - reflexivity.
  - reflexivity.
  - reflexivity.
Defined.

Lemma event_inserted_witness :
  exists i response,
    inserts (snd (createCalendarEvent online
                    (ofFlow (FlowExtraSpec.eventOf (SchedulingFlow.data awaitingYes)))))
    = [i] /\
    insert online i = Ok response /\
    id response = "evt1" /\ htmlLink response = "https://calendar.example/evt1".
Proof.
  destruct (event_inserted_only_when_valid online
              (ofFlow (FlowExtraSpec.eventOf (SchedulingFlow.data awaitingYes))))
    as (_ & _ & Hsuccess & _).
  apply (Hsuccess "evt1" "https://calendar.example/evt1" None). reflexivity.
Defined.

Lemma selection_witness :
  exists i response,
    inserts (snd (handleTimeSelection online "schedule #2 with video" twoSlots)) = [i] /\
    insert online i = Ok response.
Proof.
  apply (selection_reports_creation_honestly online "schedule #2 with video" twoSlots).
  reflexivity.
Defined.

(** The white space of the pattern is that of JavaScript: a no-break space
    between the word and the number is matched. *)
Lemma nbsp_schedule_selects :
  selectionMatch ("schedule" ++ JsString.nbsp ++ "#2") = Some "2" /\
  selectedIndex ("Schedule" ++ JsString.nbsp ++ "#2 please") = Fin 1.
Proof. split; reflexivity. Qed.

End EventOperationsExtra.

(** ** Drafting a mail *)

Module EmailDraftExtra.

Import Js EmailDraft EmailDraftSpec.




Lemma splitOn_nonempty sep s : JsString.splitOn sep s <> [].
Proof.
  destruct s as [|c s]; simpl; [discriminate|].
  destruct (Ascii.eqb c sep); [discriminate|].
  destruct (JsString.splitOn sep s); discriminate.
Qed.

Lemma oneLine_cons c s :
  oneLine (String c s) -> Ascii.eqb c (ascii_of_nat 10) = false /\ oneLine s.
Proof.
  unfold oneLine. cbn [JsString.splitOn].
  destruct (Ascii.eqb c (ascii_of_nat 10)); [discriminate|].
  intros H. split; [reflexivity|].
  destruct (JsString.splitOn (ascii_of_nat 10) s) as [|h t] eqn:Hs.
  - now apply splitOn_nonempty in Hs.
  - injection H as Hh Ht. now subst.
Qed.

Lemma splitOn_line a b :
  oneLine a ->
  JsString.splitOn (ascii_of_nat 10) (a ++ String (ascii_of_nat 10) b)
  = a :: JsString.splitOn (ascii_of_nat 10) b.
Proof.
  induction a as [|c a IH]; intros Hone.
  - cbn [append JsString.splitOn]. now rewrite Ascii.eqb_refl.
  - apply oneLine_cons in Hone as [Hc Hone].
    cbn [append JsString.splitOn]. rewrite Hc, (IH Hone). reflexivity.
Qed.

Lemma join_cons_char sep c h t :
  join sep (String c h :: t) = String c (join sep (h :: t)).
Proof. destruct t; reflexivity. Qed.

Lemma join_split s : join newline (JsString.splitOn (ascii_of_nat 10) s) = s.
Proof.
  induction s as [|c s IH]; [reflexivity|]. cbn [JsString.splitOn].
  destruct (Ascii.eqb c (ascii_of_nat 10)) eqn:Hc.
  - apply Ascii.eqb_eq in Hc. subst c.
    destruct (JsString.splitOn (ascii_of_nat 10) s) as [|h t] eqn:Hs.
    + now apply splitOn_nonempty in Hs.
    + change (join newline (EmptyString :: h :: t))
        with (String (ascii_of_nat 10) (join newline (h :: t))).
      now rewrite IH.
  - destruct (JsString.splitOn (ascii_of_nat 10) s) as [|h t] eqn:Hs.
    + now apply splitOn_nonempty in Hs.
    + rewrite join_cons_char. now rewrite IH.
Qed.

Lemma append_empty (a : string) : a ++ EmptyString = a.
Proof. induction a as [|c a IH]; [reflexivity|]. cbn [append]. now rewrite IH. Qed.

Lemma splitOn_linesThen (blanks : list string) : forall a rest,
  oneLine a ->
  Forall blank blanks ->
  JsString.splitOn (ascii_of_nat 10) (a ++ linesThen blanks (newline ++ rest))
  = a :: (blanks ++ JsString.splitOn (ascii_of_nat 10) rest)%list.
Proof.
  induction blanks as [|b blanks IH]; intros a rest Ha Hb.
  - cbn [linesThen app]. apply (splitOn_line a rest Ha).
  - inversion Hb as [|? ? [Hone _] Hrest]; subst.
    cbn [linesThen].
    change (a ++ newline ++ b ++ linesThen blanks (newline ++ rest))
      with (a ++ String (ascii_of_nat 10) (b ++ linesThen blanks (newline ++ rest))).
    rewrite (splitOn_line a _ Ha), (IH b rest Hone Hrest). reflexivity.
Qed.

Lemma splitOn_linesEnd (blanks : list string) : forall a,
  oneLine a ->
  Forall blank blanks ->
  JsString.splitOn (ascii_of_nat 10) (a ++ linesThen blanks EmptyString) = a :: blanks.
Proof.
  induction blanks as [|b blanks IH]; intros a Ha Hb.
  - cbn [linesThen]. rewrite append_empty. exact Ha.
  - inversion Hb as [|? ? [Hone _] Hrest]; subst.
    cbn [linesThen].
    change (a ++ newline ++ b ++ linesThen blanks EmptyString)
      with (a ++ String (ascii_of_nat 10) (b ++ linesThen blanks EmptyString)).
    rewrite (splitOn_line a _ Ha), (IH b Hone Hrest). reflexivity.
Qed.

Lemma findBodyStart_blank (blanks : list string) : forall index h t,
  Forall blank blanks ->
  JsString.truthy (JsString.trim h) = true ->
  findBodyStart (S index) (blanks ++ h :: t)%list
  = Some (S index + List.length blanks)%nat.
Proof.
  induction blanks as [|b blanks IH]; intros index h t Hb Hh.
  - cbn [app findBodyStart Nat.ltb Nat.leb List.length]. rewrite Hh. cbn [andb].
    f_equal. lia.
  - inversion Hb as [|? ? [_ Htrim] Hrest]; subst.
    cbn [app findBodyStart List.length]. rewrite Htrim.
    change (JsString.truthy EmptyString) with false.
    rewrite andb_false_r. rewrite (IH (S index) h t Hrest Hh). f_equal. lia.
Qed.

Lemma findBodyStart_none (blanks : list string) : forall index,
  Forall blank blanks ->
  findBodyStart (S index) blanks = None.
Proof.
  induction blanks as [|b blanks IH]; intros index Hb; [reflexivity|].
  inversion Hb as [|? ? [_ Htrim] Hrest]; subst.
  cbn [findBodyStart]. rewrite Htrim.
  change (JsString.truthy EmptyString) with false.
  rewrite andb_false_r. apply (IH (S index) Hrest).
Qed.

Lemma oneLine_char c s :
  Ascii.eqb c (ascii_of_nat 10) = false -> oneLine s -> oneLine (String c s).
Proof.
  unfold oneLine. intros Hc Hs. cbn [JsString.splitOn]. now rewrite Hc, Hs.
Qed.

Lemma subject_oneLine s : oneLine s -> oneLine ("Subject:" ++ s).
Proof.
  intros H. cbn [append]. repeat (apply oneLine_char; [reflexivity|]). exact H.
Qed.

Lemma startsWith_subject s : JsString.startsWith ("Subject:" ++ s) "Subject:" = true.
Proof. unfold JsString.startsWith. cbn. now destruct s. Qed.

Lemma replaceFirst_subject s : replaceFirst "Subject:" EmptyString ("Subject:" ++ s) = s.
Proof.
  cbn [append]. unfold replaceFirst.
  change (String.prefix "Subject:"
            (String "S" (String "u" (String "b" (String "j" (String "e"
              (String "c" (String "t" (String ":" s)))))))))
    with (JsString.startsWith ("Subject:" ++ s) "Subject:").
  rewrite startsWith_subject. reflexivity.
Qed.

(** X29. Splitting a generated text into subject and body: after a first
    line "Subject: ..." the subject is the trimmed rest of that line, and
    the body is the text from the first line on that is not blank, a line
    being blank when it holds nothing but white space (a carriage return
    or a no-break space as much as a space); when only blank lines, or
    nothing, follow the subject line the body is the whole text, subject
    line included; and a text that does not start with "Subject:" is all
    body, with no subject. *)
Theorem subject_line_is_split_off :
  (forall (s rest : string) (blanks : list string),
     oneLine s ->
     Forall blank blanks ->
     JsString.truthy
       (JsString.trim (hd EmptyString (JsString.splitOn (ascii_of_nat 10) rest))) = true ->
     extractDraft ("Subject:" ++ s ++ linesThen blanks (newline ++ rest))
     = (JsString.trim s, rest)) /\
  (forall (s : string) (blanks : list string),
     oneLine s ->
     Forall blank blanks ->
     extractDraft ("Subject:" ++ s ++ linesThen blanks EmptyString)
     = (JsString.trim s, "Subject:" ++ s ++ linesThen blanks EmptyString)) /\
  (forall text : string,
     JsString.startsWith text "Subject:" = false ->
     extractDraft text = (EmptyString, text)).
Proof.
  split; [|split].
  - intros s rest blanks Hone Hblanks Hrest. unfold extractDraft.
    rewrite startsWith_subject.
    assert (Hparts :
      JsString.splitOn (ascii_of_nat 10)
        ("Subject:" ++ s ++ linesThen blanks (newline ++ rest))
      = ("Subject:" ++ s)
          :: (blanks ++ JsString.splitOn (ascii_of_nat 10) rest)%list).
    { change ("Subject:" ++ s ++ linesThen blanks (newline ++ rest))
        with (("Subject:" ++ s) ++ linesThen blanks (newline ++ rest)).
      apply (splitOn_linesThen blanks _ rest (subject_oneLine s Hone) Hblanks). }
    rewrite Hparts.
    destruct (JsString.splitOn (ascii_of_nat 10) rest) as [|h t] eqn:Hs;
      [now apply splitOn_nonempty in Hs|].
    cbn [hd] in Hrest.
    cbn [findBodyStart Nat.ltb Nat.leb andb].
    rewrite (findBodyStart_blank blanks 0 h t Hblanks Hrest).
    cbn [Nat.add Nat.ltb Nat.leb skipn hd].
    rewrite skipn_app, Nat.sub_diag.
    rewrite skipn_all2 by lia.
    cbn [skipn app]. rewrite <- Hs, join_split, replaceFirst_subject. reflexivity.
  - intros s blanks Hone Hblanks. unfold extractDraft. rewrite startsWith_subject.
    assert (Hparts :
      JsString.splitOn (ascii_of_nat 10) ("Subject:" ++ s ++ linesThen blanks EmptyString)
      = ("Subject:" ++ s) :: blanks).
    { change ("Subject:" ++ s ++ linesThen blanks EmptyString)
        with (("Subject:" ++ s) ++ linesThen blanks EmptyString).
      apply (splitOn_linesEnd blanks _ (subject_oneLine s Hone) Hblanks). }
    rewrite Hparts.
    cbn [findBodyStart Nat.ltb Nat.leb andb hd].
    rewrite (findBodyStart_none blanks 0 Hblanks).
    now rewrite replaceFirst_subject.
  - intros text H. unfold extractDraft. now rewrite H.
Qed.


Lemma subject_line_witness :
  extractDraft ("Subject:" ++ " Budget"
                ++ linesThen [JsString.nbsp; EmptyString]
                     (newline ++ ("Hi Alice," ++ newline ++ "the budget is ready.")))
  = ("Budget", "Hi Alice," ++ newline ++ "the budget is ready.") /\
  extractDraft ("Subject:" ++ " Budget" ++ linesThen [" "] EmptyString)
  = ("Budget", "Subject:" ++ " Budget" ++ linesThen [" "] EmptyString).
Proof.
  destruct subject_line_is_split_off as (Hsplit & Honly & _).
  split.
  - apply (Hsplit " Budget" ("Hi Alice," ++ newline ++ "the budget is ready.")
             [JsString.nbsp; EmptyString]).
    + reflexivity.
    + repeat constructor.
    + reflexivity.
  - apply (Honly " Budget" [" "]).
    + reflexivity.
    + repeat constructor.
Defined.

End EmailDraftExtra.

(** ** Times of the 12-hour clock in the fallback *)

Module ClockExtra.

Import JsNum EventAnalyzer ClockSpec.

Lemma In_range x : forall n lo, lo <= x < lo + Z.of_nat n -> In x (range lo n).
Proof.
  induction n as [|n IH]; intros lo H; [lia|].
  cbn [range]. destruct (Z.eq_dec lo x) as [->|Hne]; [now left|].
  right. apply IH. lia.
Qed.

Lemma hourOnly_checked :
  forallb (fun hour =>
             forallb (fun blank =>
                        forallb (hourOnly_ok hour blank) [true; false])
                     [true; false])
          (range 1 12) = true.
Proof. vm_compute. reflexivity. Qed.

Lemma hourMinutes_checked :
  forallb (fun hour =>
             forallb (fun minutes =>
                        forallb (hourMinutes_ok hour minutes) [true; false])
                     (range 0 60))
          (range 1 12) = true.
Proof. vm_compute. reflexivity. Qed.

Lemma In_bool (b : bool) : In b [true; false].
Proof. destruct b; simpl; auto. Qed.

(** X30. The conversion of the fallback from the 12-hour clock: an hour
    from 1 to 12 followed by "am" or "pm", with or without a blank between,
    becomes the right "HH:00" of the 24-hour clock, 12 am being 00:00 and
    12 pm 12:00; with minutes, the hour is converted as well, but the suffix
    stays attached to the minutes, so that the result is not a clock
    time. *)
Theorem twelve_hour_conversion (hour minutes : Z) (blank isPM : bool) :
  1 <= hour <= 12 ->
  0 <= minutes <= 59 ->
  convertTimeText (hourOnly hour blank isPM)
  = Some (pad2 (Fin (hour24 hour isPM)) ++ ":00") /\
  convertTimeText (hourMinutes hour minutes isPM)
  = Some (pad2 (Fin (hour24 hour isPM)) ++ ":" ++ pad2 (Fin minutes) ++ suffix isPM).
Proof.
  intros Hh Hm.
  assert (Hin : In hour (range 1 12)) by (apply In_range; lia).
  assert (Hmin : In minutes (range 0 60)) by (apply In_range; lia).
  split.
  - pose proof hourOnly_checked as H. rewrite forallb_forall in H.
    specialize (H hour Hin). rewrite forallb_forall in H.
    specialize (H blank (In_bool blank)). rewrite forallb_forall in H.
    specialize (H isPM (In_bool isPM)). unfold hourOnly_ok in H.
    destruct (convertTimeText (hourOnly hour blank isPM)) as [text|]; [|discriminate].
    apply String.eqb_eq in H. now subst.
  - pose proof hourMinutes_checked as H. rewrite forallb_forall in H.
    specialize (H hour Hin). rewrite forallb_forall in H.
    specialize (H minutes Hmin). rewrite forallb_forall in H.
    specialize (H isPM (In_bool isPM)). unfold hourMinutes_ok in H.
    destruct (convertTimeText (hourMinutes hour minutes isPM)) as [text|]; [|discriminate].
    apply String.eqb_eq in H. now subst.
Qed.

Lemma twelve_hour_witness :
  convertTimeText "12 am" = Some "00:00" /\
  convertTimeText "12:05am" = Some "00:05am".
Proof.
  apply (twelve_hour_conversion 12 5 true false); lia.
Defined.

End ClockExtra.
